(** * Normalizador de planilhas: a shallow embedding of the normalization
      and validation pipeline, with the properties of its specification.

    Sources embedded: [schema.py] (canon_col, COLUMN_ALIASES,
    REQUIRED_COLUMNS), [normalize.py] (the three field parsers,
    normalize_dataframe, normalize_excel), [validation.py] (Issue,
    validate_dataframe, write_issues_csv, has_errors) and
    [run_artifacts.py] (make_run_dir, write_summary).

    Conventions of the model
    - A Python [str] is a list of Unicode code points ([list N]).  Literals
      are written as UTF-8 text and decoded by [pystr].
    - Python computations that may raise live in the result type [py].
    - The character tables of the interpreter (case mapping, NFKD) are given
      for the code points U+0000..U+00FF; above that range a code point is
      its own upper case, lower case and decomposition.  [\d] and the digits
      of [float()] are the ASCII digits.
    - A finite [float] is kept as an exact decimal (sign, significant
      digits, position of the decimal point); rounding to binary64 is not
      part of the model.
    - A table is its labels and its rows of cells.  The column types of
      pandas (dtype) are not part of the model: a cell is treated as the
      cell of a column of mixed content, and the places where a column of
      numbers or of dates behaves differently are named at the definitions
      ([where_notnull_none], [astype_str_strip]).
    - The Excel writer is the write of a workbook node; its own errors are
      not part of the model. *)

From Stdlib Require Import ZArith NArith Ascii String Decimal.
From stdpp Require Import base decidable option list gmap.

(** ** Python strings *)

Module PyStr.

(** [str]: a sequence of code points. *)
Abbreviation str := (list N).

(** Decoding of the UTF-8 bytes of a Rocq literal into code points. *)
Fixpoint utf8_decode (bs : list N) : str :=
  match bs with
  | [] => []
  | b :: t =>
      if (b <? 128)%N then b :: utf8_decode t
      else if (b <? 224)%N then
        match t with
        | c1 :: t1 => ((b - 192) * 64 + (c1 - 128))%N :: utf8_decode t1
        | _ => []
        end
      else if (b <? 240)%N then
        match t with
        | c1 :: c2 :: t2 =>
            ((b - 224) * 4096 + (c1 - 128) * 64 + (c2 - 128))%N
              :: utf8_decode t2
        | _ => []
        end
      else
        match t with
        | c1 :: c2 :: c3 :: t3 =>
            ((b - 240) * 262144 + (c1 - 128) * 4096
             + (c2 - 128) * 64 + (c3 - 128))%N :: utf8_decode t3
        | _ => []
        end
  end.

Fixpoint bytes_of_string (s : string) : list N :=
  match s with
  | EmptyString => []
  | String a r => N_of_ascii a :: bytes_of_string r
  end.

Definition pystr (s : string) : str := utf8_decode (bytes_of_string s).

Definition ch (a : ascii) : N := N_of_ascii a.

(** [str.isspace] on one code point: the characters removed by
    [str.strip()] and matched by [\s]. *)
Definition is_space (c : N) : bool :=
  ((9 <=? c) && (c <=? 13) || (28 <=? c) && (c <=? 32)
   || (c =? 133) || (c =? 160) || (c =? 5760)
   || (8192 <=? c) && (c <=? 8202)
   || (c =? 8232) || (c =? 8233) || (c =? 8239) || (c =? 8287)
   || (c =? 12288))%N.

Fixpoint lstrip (s : str) : str :=
  match s with
  | c :: t => if is_space c then lstrip t else s
  | [] => []
  end.

Definition rstrip (s : str) : str := rev (lstrip (rev s)).

(** [s.strip()] *)
Definition strip (s : str) : str := rstrip (lstrip s).

(** [s.upper()], one code point at a time (U+00DF gives two). *)
Definition upper_char (c : N) : str :=
  if ((97 <=? c) && (c <=? 122))%N then [(c - 32)%N]
  else if (c =? 181)%N then [924%N]
  else if (c =? 223)%N then [83%N; 83%N]
  else if ((224 <=? c) && (c <=? 254) && negb (c =? 247))%N then [(c - 32)%N]
  else if (c =? 255)%N then [376%N]
  else [c].

Definition upper (s : str) : str := flat_map upper_char s.

(** [s.lower()] *)
Definition lower_char (c : N) : N :=
  if ((65 <=? c) && (c <=? 90))%N then (c + 32)%N
  else if ((192 <=? c) && (c <=? 222) && negb (c =? 215))%N then (c + 32)%N
  else c.

Definition lower (s : str) : str := map lower_char s.

(** [s.startswith(p)] *)
Fixpoint startswith (p s : str) : bool :=
  match p, s with
  | [], _ => true
  | a :: p', b :: s' => (a =? b)%N && startswith p' s'
  | _ :: _, [] => false
  end.

(** [sub in s] *)
Fixpoint contains (sub s : str) : bool :=
  startswith sub s ||
  match s with
  | [] => false
  | _ :: t => contains sub t
  end.

(** [s.replace(old, new)]: every non-overlapping occurrence, left to
    right.  [skip] counts the characters of a match still to be dropped. *)
Fixpoint replace_from (old new : str) (skip : nat) (s : str) : str :=
  match s with
  | [] => []
  | c :: t =>
      match skip with
      | S k => replace_from old new k t
      | O =>
          if startswith old s
          then new ++ replace_from old new (length old - 1) t
          else c :: replace_from old new 0 t
      end
  end.

Definition replace (old new s : str) : str :=
  match old with
  | [] => new ++ flat_map (fun c => c :: new) s
  | _ => replace_from old new 0 s
  end.

(** [s.rfind(c)] for a one-character needle: the highest index, or -1. *)
Fixpoint rfind_from (c : N) (i : Z) (best : Z) (s : str) : Z :=
  match s with
  | [] => best
  | d :: t => rfind_from c (i + 1) (if (d =? c)%N then i else best) t
  end.

Definition rfind (s : str) (c : N) : Z := rfind_from c 0 (-1) s.

Definition is_digit (c : N) : bool := ((48 <=? c) && (c <=? 57))%N.

(** Decimal text of a natural number, as [str(n)] prints it. *)
Fixpoint uint_str (u : Decimal.uint) : str :=
  match u with
  | Nil => []
  | D0 r => 48%N :: uint_str r
  | D1 r => 49%N :: uint_str r
  | D2 r => 50%N :: uint_str r
  | D3 r => 51%N :: uint_str r
  | D4 r => 52%N :: uint_str r
  | D5 r => 53%N :: uint_str r
  | D6 r => 54%N :: uint_str r
  | D7 r => 55%N :: uint_str r
  | D8 r => 56%N :: uint_str r
  | D9 r => 57%N :: uint_str r
  end.

Definition str_of_N (n : N) : str := uint_str (N.to_uint n).

Definition str_of_Z (z : Z) : str :=
  match z with
  | Zneg p => ch "-" :: str_of_N (Npos p)
  | _ => str_of_N (Z.to_N z)
  end.

(** [f"{n:0{w}d}"]: zero padding on the left up to width [w]. *)
Definition zfill (w : nat) (s : str) : str :=
  replicate (w - length s) 48%N ++ s.

End PyStr.
Export PyStr.

(** ** schema.py *)

Module Schema.

(** Canonical decomposition of the accented capitals of U+00C0..U+00DD:
    base letter and combining mark. *)
Definition capital_decomp (c : N) : option (N * N) :=
  match c with
  | 192 => Some (65, 768) | 193 => Some (65, 769) | 194 => Some (65, 770)
  | 195 => Some (65, 771) | 196 => Some (65, 776) | 197 => Some (65, 778)
  | 199 => Some (67, 807)
  | 200 => Some (69, 768) | 201 => Some (69, 769) | 202 => Some (69, 770)
  | 203 => Some (69, 776)
  | 204 => Some (73, 768) | 205 => Some (73, 769) | 206 => Some (73, 770)
  | 207 => Some (73, 776)
  | 209 => Some (78, 771)
  | 210 => Some (79, 768) | 211 => Some (79, 769) | 212 => Some (79, 770)
  | 213 => Some (79, 771) | 214 => Some (79, 776)
  | 217 => Some (85, 768) | 218 => Some (85, 769) | 219 => Some (85, 770)
  | 220 => Some (85, 776)
  | 221 => Some (89, 769)
  | _ => None
  end%N.

(** [unicodedata.normalize("NFKD", ch)] for one code point. *)
Definition nfkd_char (c : N) : str :=
  match c with
  | 160 => [32] | 168 => [32; 776] | 170 => [97] | 175 => [32; 772]
  | 178 => [50] | 179 => [51] | 180 => [32; 769] | 181 => [956]
  | 184 => [32; 807] | 185 => [49] | 186 => [111]
  | 188 => [49; 8260; 52] | 189 => [49; 8260; 50] | 190 => [51; 8260; 52]
  | 255 => [121; 776]
  | _ =>
      match capital_decomp c with
      | Some (b, m) => [b; m]
      | None =>
          match capital_decomp (c - 32) with
          | Some (b, m) => if (224 <=? c) then [b + 32; m] else [c]
          | None => [c]
          end
      end
  end%N.

Definition nfkd (s : str) : str := flat_map nfkd_char s.

(** [unicodedata.combining(ch) != 0]: the combining diacritical marks
    U+0300..U+036F, U+034F (class 0) excepted. *)
Definition combining (c : N) : bool :=
  ((768 <=? c) && (c <=? 879) && negb (c =? 847))%N.

(** [re.sub(r"[class]+", rep, s)]: each maximal run of characters of the
    class is replaced by [rep]. *)
Fixpoint sub_runs (cls : N -> bool) (rep : str) (in_run : bool) (s : str) : str :=
  match s with
  | [] => []
  | c :: t =>
      if cls c
      then (if in_run then [] else rep) ++ sub_runs cls rep true t
      else c :: sub_runs cls rep false t
  end.

Definition re_sub (cls : N -> bool) (rep : str) (s : str) : str :=
  sub_runs cls rep false s.

(** [[_\-\/]] *)
Definition is_separator (c : N) : bool :=
  ((c =? ch "_") || (c =? ch "-") || (c =? ch "/"))%N.

(** [[a-z0-9 ]] *)
Definition is_key_char (c : N) : bool :=
  ((97 <=? c) && (c <=? 122) || (48 <=? c) && (c <=? 57) || (c =? 32))%N.

Definition canon_col (name : str) : str :=
  let s := lower (strip name) in
  (* remove acentos *)
  let s := filter (fun c => combining c = false) (nfkd s) in
  (* separadores comuns viram espaço *)
  let s := re_sub is_separator (pystr " ") s in
  (* remove tudo que não é letra/número/espaço *)
  let s := re_sub (fun c => negb (is_key_char c)) [] s in
  (* compacta espaços *)
  strip (re_sub is_space (pystr " ") s).

(** Mapa: canon_col(coluna_origem) -> nome padrão interno *)
Definition COLUMN_ALIASES : gmap str str :=
  list_to_map
    [ (pystr "cliente", pystr "Cliente");
      (pystr "nome cliente", pystr "Cliente");
      (pystr "contrato", pystr "Contrato");
      (pystr "nr contrato", pystr "Contrato");
      (pystr "numero contrato", pystr "Contrato");
      (pystr "taxa", pystr "Taxa");
      (pystr "tx", pystr "Taxa");
      (pystr "emissao", pystr "Emissão");
      (pystr "emissao contrato", pystr "Emissão");
      (pystr "data emissao", pystr "Emissão");
      (pystr "data de emissao", pystr "Emissão");
      (pystr "prazo", pystr "Prazo");
      (pystr "prazo meses", pystr "Prazo");
      (pystr "vlr liberado", pystr "Vlr Liberado");
      (pystr "valor liberado", pystr "Vlr Liberado");
      (pystr "valor liberacao", pystr "Vlr Liberado");
      (pystr "valor cancelado", pystr "Valor Cancelado");
      (pystr "vlr cancelado", pystr "Valor Cancelado");
      (pystr "valor pago", pystr "VALOR PAGO");
      (pystr "vlr pago", pystr "VALOR PAGO");
      (pystr "data pagamento", pystr "Data Pagamento");
      (pystr "data do pagamento", pystr "Data Pagamento");
      (pystr "pago", pystr "Pago");
      (pystr "ted devolvida", pystr "TED/Devolvida");
      (pystr "ted devolvido", pystr "TED/Devolvida");
      (pystr "teddevolvida", pystr "TED/Devolvida");
      (pystr "valor devolvido", pystr "Valor Devolvido");
      (pystr "valor devolucao", pystr "Valor Devolvido") ].

(** Colunas mínimas para o pipeline funcionar bem.  The list is in
    code-point order, the order [sorted] gives to any subset of it. *)
Definition REQUIRED_COLUMNS : list str :=
  [ pystr "Cliente"; pystr "Contrato"; pystr "Emissão"; pystr "Vlr Liberado" ].

End Schema.
Export Schema.

(** ** Python values, exceptions and [float] *)

Module PyValue.

(** A finite float as an exact decimal: the value is
    [(-1)^neg * 0.d1 d2 ... dn * 10^decpt], [digits] without leading or
    trailing zero ([[]] for zero). *)
Inductive pyfloat :=
  | FNan
  | FInf (neg : bool)
  | FFin (neg : bool) (digits : list N) (decpt : Z).

Record timestamp := Timestamp {
  year : N; month : N; day : N; hour : N; minute : N; second : N }.

(** What a cell of a table, or an argument of a parser, can hold. *)
Inductive value :=
  | VNone
  | VBool (b : bool)
  | VInt (z : Z)
  | VFloat (f : pyfloat)
  | VStr (s : str)
  | VTimestamp (t : timestamp)
  | VNaT.

Inductive message :=
  | InvalidFloatLiteral (s : str)
  | UnknownDatetimeFormat (s : str)
  | ColunasObrigatoriasAusentes (missing : list str)
  | StrictIssuesError.

Inductive exn :=
  | ValueError (m : message).

(** Outcome of a Python computation: a value, or a raised exception. *)
Inductive py (A : Type) :=
  | Ok (a : A)
  | Raise (e : exn).
Arguments Ok {A} a.
Arguments Raise {A} e.

Definition bind {A B} (c : py A) (k : A -> py B) : py B :=
  match c with
  | Ok a => k a
  | Raise e => Raise e
  end.

(** [try: c  except ValueError: h] *)
Definition try_except_ValueError {A} (c : py A) (h : py A) : py A :=
  match c with
  | Ok a => Ok a
  | Raise (ValueError _) => h
  end.

#[global] Instance pyfloat_eq_dec : EqDecision pyfloat.
Proof. solve_decision. Defined.
#[global] Instance timestamp_eq_dec : EqDecision timestamp.
Proof. solve_decision. Defined.
#[global] Instance value_eq_dec : EqDecision value.
Proof. solve_decision. Defined.

(** *** [repr] of a float *)

Definition digit_chars (ds : list N) : str := map (fun d => (d + 48)%N) ds.

(** The exponent of the scientific form: sign and at least two digits. *)
Definition exponent_text (e : Z) : str :=
  (if (e <? 0)%Z then ch "-" else ch "+")
    :: zfill 2 (str_of_N (Z.abs_N e)).

Definition finite_repr (digits : list N) (decpt : Z) : str :=
  let n := Z.of_nat (length digits) in
  match digits with
  | [] => pystr "0.0"
  | d1 :: rest =>
      if ((decpt <=? -4) || (16 <? decpt))%Z then
        (* scientific *)
        digit_chars [d1]
          ++ (match rest with [] => [] | _ => ch "." :: digit_chars rest end)
          ++ ch "e" :: exponent_text (decpt - 1)
      else if (decpt <=? 0)%Z then
        pystr "0." ++ replicate (Z.to_nat (- decpt)) 48%N ++ digit_chars digits
      else if (n <=? decpt)%Z then
        digit_chars digits ++ replicate (Z.to_nat (decpt - n)) 48%N ++ pystr ".0"
      else
        digit_chars (take (Z.to_nat decpt) digits)
          ++ ch "." :: digit_chars (drop (Z.to_nat decpt) digits)
  end.

Definition float_repr (f : pyfloat) : str :=
  match f with
  | FNan => pystr "nan"
  | FInf false => pystr "inf"
  | FInf true => pystr "-inf"
  | FFin neg ds dp => (if neg then [ch "-"] else []) ++ finite_repr ds dp
  end.

Definition timestamp_str (t : timestamp) : str :=
  zfill 4 (str_of_N (year t)) ++ ch "-" :: zfill 2 (str_of_N (month t))
    ++ ch "-" :: zfill 2 (str_of_N (day t))
    ++ ch " " :: zfill 2 (str_of_N (hour t))
    ++ ch ":" :: zfill 2 (str_of_N (minute t))
    ++ ch ":" :: zfill 2 (str_of_N (second t)).

(** [str(value)] *)
Definition str_ (v : value) : str :=
  match v with
  | VNone => pystr "None"
  | VBool true => pystr "True"
  | VBool false => pystr "False"
  | VInt z => str_of_Z z
  | VFloat f => float_repr f
  | VStr s => s
  | VTimestamp t => timestamp_str t
  | VNaT => pystr "NaT"
  end.

(** [pd.isna(value)] on a scalar *)
Definition isna (v : value) : bool :=
  match v with
  | VNone | VFloat FNan | VNaT => true
  | _ => false
  end.

(** *** [float(s)] *)

(** The rest of a [digitpart] after its first digit: digits, each
    optionally preceded by one underscore. *)
Fixpoint digitpart_rest (s : str) : list N * str :=
  match s with
  | [] => ([], [])
  | c :: t =>
      if is_digit c then
        let '(ds, r) := digitpart_rest t in ((c - 48)%N :: ds, r)
      else if (c =? ch "_")%N then
        match t with
        | d :: t' =>
            if is_digit d then
              let '(ds, r) := digitpart_rest t' in ((d - 48)%N :: ds, r)
            else ([], s)
        | [] => ([], s)
        end
      else ([], s)
  end.

(** [digitpart ::= digit (["_"] digit)*] *)
Definition digitpart (s : str) : option (list N * str) :=
  match s with
  | c :: t =>
      if is_digit c then
        let '(ds, r) := digitpart_rest t in Some ((c - 48)%N :: ds, r)
      else None
  | [] => None
  end.

(** [sign ::= "+" | "-"], optional: whether negative, and the rest. *)
Definition opt_sign (s : str) : bool * str :=
  match s with
  | c :: t =>
      if (c =? ch "-")%N then (true, t)
      else if (c =? ch "+")%N then (false, t)
      else (false, s)
  | [] => (false, [])
  end.

(** [number ::= [digitpart] "." digitpart | digitpart ["."]]: integer
    digits, fraction digits and the rest. *)
Definition number (s : str) : option (list N * list N * str) :=
  match digitpart s with
  | Some (ip, r) =>
      match r with
      | c :: r' =>
          if (c =? ch ".")%N then
            match digitpart r' with
            | Some (fp, r'') => Some (ip, fp, r'')
            | None => Some (ip, [], r')
            end
          else Some (ip, [], r)
      | [] => Some (ip, [], [])
      end
  | None =>
      match s with
      | c :: r' =>
          if (c =? ch ".")%N then
            match digitpart r' with
            | Some (fp, r'') => Some ([], fp, r'')
            | None => None
            end
          else None
      | [] => None
      end
  end.

Definition digits_value (ds : list N) : Z :=
  fold_left (fun acc d => (acc * 10 + Z.of_N d)%Z) ds 0%Z.

(** [exponent ::= ("e" | "E") [sign] digitpart], optional. *)
Definition exponent (s : str) : option (Z * str) :=
  match s with
  | [] => Some (0%Z, [])
  | c :: t =>
      if ((c =? ch "e") || (c =? ch "E"))%N then
        let '(neg, t') := opt_sign t in
        match digitpart t' with
        | Some (ds, r) =>
            Some (if neg then (- digits_value ds)%Z else digits_value ds, r)
        | None => None
        end
      else Some (0%Z, s)
  end.

Fixpoint drop_zeros (ds : list N) : list N :=
  match ds with
  | 0%N :: t => drop_zeros t
  | _ => ds
  end.

(** The float written by integer digits [ip], fraction digits [fp] and
    decimal exponent [e]. *)
Definition make_finite (neg : bool) (ip fp : list N) (e : Z) : pyfloat :=
  let all := ip ++ fp in
  let sig := drop_zeros all in
  let lead := Z.of_nat (length all - length sig) in
  match rev (drop_zeros (rev sig)) with
  | [] => FFin neg [] 0
  | ds => FFin neg ds (Z.of_nat (length ip) + e - lead)
  end.

Definition float_ (s : str) : py pyfloat :=
  let s' := strip s in
  let '(neg, body) := opt_sign s' in
  let word := lower body in
  if bool_decide (word = pystr "inf") || bool_decide (word = pystr "infinity")
  then Ok (FInf neg)
  else if bool_decide (word = pystr "nan") then Ok FNan
  else
    match number body with
    | Some (ip, fp, r) =>
        match exponent r with
        | Some (e, []) => Ok (make_finite neg ip fp e)
        | _ => Raise (ValueError (InvalidFloatLiteral s))
        end
    | None => Raise (ValueError (InvalidFloatLiteral s))
    end.

Definition float_of_N (n : N) : pyfloat :=
  make_finite false (map (fun c => (c - 48)%N) (str_of_N n)) [] 0.

End PyValue.
Export PyValue.

(** ** Tables *)

Module Frame.

(** A [pandas.DataFrame] with the default integer index: the column labels
    and the rows, each row holding one cell per label.  Labels are taken to
    be pairwise distinct; with repeated labels [row.get] and [df[col]]
    would return a frame slice in pandas, which the model leaves out. *)
Record DataFrame := {
  columns : list str;
  rows : list (list value) }.

(** [row.get(label)]: the cell under [label], [None] when there is no such
    column. *)
Fixpoint row_get (cols : list str) (cells : list value) (label : str) : value :=
  match cols, cells with
  | c :: cs, v :: vs => if decide (c = label) then v else row_get cs vs label
  | _, _ => VNone
  end.

(** [df[label] = df[label].apply(f)] read as a map over the rows: the same
    function on the cell under [label], the other cells untouched. *)
Fixpoint apply_cells (label : str) (f : value -> py value)
    (cols : list str) (cells : list value) : py (list value) :=
  match cols, cells with
  | c :: cs, v :: vs =>
      bind (if decide (c = label) then f v else Ok v) (fun v' =>
      bind (apply_cells label f cs vs) (fun vs' => Ok (v' :: vs')))
  | _, _ => Ok cells
  end.

Fixpoint apply_rows (label : str) (f : value -> py value)
    (cols : list str) (rs : list (list value)) : py (list (list value)) :=
  match rs with
  | [] => Ok []
  | r :: rest =>
      bind (apply_cells label f cols r) (fun r' =>
      bind (apply_rows label f cols rest) (fun rest' => Ok (r' :: rest')))
  end.

Definition apply_column (label : str) (f : value -> py value)
    (df : DataFrame) : py DataFrame :=
  bind (apply_rows label f (columns df) (rows df)) (fun rs =>
  Ok {| columns := columns df; rows := rs |}).

(** [df[label].notna().sum()] *)
Definition count_notna (label : str) (df : DataFrame) : Z :=
  Z.of_nat (length (filter (fun r => isna (row_get (columns df) r label) = false)
                           (rows df))).

(** [df.where(pd.notnull(df), None)].  The table is held cell by cell,
    without the column types of pandas: every missing cell becomes [None],
    which is what pandas does in a column of mixed content (dtype object).
    In a column that holds only numbers, or only dates, pandas keeps the
    NaN, or the NaT, in place. *)
Definition where_notnull_none (df : DataFrame) : DataFrame :=
  {| columns := columns df;
     rows := map (map (fun v => if isna v then VNone else v)) (rows df) |}.

End Frame.
Export Frame.

(** ** validation.py *)

Module Validation.

Inductive severity_t := ERROR | WARN.

#[global] Instance severity_eq_dec : EqDecision severity_t.
Proof. solve_decision. Defined.

Record Issue := {
  severity : severity_t;
  row : option nat;
  contrato : option str;
  cliente : option str;
  message : str }.

#[global] Instance Issue_eq_dec : EqDecision Issue.
Proof. solve_decision. Defined.

Definition _s (val : value) : option str :=
  match val with
  | VNone => None
  | _ =>
      let s := strip (str_ val) in
      match s with [] => None | _ => Some s end
  end.

(** [x == "SIM"] *)
Definition is_SIM (v : value) : bool := bool_decide (v = VStr (pystr "SIM")).

(** [issues.append(i)] under a condition *)
Definition append_if (cond : bool) (i : Issue) (issues : list Issue) : list Issue :=
  if cond then issues ++ [i] else issues.

(** The body of the loop of [validate_dataframe] for the row [idx]. *)
Definition validate_row (cols : list str) (idx : nat) (cells : list value)
    (issues : list Issue) : list Issue :=
  let get := row_get cols cells in
  let cliente := _s (get (pystr "Cliente")) in
  let contrato := _s (get (pystr "Contrato")) in
  let pago := get (pystr "Pago") in
  let data_pag := get (pystr "Data Pagamento") in
  let vlr_pago := get (pystr "VALOR PAGO") in
  let ted := get (pystr "TED/Devolvida") in
  let vlr_dev := get (pystr "Valor Devolvido") in
  (* Contrato/Cliente vazios = ERROR *)
  let issues :=
    append_if (negb (bool_decide (is_Some contrato)))
      (Build_Issue ERROR (Some idx) None cliente (pystr "Contrato vazio")) issues in
  let issues :=
    append_if (negb (bool_decide (is_Some cliente)))
      (Build_Issue ERROR (Some idx) contrato None (pystr "Cliente vazio")) issues in
  (* Pago = SIM -> precisa data e valor *)
  let issues :=
    if is_SIM pago then
      let issues :=
        append_if (isna data_pag)
          (Build_Issue ERROR (Some idx) contrato cliente
             (pystr "Pago=SIM mas Data Pagamento vazio")) issues in
      append_if (isna vlr_pago)
        (Build_Issue ERROR (Some idx) contrato cliente
           (pystr "Pago=SIM mas VALOR PAGO vazio")) issues
    else issues in
  (* Se não pago, mas valor pago preenchido -> WARN *)
  let issues :=
    append_if (negb (is_SIM pago) && negb (isna vlr_pago))
      (Build_Issue WARN (Some idx) contrato cliente
         (pystr "Pago!=SIM mas VALOR PAGO preenchido")) issues in
  (* TED/Devolvida = SIM -> precisa valor devolvido *)
  append_if (is_SIM ted && isna vlr_dev)
    (Build_Issue ERROR (Some idx) contrato cliente
       (pystr "TED/Devolvida=SIM mas Valor Devolvido vazio")) issues.

(** [for idx, row in df.iterrows(): ...] from index [idx] on. *)
Fixpoint iterrows (cols : list str) (idx : nat) (rs : list (list value))
    (issues : list Issue) : list Issue :=
  match rs with
  | [] => issues
  | r :: rest => iterrows cols (S idx) rest (validate_row cols idx r issues)
  end.

Definition validate_dataframe (df : DataFrame) : list Issue :=
  iterrows (columns df) 0 (rows df) [].

(** True se houver pelo menos um ERROR. *)
Definition has_errors (issues : list Issue) : bool :=
  existsb (fun i => bool_decide (severity i = ERROR)) issues.

End Validation.
Export Validation.

(** ** Files *)

Module RunSummaryData.

(** The counters of [_apply_with_stats]. *)
Record transform_stats := {
  before_non_empty : Z;
  after_non_empty : Z;
  became_empty : Z }.

Record RunSummary := {
  started_at : str;
  input_file : str;
  output_file : str;
  rows : Z;
  cols : Z;
  num_errors : Z;
  num_warn : Z;
  notes : list (str * transform_stats) }.

End RunSummaryData.

Module Files.

(** A [pathlib.Path] by its components; [[]] is the current directory. *)
Definition path := list str.

(** [p / name] *)
Definition join (p : path) (name : str) : path := p ++ [name].

(** [p.parent] *)
Definition parent (p : path) : path := removelast p.

(** [p.name] *)
Definition name (p : path) : str := List.last p [].

(** [str(p)] *)
Fixpoint path_str (p : path) : str :=
  match p with
  | [] => pystr "."
  | [c] => c
  | c :: q => c ++ ch "/" :: path_str q
  end.

Inductive node :=
  | Dir
  | IssuesCsv (issues : list Issue)
  | Workbook (df : DataFrame) (formatted : bool)
  | SummaryJson (s : RunSummaryData.RunSummary).

(** The part of the file system the run touches: what exists, and what it
    holds.  Failing system calls (permissions, a file in the place of a
    directory) are left out. *)
Definition filesystem := gmap path node.

(** [p.exists()] *)
Definition exists_ (fs : gmap path node) (p : path) : bool :=
  bool_decide (is_Some (fs !! p)).

(** [p.unlink()] *)
Definition unlink (p : path) (fs : gmap path node) : gmap path node := delete p fs.

Definition mkdir_one (fs : gmap path node) (p : path) : gmap path node :=
  match fs !! p with
  | None => <[p := Dir]> fs
  | Some _ => fs
  end.

(** The ancestors of [p] and [p] itself, outermost first. *)
Definition ancestors_and_self (p : path) : list path :=
  map (fun n => take n p) (seq 1 (length p)).

(** [p.mkdir(parents=True, exist_ok=True)] *)
Definition mkdir_parents (p : path) (fs : gmap path node) : gmap path node :=
  fold_left mkdir_one (ancestors_and_self p) fs.

Definition write_file (p : path) (n : node) (fs : gmap path node) : gmap path node :=
  <[p := n]> fs.

End Files.
Export Files.

Module Artifacts.

(** validation.py: escreve issues em CSV; retorna True se houver issues. *)
Definition write_issues_csv (issues : list Issue) (p : path)
    (fs : gmap path node) : gmap path node * bool :=
  match issues with
  | [] => ((if exists_ fs p then unlink p fs else fs), false)
  | _ => (write_file p (IssuesCsv issues) (mkdir_parents (parent p) fs), true)
  end.

(** [now.strftime("%Y-%m-%d_%H-%M-%S")] *)
Definition strftime_run (t : timestamp) : str :=
  zfill 4 (str_of_N (year t)) ++ ch "-" :: zfill 2 (str_of_N (month t))
    ++ ch "-" :: zfill 2 (str_of_N (day t))
    ++ ch "_" :: zfill 2 (str_of_N (hour t))
    ++ ch "-" :: zfill 2 (str_of_N (minute t))
    ++ ch "-" :: zfill 2 (str_of_N (second t)).

(** [now.isoformat(timespec="seconds")] *)
Definition isoformat_seconds (t : timestamp) : str :=
  zfill 4 (str_of_N (year t)) ++ ch "-" :: zfill 2 (str_of_N (month t))
    ++ ch "-" :: zfill 2 (str_of_N (day t))
    ++ ch "T" :: zfill 2 (str_of_N (hour t))
    ++ ch ":" :: zfill 2 (str_of_N (minute t))
    ++ ch ":" :: zfill 2 (str_of_N (second t)).

(** run_artifacts.py; [now] is the reading of the clock. *)
Definition make_run_dir (now : timestamp) (base_output_dir : path)
    (fs : gmap path node) : gmap path node * path :=
  let ts := strftime_run now in
  let run_dir := join (join base_output_dir (pystr "runs")) ts in
  (mkdir_parents run_dir fs, run_dir).

Definition write_summary (summary : RunSummaryData.RunSummary) (p : path)
    (fs : gmap path node) : gmap path node :=
  write_file p (SummaryJson summary) (mkdir_parents (parent p) fs).

End Artifacts.
Export Artifacts.

(** ** normalize.py *)

Module Normalize.

(** [_RE_DATE = re.compile(r"(\d{2}/\d{2}/\d{4})")]: whether a text is
    exactly of that shape. *)
Definition date_shape (m : str) : bool :=
  match m with
  | [d1; d2; s1; m1; m2; s2; y1; y2; y3; y4] =>
      is_digit d1 && is_digit d2 && (s1 =? ch "/")%N
      && is_digit m1 && is_digit m2 && (s2 =? ch "/")%N
      && is_digit y1 && is_digit y2 && is_digit y3 && is_digit y4
  | _ => false
  end.

(** [_RE_DATE.search(s)]: [m.group(1)] of the leftmost match. *)
Fixpoint re_date_search (s : str) : option str :=
  match s with
  | [] => None
  | _ :: t => if date_shape (take 10 s) then Some (take 10 s) else re_date_search t
  end.

Definition truthy : list str :=
  [pystr "SIM"; pystr "S"; pystr "YES"; pystr "Y"; pystr "TRUE"; pystr "1"].

Definition falsy : list str :=
  [pystr "NÃO"; pystr "NAO"; pystr "N"; pystr "NO"; pystr "FALSE"; pystr "0"; pystr ""].

Definition _normalize_yes_no (value : value) : py str :=
  match value with
  | VNone | VFloat FNan => Ok (pystr "")
  | _ =>
      let s := upper (strip (str_ value)) in
      if decide (s ∈ truthy) then Ok (pystr "SIM")
      else if decide (s ∈ falsy) then
        Ok (match s with [] => pystr "" | _ => pystr "NÃO" end)
      else Ok s
  end.

Definition _parse_money_mixed (value : value) : py (option pyfloat) :=
  match value with
  | VNone => Ok None
  | _ =>
      let s := strip (str_ value) in
      match s with
      | [] => Ok None
      | _ =>
          (* remove R$, espaços etc. *)
          let s := replace (pystr " ") [] (replace (pystr "R$") [] s) in
          let s :=
            if contains (pystr ".") s && contains (pystr ",") s then
              let last_dot := rfind s (ch ".") in
              let last_comma := rfind s (ch ",") in
              if (last_comma >? last_dot)%Z then (* pt *)
                replace (pystr ",") (pystr ".") (replace (pystr ".") [] s)
              else (* en *)
                replace (pystr ",") [] s
            else if contains (pystr ",") s && negb (contains (pystr ".") s) then
              replace (pystr ",") (pystr ".") (replace (pystr ".") [] s)
            else s in
          try_except_ValueError
            (bind (float_ s) (fun f => Ok (Some f)))
            (Ok None)
      end
  end.

Section Pandas.

(** The date reader behind [pd.to_datetime] on one text, with its
    [dayfirst] flag; [None] when the text is not a date. *)
Variable parse_datetime : bool -> str -> option timestamp.

Inductive errors_mode := errors_raise | errors_coerce.

(** [pd.to_datetime(arg, dayfirst=.., errors=..)] on a scalar text:
    [None] stands for [NaT]. *)
Definition to_datetime (arg : str) (dayfirst : bool) (errors : errors_mode)
    : py (option timestamp) :=
  match parse_datetime dayfirst arg with
  | Some t => Ok (Some t)
  | None =>
      match errors with
      | errors_coerce => Ok None
      | errors_raise => Raise (ValueError (UnknownDatetimeFormat arg))
      end
  end.

(** Converte datas em formatos mistos para Timestamp (ou None).  The
    final [None if pd.isna(ts) else ts] is the identity on the model's
    [option]. *)
Definition _parse_date_mixed (value : value) : py (option timestamp) :=
  match value with
  | VNone => Ok None
  | _ =>
      let s := strip (str_ value) in
      match s with
      | [] => Ok None
      | _ =>
          match re_date_search s with
          | Some g =>
              bind (to_datetime g true errors_coerce) (fun ts =>
              Ok (match ts with None => None | Some t => Some t end))
          | None =>
              bind (to_datetime s false errors_coerce) (fun ts =>
              Ok (match ts with None => None | Some t => Some t end))
          end
      end
  end.

Definition float_cell (r : option pyfloat) : value :=
  match r with Some f => VFloat f | None => VNone end.

Definition timestamp_cell (r : option timestamp) : value :=
  match r with Some t => VTimestamp t | None => VNone end.

Definition money_column (v : value) : py value :=
  bind (_parse_money_mixed v) (fun r => Ok (float_cell r)).

Definition date_column (v : value) : py value :=
  bind (_parse_date_mixed v) (fun r => Ok (timestamp_cell r)).

Definition yes_no_column (v : value) : py value :=
  bind (_normalize_yes_no v) (fun s => Ok (VStr s)).

(** [df[col].astype(str).str.strip()] on one cell: the trimmed [str(val)],
    which is what pandas gives for texts, numbers, missing cells and the
    cells of a column of mixed content.  Of a column that holds only dates
    pandas can write a date without its time. *)
Definition astype_str_strip (v : value) : py value := Ok (VStr (strip (str_ v))).

(** Aplica func e conta sucesso/falha (None). *)
Definition _apply_with_stats (label : str) (func : value -> py value)
    (df : DataFrame) : py (DataFrame * RunSummaryData.transform_stats) :=
  let before_non_empty := count_notna label df in
  bind (apply_column label func df) (fun out =>
  let after_non_empty := count_notna label out in
  Ok (out, {| RunSummaryData.before_non_empty := before_non_empty;
              RunSummaryData.after_non_empty := after_non_empty;
              RunSummaryData.became_empty :=
                (before_non_empty - after_non_empty)%Z |})).

(** [if label in df.columns: df[label] = df[label].apply(func)] *)
Definition apply_if_present (label : str) (func : value -> py value)
    (df : DataFrame) : py DataFrame :=
  if decide (label ∈ columns df) then apply_column label func df else Ok df.

(** [rename_map], built by the loop over the columns. *)
Definition build_rename_map (cols : list str) : gmap str str :=
  fold_left
    (fun rename_map col =>
       match COLUMN_ALIASES !! canon_col col with
       | Some internal => <[col := internal]> rename_map
       | None => rename_map
       end)
    cols ∅.

(** The labels after the first trim and [df.rename(columns=rename_map)]. *)
Definition renamed_columns (df : DataFrame) : list str :=
  let cols := map strip (columns df) in
  let rename_map := build_rename_map cols in
  map (fun c => default c (rename_map !! c)) cols.

(** [sorted(REQUIRED_COLUMNS - set(df.columns))] *)
Definition missing_required (cols : list str) : list str :=
  filter (fun c => c ∉ cols) REQUIRED_COLUMNS.

Definition money_columns : list str :=
  [pystr "Vlr Liberado"; pystr "Valor Cancelado"; pystr "VALOR PAGO";
   pystr "Valor Devolvido"].

(** Normaliza colunas (datas, valores e flags) de um DataFrame.

    A label is taken at its first occurrence.  When two headers are renamed
    to the same label, [df[label]] is a table in pandas and not a column,
    and the steps that take a column from it raise; a statement that the
    normalization returns is therefore made for distinct labels. *)
Definition normalize_dataframe (df : DataFrame)
    : py (DataFrame * list (str * RunSummaryData.transform_stats)) :=
  let cols := renamed_columns df in
  let missing := missing_required cols in
  match missing with
  | _ :: _ => Raise (ValueError (ColunasObrigatoriasAusentes missing))
  | [] =>
      (* Padronizar nomes finais *)
      let df := {| columns := map strip cols; rows := rows df |} in
      let stats := [] in
      bind (if decide (pystr "Taxa" ∈ columns df)
            then bind (_apply_with_stats (pystr "Taxa") money_column df)
                   (fun '(d, st) => Ok (d, stats ++ [(pystr "Taxa", st)]))
            else Ok (df, stats)) (fun '(df, stats) =>
      bind (if decide (pystr "Emissão" ∈ columns df)
            then bind (_apply_with_stats (pystr "Emissão") date_column df)
                   (fun '(d, st) => Ok (d, stats ++ [(pystr "Emissão", st)]))
            else Ok (df, stats)) (fun '(df, stats) =>
      bind (apply_if_present (pystr "Data Pagamento") date_column df) (fun df =>
      bind (fold_left
              (fun acc col => bind acc (apply_if_present col money_column))
              money_columns (Ok df)) (fun df =>
      bind (apply_if_present (pystr "Pago") yes_no_column df) (fun df =>
      bind (apply_if_present (pystr "TED/Devolvida") yes_no_column df) (fun df =>
      (* Limpar contrato (garantir string) *)
      bind (apply_if_present (pystr "Contrato") astype_str_strip df) (fun df =>
      (* Substituir NaN por None *)
      Ok (where_notnull_none df, stats))))))))
  end.

(** What the run prints is left out; the clock is read once for the run
    directory ([now_dir]) and once for the summary ([now_summary]);
    [df] is the table [pd.read_excel(input_path)] returns.  [to_excel] and
    [_format_excel] are the two writes of the workbook; that the Excel
    writer can refuse a table (a date with a time zone, an output name that
    is not an Excel name) is left out, so the model says nothing about the
    errors of that step. *)
Definition normalize_excel (now_dir now_summary : timestamp) (df : DataFrame)
    (input_path output_path : path) (strict : bool)
    (fs : gmap path node) : gmap path node * py unit :=
  match normalize_dataframe df with
  | Raise e => (fs, Raise e)
  | Ok (df2, transform_stats) =>
      (* Cria pasta da execução *)
      let '(fs, run_dir) := make_run_dir now_dir (parent output_path) fs in
      let run_output := join run_dir (name output_path) in
      let issues_path := join run_dir (pystr "issues.csv") in
      let summary_path := join run_dir (pystr "summary.json") in
      let issues := validate_dataframe df2 in
      let '(fs, has_any) := write_issues_csv issues issues_path fs in
      let num_errors :=
        Z.of_nat (length (filter (fun i => severity i = ERROR) issues)) in
      let num_warn :=
        Z.of_nat (length (filter (fun i => severity i = WARN) issues)) in
      if has_any && (strict && has_errors issues) then
        (fs, Raise (ValueError StrictIssuesError))
      else
        (* Salvando Excel normalizado *)
        let fs := write_file run_output (Workbook df2 false) fs in
        (* Aplicando formatação openpyxl *)
        let fs := write_file run_output (Workbook df2 true) fs in
        let summary :=
          {| RunSummaryData.started_at := isoformat_seconds now_summary;
             RunSummaryData.input_file := path_str input_path;
             RunSummaryData.output_file := path_str run_output;
             RunSummaryData.rows := Z.of_nat (length (rows df2));
             RunSummaryData.cols := Z.of_nat (length (columns df2));
             RunSummaryData.num_errors := num_errors;
             RunSummaryData.num_warn := num_warn;
             RunSummaryData.notes := transform_stats |} in
        let fs := write_summary summary summary_path fs in
        (fs, Ok tt)
  end.

End Pandas.

End Normalize.
Export Normalize.

(** ** A date reader for the documented formats

    [_parse_date_mixed] documents ['02/01/2026'], ['2026-01-02'] and
    ['2026-01-02T00:00:00'].  [reference_reader] reads exactly these, with
    pandas' preference (not obligation) for the day first; it is the
    reader the pipeline is run with on concrete tables below. *)

Module Reader.

Definition two_digits (a b : N) : N := ((a - 48) * 10 + (b - 48))%N.

Definition four_digits (a b c d : N) : N :=
  ((a - 48) * 1000 + (b - 48) * 100 + (c - 48) * 10 + (d - 48))%N.

Definition is_leap (y : N) : bool :=
  ((y mod 4 =? 0) && negb (y mod 100 =? 0) || (y mod 400 =? 0))%N.

Definition days_in_month (y m : N) : N :=
  match m with
  | 2 => if is_leap y then 29 else 28
  | 4 | 6 | 9 | 11 => 30
  | _ => 31
  end%N.

Definition valid_date (y m d : N) : bool :=
  ((1 <=? m) && (m <=? 12) && (1 <=? d) && (d <=? days_in_month y m)
   && (1678 <=? y) && (y <=? 2261))%N.

Definition valid_time (h mi s : N) : bool :=
  ((h <=? 23) && (mi <=? 59) && (s <=? 59))%N.

Definition midnight (y m d : N) : timestamp := Timestamp y m d 0 0 0.

Definition reference_reader (dayfirst : bool) (s : str) : option timestamp :=
  match s with
  | [a1; a2; a3; a4; a5; a6; a7; a8; a9; a10] =>
      if date_shape s then
        let x := two_digits a1 a2 in
        let y := two_digits a4 a5 in
        let yr := four_digits a7 a8 a9 a10 in
        if dayfirst then
          if valid_date yr y x then Some (midnight yr y x)
          else if valid_date yr x y then Some (midnight yr x y)
          else None
        else
          if valid_date yr x y then Some (midnight yr x y)
          else if valid_date yr y x then Some (midnight yr y x)
          else None
      else if is_digit a1 && is_digit a2 && is_digit a3 && is_digit a4
              && (a5 =? ch "-")%N && is_digit a6 && is_digit a7
              && (a8 =? ch "-")%N && is_digit a9 && is_digit a10 then
        let yr := four_digits a1 a2 a3 a4 in
        let mo := two_digits a6 a7 in
        let dy := two_digits a9 a10 in
        if valid_date yr mo dy then Some (midnight yr mo dy) else None
      else None
  | [a1; a2; a3; a4; a5; a6; a7; a8; a9; a10; sep;
     h1; h2; c1; m1; m2; c2; s1; s2] =>
      if is_digit a1 && is_digit a2 && is_digit a3 && is_digit a4
         && (a5 =? ch "-")%N && is_digit a6 && is_digit a7
         && (a8 =? ch "-")%N && is_digit a9 && is_digit a10
         && ((sep =? ch "T") || (sep =? ch " "))%N
         && is_digit h1 && is_digit h2 && (c1 =? ch ":")%N
         && is_digit m1 && is_digit m2 && (c2 =? ch ":")%N
         && is_digit s1 && is_digit s2 then
        let yr := four_digits a1 a2 a3 a4 in
        let mo := two_digits a6 a7 in
        let dy := two_digits a9 a10 in
        let h := two_digits h1 h2 in
        let mi := two_digits m1 m2 in
        let se := two_digits s1 s2 in
        if valid_date yr mo dy && valid_time h mi se
        then Some (Timestamp yr mo dy h mi se) else None
      else None
  | _ => None
  end.

End Reader.
Export Reader.

(** ** The rules in the words of the specification *)

Module Rules.

(** "remove all [c]" *)
Definition remove_all (c : N) (s : str) : str := filter (fun d => d <> c) s.

(** "replace [c] with [d]" *)
Definition substitute (c d : N) (s : str) : str :=
  map (fun x => if decide (x = c) then d else x) s.

(** The position of the last [c] in [s]. *)
Fixpoint last_index (c : N) (s : str) : option nat :=
  match s with
  | [] => None
  | d :: t =>
      match last_index c t with
      | Some i => Some (S i)
      | None => if decide (d = c) then Some 0 else None
      end
  end.

(** The money rule: with both separators the last one is the decimal
    separator; a lone [,] is the decimal separator; otherwise the text is
    read as it stands. *)
Definition last_separator_wins (s : str) : str :=
  match last_index (ch ".") s, last_index (ch ",") s with
  | Some dot, Some comma =>
      if decide (dot < comma)
      then substitute (ch ",") (ch ".") (remove_all (ch ".") s)
      else remove_all (ch ",") s
  | None, Some _ => substitute (ch ",") (ch ".") s
  | _, None => s
  end.

(** The text the money parser works on: trimmed, the currency marker and
    the blanks removed. *)
Definition money_text (v : value) : str :=
  replace (pystr " ") [] (replace (pystr "R$") [] (strip (str_ v))).

(** A field is empty when the cell is absent or its text, trimmed, is
    the empty text. *)
Definition empty_field (v : value) : bool :=
  match v with
  | VNone => true
  | _ => bool_decide (strip (str_ v) = [])
  end.

(** A row whose contract or client is empty after trimming. *)
Definition lacks_identity (cols : list str) (cells : list value) : bool :=
  empty_field (row_get cols cells (pystr "Contrato"))
  || empty_field (row_get cols cells (pystr "Cliente")).

(** The six checks of a row, each an issue or nothing, in the order of the
    specification. *)
Definition opt_issue (cond : bool) (i : Issue) : list Issue :=
  if cond then [i] else [].

Definition row_checks (cols : list str) (idx : nat) (cells : list value) : list Issue :=
  let get := row_get cols cells in
  let cliente := _s (get (pystr "Cliente")) in
  let contrato := _s (get (pystr "Contrato")) in
  let paid := is_SIM (get (pystr "Pago")) in
  opt_issue (negb (bool_decide (is_Some contrato)))
    (Build_Issue ERROR (Some idx) None cliente (pystr "Contrato vazio"))
  ++ opt_issue (negb (bool_decide (is_Some cliente)))
    (Build_Issue ERROR (Some idx) contrato None (pystr "Cliente vazio"))
  ++ opt_issue (paid && isna (get (pystr "Data Pagamento")))
    (Build_Issue ERROR (Some idx) contrato cliente
       (pystr "Pago=SIM mas Data Pagamento vazio"))
  ++ opt_issue (paid && isna (get (pystr "VALOR PAGO")))
    (Build_Issue ERROR (Some idx) contrato cliente
       (pystr "Pago=SIM mas VALOR PAGO vazio"))
  ++ opt_issue (negb paid && negb (isna (get (pystr "VALOR PAGO"))))
    (Build_Issue WARN (Some idx) contrato cliente
       (pystr "Pago!=SIM mas VALOR PAGO preenchido"))
  ++ opt_issue (is_SIM (get (pystr "TED/Devolvida"))
                && isna (get (pystr "Valor Devolvido")))
    (Build_Issue ERROR (Some idx) contrato cliente
       (pystr "TED/Devolvida=SIM mas Valor Devolvido vazio")).

(** The checks of the rows [rs], numbered from [idx]. *)
Fixpoint table_checks (cols : list str) (idx : nat) (rs : list (list value)) : list Issue :=
  match rs with
  | [] => []
  | r :: rest => row_checks cols idx r ++ table_checks cols (S idx) rest
  end.

End Rules.
Export Rules.

(** ** Sample tables *)

Module Samples.

Definition headers : list str :=
  [pystr "Cliente"; pystr "Contrato"; pystr "Emissão"; pystr "Vlr Liberado";
   pystr "Pago"; pystr "Data Pagamento"; pystr "VALOR PAGO";
   pystr "TED/Devolvida"; pystr "Valor Devolvido"].

(** Paid, without payment date and amount; returned, without amount. *)
Definition paid_and_returned_row : list value :=
  [VStr (pystr "ANA"); VStr (pystr "861234567890-3"); VNone; VNone;
   VStr (pystr "SIM"); VNone; VNone; VStr (pystr "SIM"); VNone].

(** Paid, without payment date and amount; not returned. *)
Definition paid_row : list value :=
  [VStr (pystr "ANA"); VStr (pystr "861234567890-3"); VNone; VNone;
   VStr (pystr "SIM"); VNone; VNone; VStr (pystr ""); VNone].

(** A raw sheet, as exported: one row whose client cell is a blank text
    (one space), which [_s] strips to nothing. *)
Definition sheet_without_client : DataFrame :=
  {| columns := [pystr "Nome Cliente"; pystr "numero_contrato";
                 pystr "Data de Emissão"; pystr "Valor Liberado"];
     rows := [[VStr (pystr " "); VStr (pystr "861234567890-3");
               VStr (pystr "02/01/2026"); VStr (pystr "3.000,00")]] |}.

(** A raw sheet whose contract cell is blank in its only row. *)
Definition sheet_without_contract : DataFrame :=
  {| columns := [pystr "Cliente"; pystr "Contrato"; pystr "Emissão";
                 pystr "Vlr Liberado"];
     rows := [[VStr (pystr "ANA"); VFloat FNan;
               VStr (pystr "2026-01-02"); VStr (pystr "3000.00")]] |}.

(** A raw sheet with the header of the contract column written
    [Nº Contrato] and no column for the release amount. *)
Definition sheet_without_columns : DataFrame :=
  {| columns := [pystr "Cliente"; pystr "Nº Contrato"; pystr "Emissão"];
     rows := [[VStr (pystr "ANA"); VStr (pystr "861234567890-3");
               VStr (pystr "02/01/2026")]] |}.

Definition output_path : path := [pystr "out"; pystr "normalizado.xlsx"].
Definition input_path : path := [pystr "data"; pystr "exemplo_sujo.xlsx"].
Definition noon : timestamp := Timestamp 2026 1 2 12 0 0.
Definition run_dir : path :=
  [pystr "out"; pystr "runs"; pystr "2026-01-02_12-00-00"].

End Samples.

(** ** normalize.py: the basic report *)

Module Report.

(** The body of the loop of [generate_validation_report] for the row
    [idx]; an entry is the row index and the text of the error. *)
Definition report_row (cols : list str) (idx : nat) (cells : list value)
    (errors : list (nat * str)) : list (nat * str) :=
  let get := row_get cols cells in
  let errors :=
    if is_SIM (get (pystr "Pago")) then
      let errors :=
        if isna (get (pystr "Data Pagamento"))
        then errors ++ [(idx, pystr "Pago = SIM mas Data Pagamento vazio")]
        else errors in
      if isna (get (pystr "VALOR PAGO"))
      then errors ++ [(idx, pystr "Pago = SIM mas Valor Pago vazio")]
      else errors
    else errors in
  let contrato := get (pystr "Contrato") in
  let errors :=
    if bool_decide (contrato = VNone) || bool_decide (strip (str_ contrato) = pystr "")
    then errors ++ [(idx, pystr "Contrato vazio")]
    else errors in
  let errors :=
    if is_SIM (get (pystr "TED/Devolvida")) && isna (get (pystr "Valor Devolvido"))
    then errors ++ [(idx, pystr "TED/Devolvida = SIM mas Valor Devolvido vazio")]
    else errors in
  if negb (is_SIM (get (pystr "Pago"))) && negb (isna (get (pystr "VALOR PAGO")))
  then errors ++ [(idx, pystr "Pago != SIM mas VALOR PAGO preenchido")]
  else errors.

Fixpoint report_rows (cols : list str) (idx : nat) (rs : list (list value))
    (errors : list (nat * str)) : list (nat * str) :=
  match rs with
  | [] => errors
  | r :: rest => report_rows cols (S idx) rest (report_row cols idx r errors)
  end.

(** The list [errors] at the end of the loop. *)
Definition report_errors (df : DataFrame) : list (nat * str) :=
  report_rows (columns df) 0 (rows df) [].

(** Gera CSV com inconsistências básicas: the value returned.  The file,
    written when there are errors and removed otherwise, is left out. *)
Definition generate_validation_report (df : DataFrame) : bool :=
  match report_errors df with
  | [] => false
  | _ => true
  end.

End Report.
Export Report.

(** ** More rules in the words of the properties *)

Module MoreRules.

(** The text with the roles of [.] and [,] exchanged. *)
Definition swap_separators (s : str) : str :=
  map (fun c => if decide (c = ch ".") then ch ","
                else if decide (c = ch ",") then ch "." else c) s.

(** No two blanks in a row. *)
Fixpoint single_spaced (s : str) : Prop :=
  match s with
  | [] => True
  | a :: t =>
      (a = 32%N -> match t with b :: _ => b <> 32%N | [] => True end)
      /\ single_spaced t
  end.

(** A canonical key: lowercase ASCII letters, digits and single blanks,
    none of them at either end. *)
Definition canonical_key (s : str) : Prop :=
  Forall (fun c => is_key_char c = true) s
  /\ single_spaced s
  /\ head s <> Some 32%N
  /\ last s <> Some 32%N.

(** The internal name a trimmed header gets: its alias, or itself. *)
Definition internal_name (col : str) : str :=
  match COLUMN_ALIASES !! canon_col col with
  | Some internal => internal
  | None => col
  end.

(** A raw cell that holds something and that the parser [f] turns into
    nothing. *)
Definition lost (f : value -> py value) (v : value) : bool :=
  negb (isna v) && match f v with Ok v' => isna v' | Raise _ => false end.

(** Two tables of the same shape: the same labels, as many rows, and row
    by row as many cells. *)
Definition same_shape (df df' : DataFrame) : Prop :=
  columns df' = columns df
  /\ Forall2 (fun r r' => length r' = length r) (rows df) (rows df').

(** A text without a blank at either end. *)
Definition trimmed (s : str) : Prop := lstrip s = s /\ lstrip (rev s) = rev s.

(** One character with the roles of [.] and [,] exchanged. *)
Definition swap_char (c : N) : N :=
  if decide (c = ch ".") then ch "," else if decide (c = ch ",") then ch "." else c.

End MoreRules.
Export MoreRules.

(** * Checks by evaluation *)

Example pystr_nao : pystr "NÃO" = [78; 195; 79]%N.
Proof. reflexivity. Qed.

Example replace_currency : replace (pystr "R$") [] (pystr "R$ 1.000") = pystr " 1.000".
Proof. reflexivity. Qed.

Example rfind_none : rfind (pystr "abc") (ch ",") = (-1)%Z.
Proof. reflexivity. Qed.

Example canon_emissao : canon_col (pystr "  Data de Emissão ") = pystr "data de emissao".
Proof. vm_compute. reflexivity. Qed.

Example canon_ted : canon_col (pystr "TED/Devolvida") = pystr "ted devolvida".
Proof. vm_compute. reflexivity. Qed.

Example alias_numero :
  COLUMN_ALIASES !! canon_col (pystr "numero_contrato") = Some (pystr "Contrato").
Proof. vm_compute. reflexivity. Qed.

Example float_3000_00 : float_ (pystr "3000.00") = Ok (float_of_N 3000).
Proof. vm_compute. reflexivity. Qed.

Example float_repr_3000 : float_repr (float_of_N 3000) = pystr "3000.0".
Proof. vm_compute. reflexivity. Qed.

Example float_small : float_ (pystr " -1_0.50e-7 ") = Ok (FFin true [1; 0; 5]%N (-5)).
Proof. vm_compute. reflexivity. Qed.

Example float_repr_small : float_repr (FFin true [1; 0; 5]%N (-5)) = pystr "-1.05e-06".
Proof. vm_compute. reflexivity. Qed.

Example float_repr_frac : float_repr (FFin false [1; 2; 3; 4]%N 1) = pystr "1.234".
Proof. vm_compute. reflexivity. Qed.

Example float_bad : float_ (pystr "1.2.3") = Raise (ValueError (InvalidFloatLiteral (pystr "1.2.3"))).
Proof. vm_compute. reflexivity. Qed.

Example float_dot : float_ (pystr ".") = Raise (ValueError (InvalidFloatLiteral (pystr "."))).
Proof. vm_compute. reflexivity. Qed.

Example run_dir_example :
  snd (make_run_dir (Timestamp 2026 1 2 3 4 5) [pystr "out"] ∅)
  = [pystr "out"; pystr "runs"; pystr "2026-01-02_03-04-05"].
Proof. vm_compute. reflexivity. Qed.

Example reader_day_first :
  reference_reader true (pystr "02/01/2026") = Some (midnight 2026 1 2).
Proof. vm_compute. reflexivity. Qed.

Example reader_not_strict :
  reference_reader true (pystr "01/13/2026") = Some (midnight 2026 1 13).
Proof. vm_compute. reflexivity. Qed.

Example reader_iso_time :
  reference_reader false (pystr "2026-01-02T10:20:30") = Some (Timestamp 2026 1 2 10 20 30).
Proof. vm_compute. reflexivity. Qed.

Example money_pt :
  _parse_money_mixed (VStr (pystr "R$ 1.234,56")) = Ok (Some (FFin false [1; 2; 3; 4; 5; 6]%N 4)).
Proof. vm_compute. reflexivity. Qed.

Example money_plain_decimal :
  _parse_money_mixed (VStr (pystr "1.234")) = Ok (Some (FFin false [1; 2; 3; 4]%N 1)).
Proof. vm_compute. reflexivity. Qed.

Example money_garbage : _parse_money_mixed (VStr (pystr "abc")) = Ok None.
Proof. vm_compute. reflexivity. Qed.

Example yes_no_sim : _normalize_yes_no (VStr (pystr " sim ")) = Ok (pystr "SIM").
Proof. vm_compute. reflexivity. Qed.

Example yes_no_nao : _normalize_yes_no (VStr (pystr "não")) = Ok (pystr "NÃO").
Proof. vm_compute. reflexivity. Qed.

Example yes_no_other : _normalize_yes_no (VStr (pystr " talvez ")) = Ok (pystr "TALVEZ").
Proof. vm_compute. reflexivity. Qed.

Example date_marker :
  _parse_date_mixed reference_reader (VStr (pystr "() 02/01/2026")) = Ok (Some (midnight 2026 1 2)).
Proof. vm_compute. reflexivity. Qed.

(** * Properties *)

(** ** Strings *)

Ltac list_cases H :=
  repeat (apply elem_of_cons in H as [H | H]; [subst | ]);
  try (apply elem_of_nil in H; destruct H).

Lemma startswith_single (c d : N) (t : str) :
  startswith [c] (d :: t) = (c =? d)%N.
Proof. simpl. apply andb_true_r. Qed.

Lemma contains_single (c : N) (s : str) :
  contains [c] s = true <-> c ∈ s.
Proof.
  induction s as [| d t IH].
  - simpl. split; [discriminate | intros H; inversion H].
  - cbn [contains]. rewrite startswith_single, orb_true_iff, IH, elem_of_cons.
    rewrite N.eqb_eq. reflexivity.
Qed.

Lemma replace_single_remove (c : N) (s : str) :
  replace [c] [] s = remove_all c s.
Proof.
  unfold replace, remove_all.
  induction s as [| d t IH]; [reflexivity |].
  cbn [replace_from]. rewrite startswith_single. cbn [length Nat.sub app].
  rewrite filter_cons. destruct (N.eqb_spec c d) as [-> | Hne].
  - rewrite decide_False by (intros H; apply H; reflexivity). exact IH.
  - rewrite decide_True by congruence. f_equal. exact IH.
Qed.

Lemma replace_single_substitute (c d : N) (s : str) :
  replace [c] [d] s = substitute c d s.
Proof.
  unfold replace, substitute.
  induction s as [| x t IH]; [reflexivity |].
  cbn [replace_from map]. rewrite startswith_single. cbn [length Nat.sub app].
  destruct (N.eqb_spec c x) as [-> | Hne].
  - rewrite decide_True by reflexivity. f_equal. exact IH.
  - rewrite decide_False by congruence. f_equal. exact IH.
Qed.

Lemma remove_all_absent (c : N) (s : str) :
  c ∉ s -> remove_all c s = s.
Proof.
  unfold remove_all. induction s as [| d t IH]; intros Hc; [reflexivity |].
  apply not_elem_of_cons in Hc as [Hne Ht].
  rewrite filter_cons, decide_True by congruence. f_equal. auto.
Qed.

Lemma last_index_none (c : N) (s : str) :
  last_index c s = None <-> c ∉ s.
Proof.
  induction s as [| d t IH]; simpl.
  - split; [intros _ H; inversion H | reflexivity].
  - rewrite not_elem_of_cons. destruct (last_index c t) as [i |].
    + split; [discriminate | intros [_ H]; apply IH in H; discriminate].
    + destruct (decide (d = c)) as [-> | Hne].
      * split; [discriminate | intros [H _]; congruence].
      * split; [intros _; split; [congruence | apply IH; reflexivity] | reflexivity].
Qed.

(** [last_index] gives an occurrence, and the last one. *)
Lemma last_index_spec (c : N) (s : str) (i : nat) :
  last_index c s = Some i ->
  s !! i = Some c /\ forall j, i < j -> s !! j <> Some c.
Proof.
  revert i. induction s as [| d t IH]; intros i; simpl; [discriminate |].
  destruct (last_index c t) as [k |] eqn:Hk.
  - intros [= <-]. destruct (IH k eq_refl) as [Hat Hlast]. split; [exact Hat |].
    intros [| j] Hj; [lia |]. simpl. apply Hlast. lia.
  - destruct (decide (d = c)) as [-> | Hne]; [| discriminate].
    intros [= <-]. split; [reflexivity |].
    intros [| j] Hj; [lia |]. simpl. intros Hin.
    apply last_index_none in Hk. apply Hk.
    eapply list_elem_of_lookup_2. exact Hin.
Qed.

Lemma rfind_from_last_index (c : N) (s : str) (i best : Z) :
  rfind_from c i best s =
  match last_index c s with
  | Some k => (i + Z.of_nat k)%Z
  | None => best
  end.
Proof.
  revert i best. induction s as [| d t IH]; intros i best; simpl; [reflexivity |].
  rewrite IH. destruct (last_index c t) as [k |].
  - lia.
  - destruct (N.eqb_spec d c) as [-> | Hne].
    + rewrite decide_True by reflexivity. simpl. lia.
    + rewrite decide_False by congruence. reflexivity.
Qed.

(** [s.rfind(c)] is the position of the last [c], or -1. *)
Lemma rfind_last_index (c : N) (s : str) :
  rfind s c = match last_index c s with
              | Some k => Z.of_nat k
              | None => (-1)%Z
              end.
Proof.
  unfold rfind. rewrite rfind_from_last_index.
  destruct (last_index c s); [lia | reflexivity].
Qed.

(** ** Schema *)

(** C5, as stated: the two headers would have the same canonical key.
    They do not: the ordinal indicator of [Nº] decomposes to the letter
    [o], and nothing expands it to [numero]. *)
Lemma C5_keys_differ :
  canon_col (pystr "Nº Contrato") <> canon_col (pystr "numero_contrato").
Proof. vm_compute. discriminate. Qed.

(** C5, amended: [canon_col] maps [Nº Contrato] to [no contrato] and
    [numero_contrato] to [numero contrato]; only the second key is an alias
    of the contract column. *)
Theorem C5_canon_contract_headers :
  canon_col (pystr "Nº Contrato") = pystr "no contrato"
  /\ canon_col (pystr "numero_contrato") = pystr "numero contrato"
  /\ COLUMN_ALIASES !! canon_col (pystr "Nº Contrato") = None
  /\ COLUMN_ALIASES !! canon_col (pystr "numero_contrato") = Some (pystr "Contrato").
Proof. vm_compute. repeat split; reflexivity. Qed.

(** ** Field parsers *)

Lemma truthy_not_falsy (s : str) : s ∈ truthy -> s ∉ falsy.
Proof.
  intros H. unfold truthy in H. list_cases H; vm_compute; intros Hf;
    list_cases Hf; discriminate.
Qed.

(** C6: the yes/no parser is a tri-state with pass-through.  Absent input
    ([None], NaN) gives the empty state; otherwise, with [s] the trimmed
    and uppercased text, a truthy [s] gives [SIM], a falsy non-empty [s]
    gives [NÃO], an empty [s] gives the empty state, and any other [s] is
    returned as it is. *)
Theorem C6_yes_no_tri_state (v : value) :
  let s := upper (strip (str_ v)) in
  ((v = VNone \/ v = VFloat FNan) -> _normalize_yes_no v = Ok (pystr ""))
  /\ (v <> VNone -> v <> VFloat FNan ->
      (s ∈ [pystr "SIM"; pystr "S"; pystr "YES"; pystr "Y"; pystr "TRUE"; pystr "1"]
         -> _normalize_yes_no v = Ok (pystr "SIM"))
      /\ (s ∈ [pystr "NÃO"; pystr "NAO"; pystr "N"; pystr "NO"; pystr "FALSE"; pystr "0"]
         -> _normalize_yes_no v = Ok (pystr "NÃO"))
      /\ (s = pystr "" -> _normalize_yes_no v = Ok (pystr ""))
      /\ (s ∉ truthy -> s ∉ falsy -> _normalize_yes_no v = Ok s)).
Proof.
  intros s. split.
  - intros [-> | ->]; reflexivity.
  - intros Hnone Hnan.
    assert (Hbody : _normalize_yes_no v =
              if decide (s ∈ truthy) then Ok (pystr "SIM")
              else if decide (s ∈ falsy) then
                Ok (match s with [] => pystr "" | _ => pystr "NÃO" end)
              else Ok s).
    { destruct v as [| | | f | | |]; try reflexivity; [congruence |].
      destruct f; try reflexivity. congruence. }
    rewrite Hbody. clearbody s. repeat split.
    + intros Hin. rewrite decide_True by exact Hin. reflexivity.
    + intros Hin. rewrite decide_False.
      * rewrite decide_True.
        -- list_cases Hin; reflexivity.
        -- unfold falsy. rewrite !elem_of_cons in *. tauto.
      * intros Ht. apply truthy_not_falsy in Ht. apply Ht.
        unfold falsy. rewrite !elem_of_cons in *. tauto.
    + intros ->. reflexivity.
    + intros Ht Hf. rewrite !decide_False by assumption. reflexivity.
Qed.

Lemma C6_yes_no_tri_state_witness :
  _normalize_yes_no (VStr (pystr " não ")) = Ok (pystr "NÃO")
  /\ _normalize_yes_no (VStr (pystr "talvez")) = Ok (pystr "TALVEZ")
  /\ _normalize_yes_no (VFloat FNan) = Ok (pystr "").
Proof.
  split; [| split].
  - destruct (C6_yes_no_tri_state (VStr (pystr " não "))) as [_ H].
    destruct H as (_ & Hfalsy & _ & _); [discriminate | discriminate |].
    apply Hfalsy. vm_compute. apply elem_of_cons. left. reflexivity.
  - destruct (C6_yes_no_tri_state (VStr (pystr "talvez"))) as [_ H].
    destruct H as (_ & _ & _ & Hother); [discriminate | discriminate |].
    apply Hother; vm_compute; intros H; list_cases H; discriminate.
  - destruct (C6_yes_no_tri_state (VFloat FNan)) as [Habsent _].
    apply Habsent. right. reflexivity.
Defined.

Lemma contains_single_false (c : N) (s : str) :
  contains [c] s = false <-> c ∉ s.
Proof.
  rewrite <- contains_single. destruct (contains [c] s); split; congruence.
Qed.

(** The rewriting of separators in [_parse_money_mixed] is the rule
    "the last separator wins" of the specification. *)
Lemma money_rule_refines (s : str) :
  (if contains (pystr ".") s && contains (pystr ",") s then
     if (rfind s (ch ",") >? rfind s (ch "."))%Z then
       replace (pystr ",") (pystr ".") (replace (pystr ".") [] s)
     else replace (pystr ",") [] s
   else if contains (pystr ",") s && negb (contains (pystr ".") s) then
     replace (pystr ",") (pystr ".") (replace (pystr ".") [] s)
   else s)
  = last_separator_wins s.
Proof.
  change (pystr ".") with [ch "."]. change (pystr ",") with [ch ","].
  rewrite !replace_single_substitute, !replace_single_remove, !rfind_last_index.
  unfold last_separator_wins.
  destruct (last_index (ch ".") s) as [dot |] eqn:Hdot;
    destruct (last_index (ch ",") s) as [comma |] eqn:Hcomma.
  - assert (Hd : contains [ch "."] s = true).
    { apply contains_single. destruct (decide (ch "." ∈ s)) as [H | H]; [exact H |].
      apply last_index_none in H. congruence. }
    assert (Hc : contains [ch ","] s = true).
    { apply contains_single. destruct (decide (ch "," ∈ s)) as [H | H]; [exact H |].
      apply last_index_none in H. congruence. }
    rewrite Hd, Hc. cbn [andb].
    destruct (decide (dot < comma)) as [Hlt | Hge].
    + replace (Z.of_nat comma >? Z.of_nat dot)%Z with true by lia. reflexivity.
    + replace (Z.of_nat comma >? Z.of_nat dot)%Z with false by lia. reflexivity.
  - assert (Hc : contains [ch ","] s = false).
    { apply contains_single_false, last_index_none, Hcomma. }
    rewrite Hc, andb_false_r. reflexivity.
  - assert (Hd : contains [ch "."] s = false).
    { apply contains_single_false, last_index_none, Hdot. }
    assert (Hc : contains [ch ","] s = true).
    { apply contains_single. destruct (decide (ch "," ∈ s)) as [H | H]; [exact H |].
      apply last_index_none in H. congruence. }
    rewrite Hd, Hc. cbn [andb negb].
    rewrite remove_all_absent by (apply last_index_none, Hdot). reflexivity.
  - assert (Hd : contains [ch "."] s = false).
    { apply contains_single_false, last_index_none, Hdot. }
    assert (Hc : contains [ch ","] s = false).
    { apply contains_single_false, last_index_none, Hcomma. }
    rewrite Hd, Hc. reflexivity.
Qed.

(** The money parser on a non-empty text. *)
Lemma money_parser_rule (v : value) :
  v <> VNone -> strip (str_ v) <> [] ->
  _parse_money_mixed v =
  match float_ (last_separator_wins (money_text v)) with
  | Ok f => Ok (Some f)
  | Raise _ => Ok None
  end.
Proof.
  intros Hnone Hne.
  assert (Hbody : _parse_money_mixed v =
    match strip (str_ v) with
    | [] => Ok None
    | _ =>
        let s := money_text v in
        let s :=
          if contains (pystr ".") s && contains (pystr ",") s then
            if (rfind s (ch ",") >? rfind s (ch "."))%Z then
              replace (pystr ",") (pystr ".") (replace (pystr ".") [] s)
            else replace (pystr ",") [] s
          else if contains (pystr ",") s && negb (contains (pystr ".") s) then
            replace (pystr ",") (pystr ".") (replace (pystr ".") [] s)
          else s in
        try_except_ValueError (bind (float_ s) (fun f => Ok (Some f))) (Ok None)
    end).
  { destruct v; [congruence | reflexivity ..]. }
  rewrite Hbody. destruct (strip (str_ v)) as [| c t] eqn:Hs; [congruence |].
  cbv zeta. rewrite money_rule_refines.
  destruct (float_ (last_separator_wins (money_text v))) as [f | [m]]; reflexivity.
Qed.

Lemma money_parser_empty (v : value) :
  v = VNone \/ strip (str_ v) = [] -> _parse_money_mixed v = Ok None.
Proof.
  intros [-> | He]; [reflexivity |].
  destruct v; try reflexivity; cbn [_parse_money_mixed]; rewrite He; reflexivity.
Qed.

(** C2: on a non-empty text the money parser reads, as a decimal, the
    text rewritten by "the last separator wins": with both [.] and [,] the
    one that comes last is the decimal separator (the other is removed), a
    lone [,] is the decimal separator, and a text with [.] only or with
    neither is read as it stands; a text that is not a number gives the
    absent value.  The five values of the specification follow. *)
Theorem C2_money_last_separator_wins :
  (forall v : value, v <> VNone -> strip (str_ v) <> [] ->
     _parse_money_mixed v =
     match float_ (last_separator_wins (money_text v)) with
     | Ok f => Ok (Some f)
     | Raise _ => Ok None
     end)
  /\ _parse_money_mixed (VStr (pystr "3.000,00")) = Ok (Some (float_of_N 3000))
  /\ _parse_money_mixed (VStr (pystr "3,000.00")) = Ok (Some (float_of_N 3000))
  /\ _parse_money_mixed (VStr (pystr "3000.00")) = Ok (Some (float_of_N 3000))
  /\ _parse_money_mixed (VStr (pystr "3000")) = Ok (Some (float_of_N 3000))
  /\ _parse_money_mixed (VStr (pystr "")) = Ok None.
Proof.
  split; [exact money_parser_rule | vm_compute; repeat split; reflexivity].
Qed.

Lemma C2_money_last_separator_wins_witness :
  _parse_money_mixed (VStr (pystr "R$ 1.234,56")) =
  match float_ (pystr "1234.56") with
  | Ok f => Ok (Some f)
  | Raise _ => Ok None
  end.
Proof.
  destruct C2_money_last_separator_wins as [Hrule _].
  apply (Hrule (VStr (pystr "R$ 1.234,56"))); [discriminate | vm_compute; discriminate].
Defined.

Lemma date_shape_length (g : str) : date_shape g = true -> length g = 10.
Proof.
  do 11 (destruct g as [| ? g]; try discriminate). reflexivity.
Qed.

Lemma take_app_exact (g post : str) (n : nat) :
  length g = n -> take n (g ++ post) = g.
Proof. intros <-. apply take_app_length. Qed.

(** A match of [_RE_DATE] is found whenever the text has a substring of the
    shape. *)
Lemma re_date_search_complete (pre g post : str) :
  date_shape g = true -> exists g0, re_date_search (pre ++ g ++ post) = Some g0.
Proof.
  intros Hg. induction pre as [| c pre IH].
  - cbn [app]. destruct g as [| c g'] eqn:Eg; [discriminate |].
    cbn [re_date_search app]. change (c :: g' ++ post) with ((c :: g') ++ post).
    rewrite (take_app_exact (c :: g') post 10) by (apply date_shape_length, Hg).
    rewrite Hg. eauto.
  - cbn [app re_date_search].
    destruct (date_shape (take 10 (c :: pre ++ g ++ post))); eauto.
Qed.

(** What [_RE_DATE.search] returns is a substring of the shape, and the
    leftmost one. *)
Lemma re_date_search_leftmost (s g : str) :
  re_date_search s = Some g ->
  date_shape g = true
  /\ exists pre post, s = pre ++ g ++ post
     /\ forall pre' g' post', s = pre' ++ g' ++ post' -> date_shape g' = true ->
          length pre <= length pre'.
Proof.
  revert g. induction s as [| c t IH]; intros g; [discriminate |].
  cbn [re_date_search].
  destruct (date_shape (take 10 (c :: t))) eqn:Hshape.
  - intros [= <-]. split; [exact Hshape |].
    exists [], (drop 10 (c :: t)). split.
    + symmetry. exact (take_drop 10 (c :: t)).
    + intros; cbn; lia.
  - intros Hs. destruct (IH g Hs) as (Hg & pre & post & -> & Hleft).
    split; [exact Hg |]. exists (c :: pre), post. split; [reflexivity |].
    intros pre' g' post' Heq Hg'. destruct pre' as [| c' pre''].
    + cbn [app] in Heq. rewrite Heq in Hshape.
      rewrite (take_app_exact g' post' 10) in Hshape by (apply date_shape_length, Hg').
      congruence.
    + cbn [app] in Heq. injection Heq as _ Heq. cbn [length].
      specialize (Hleft pre'' g' post' Heq Hg'). lia.
Qed.

Lemma re_date_search_none (s : str) :
  re_date_search s = None ->
  forall pre g post, s = pre ++ g ++ post -> date_shape g = false.
Proof.
  intros Hnone pre g post -> . destruct (date_shape g) eqn:Hg; [| reflexivity].
  destruct (re_date_search_complete pre g post Hg) as [g0 H0]. congruence.
Qed.

Section DateParser.

Variable parse_datetime : bool -> str -> option timestamp.

Lemma date_parser_body (v : value) :
  v <> VNone -> strip (str_ v) <> [] ->
  _parse_date_mixed parse_datetime v =
  match re_date_search (strip (str_ v)) with
  | Some g => Ok (parse_datetime true g)
  | None => Ok (parse_datetime false (strip (str_ v)))
  end.
Proof.
  intros Hnone Hne.
  assert (Hbody : _parse_date_mixed parse_datetime v =
    match strip (str_ v) with
    | [] => Ok None
    | _ =>
        match re_date_search (strip (str_ v)) with
        | Some g =>
            bind (to_datetime parse_datetime g true errors_coerce) (fun ts =>
            Ok (match ts with None => None | Some t => Some t end))
        | None =>
            bind (to_datetime parse_datetime (strip (str_ v)) false errors_coerce)
              (fun ts => Ok (match ts with None => None | Some t => Some t end))
        end
    end).
  { destruct v; [congruence | reflexivity ..]. }
  rewrite Hbody. destruct (strip (str_ v)) as [| c t] eqn:Hs; [congruence |].
  unfold to_datetime.
  destruct (re_date_search (c :: t)) as [g |].
  - destruct (parse_datetime true g); reflexivity.
  - destruct (parse_datetime false (c :: t)); reflexivity.
Qed.

Lemma date_parser_empty (v : value) :
  v = VNone \/ strip (str_ v) = [] -> _parse_date_mixed parse_datetime v = Ok None.
Proof.
  intros [-> | He]; [reflexivity |].
  destruct v; try reflexivity; cbn [_parse_date_mixed]; rewrite He; reflexivity.
Qed.

End DateParser.

(** C3: on a non-empty text with a substring of the shape DD/MM/YYYY, the
    date parser hands the leftmost such substring to the date reader with
    the day first, wherever it stands in the text; on a text without such a
    substring it hands the whole text to the general reader; what the
    reader cannot read, and an empty or absent input, give the absent
    value.  With a reader that reads [02/01/2026] day first and the ISO
    date [2026-01-02], the three values of the specification follow. *)
Theorem C3_date_parser (parse_datetime : bool -> str -> option timestamp) :
  parse_datetime true (pystr "02/01/2026") = Some (midnight 2026 1 2) ->
  parse_datetime false (pystr "2026-01-02") = Some (midnight 2026 1 2) ->
  (forall v : value, v <> VNone -> strip (str_ v) <> [] ->
     ((exists pre g post, strip (str_ v) = pre ++ g ++ post /\ date_shape g = true) ->
      exists pre g post,
        strip (str_ v) = pre ++ g ++ post /\ date_shape g = true
        /\ (forall pre' g' post',
              strip (str_ v) = pre' ++ g' ++ post' -> date_shape g' = true ->
              length pre <= length pre')
        /\ _parse_date_mixed parse_datetime v = Ok (parse_datetime true g))
     /\ ((forall pre g post, strip (str_ v) = pre ++ g ++ post -> date_shape g = false) ->
         _parse_date_mixed parse_datetime v
         = Ok (parse_datetime false (strip (str_ v)))))
  /\ (forall v : value, v = VNone \/ strip (str_ v) = [] ->
        _parse_date_mixed parse_datetime v = Ok None)
  /\ _parse_date_mixed parse_datetime (VStr (pystr "02/01/2026"))
     = Ok (Some (midnight 2026 1 2))
  /\ _parse_date_mixed parse_datetime (VStr (pystr "() 02/01/2026"))
     = Ok (Some (midnight 2026 1 2))
  /\ _parse_date_mixed parse_datetime (VStr (pystr "2026-01-02"))
     = Ok (Some (midnight 2026 1 2)).
Proof.
  intros Hdmy Hiso. split; [| split; [| split; [| split]]].
  - intros v Hnone Hne. rewrite (date_parser_body parse_datetime v Hnone Hne). split.
    + intros (pre & g & post & Hs & Hg).
      destruct (re_date_search_complete pre g post Hg) as [g0 H0].
      rewrite <- Hs in H0. rewrite H0.
      destruct (re_date_search_leftmost _ _ H0) as (Hg0 & pre0 & post0 & Hs0 & Hleft).
      exists pre0, g0, post0. repeat split; assumption.
    + intros Hno. destruct (re_date_search (strip (str_ v))) as [g |] eqn:Hsearch;
        [| reflexivity].
      destruct (re_date_search_leftmost _ _ Hsearch) as (Hg & pre & post & Hs & _).
      specialize (Hno pre g post Hs). congruence.
  - apply date_parser_empty.
  - rewrite date_parser_body by (discriminate || (vm_compute; discriminate)).
    change (re_date_search (strip (str_ (VStr (pystr "02/01/2026")))))
      with (Some (pystr "02/01/2026")).
    cbv beta iota. rewrite Hdmy. reflexivity.
  - rewrite date_parser_body by (discriminate || (vm_compute; discriminate)).
    change (re_date_search (strip (str_ (VStr (pystr "() 02/01/2026")))))
      with (Some (pystr "02/01/2026")).
    cbv beta iota. rewrite Hdmy. reflexivity.
  - rewrite date_parser_body by (discriminate || (vm_compute; discriminate)).
    change (re_date_search (strip (str_ (VStr (pystr "2026-01-02")))))
      with (@None str).
    cbv beta iota.
    change (strip (str_ (VStr (pystr "2026-01-02")))) with (pystr "2026-01-02").
    rewrite Hiso. reflexivity.
Qed.

Lemma C3_date_parser_witness :
  _parse_date_mixed reference_reader (VStr (pystr "() 02/01/2026"))
  = Ok (Some (midnight 2026 1 2))
  /\ _parse_date_mixed reference_reader (VStr (pystr "2026-01-02"))
     = Ok (Some (midnight 2026 1 2)).
Proof.
  destruct (C3_date_parser reference_reader) as (_ & _ & _ & Hmarker & Hiso);
    [vm_compute; reflexivity | vm_compute; reflexivity |].
  split; [exact Hmarker | exact Hiso].
Defined.

(** C7: the three field parsers return on every raw value, text, number
    or missing; they never raise.  A text that [float()] rejects, and a
    text the date reader cannot read, give the absent value. *)
Theorem C7_parsers_total (parse_datetime : bool -> str -> option timestamp)
    (v : value) :
  (exists s, _normalize_yes_no v = Ok s)
  /\ (exists r, _parse_money_mixed v = Ok r)
  /\ (exists r, _parse_date_mixed parse_datetime v = Ok r)
  /\ (forall e, float_ (last_separator_wins (money_text v)) = Raise e ->
        _parse_money_mixed v = Ok None)
  /\ (match re_date_search (strip (str_ v)) with
      | Some g => parse_datetime true g
      | None => parse_datetime false (strip (str_ v))
      end = None ->
      _parse_date_mixed parse_datetime v = Ok None).
Proof.
  assert (Hcases : (v = VNone \/ strip (str_ v) = []) \/ (v <> VNone /\ strip (str_ v) <> [])).
  { destruct (decide (v = VNone)) as [-> | Hv]; [left; left; reflexivity |].
    destruct (strip (str_ v)) as [| c t]; [left; right; reflexivity |].
    right. split; [exact Hv | discriminate]. }
  split; [| split; [| split; [| split]]].
  - unfold _normalize_yes_no.
    destruct v as [| | | f | | |]; try destruct f; eauto;
      repeat (case_decide; eauto).
  - destruct Hcases as [He | [Hv Hs]].
    + rewrite (money_parser_empty v He). eauto.
    + rewrite (money_parser_rule v Hv Hs).
      destruct (float_ (last_separator_wins (money_text v))); eauto.
  - destruct Hcases as [He | [Hv Hs]].
    + rewrite (date_parser_empty parse_datetime v He). eauto.
    + rewrite (date_parser_body parse_datetime v Hv Hs).
      destruct (re_date_search (strip (str_ v))); eauto.
  - intros e He. destruct Hcases as [Hempty | [Hv Hs]].
    + apply money_parser_empty, Hempty.
    + rewrite (money_parser_rule v Hv Hs), He. reflexivity.
  - intros Hfail. destruct Hcases as [Hempty | [Hv Hs]].
    + apply date_parser_empty, Hempty.
    + rewrite (date_parser_body parse_datetime v Hv Hs).
      destruct (re_date_search (strip (str_ v))); rewrite Hfail; reflexivity.
Qed.

Lemma C7_parsers_total_witness :
  _parse_money_mixed (VStr (pystr "1.2.3")) = Ok None
  /\ _parse_date_mixed reference_reader (VStr (pystr "31/02/2026")) = Ok None.
Proof.
  destruct (C7_parsers_total reference_reader (VStr (pystr "1.2.3")))
    as (_ & _ & _ & Hmoney & _).
  destruct (C7_parsers_total reference_reader (VStr (pystr "31/02/2026")))
    as (_ & _ & _ & _ & Hdate).
  split.
  - apply (Hmoney (ValueError (InvalidFloatLiteral (pystr "1.2.3")))).
    vm_compute. reflexivity.
  - apply Hdate. vm_compute. reflexivity.
Defined.

(** ** Validator *)

Lemma validate_row_checks (cols : list str) (idx : nat) (cells : list value)
    (issues : list Issue) :
  validate_row cols idx cells issues = issues ++ row_checks cols idx cells.
Proof.
  unfold validate_row, row_checks, append_if, opt_issue.
  destruct (negb (bool_decide (is_Some (_s (row_get cols cells (pystr "Contrato"))))));
    destruct (negb (bool_decide (is_Some (_s (row_get cols cells (pystr "Cliente"))))));
    destruct (is_SIM (row_get cols cells (pystr "Pago")));
    destruct (isna (row_get cols cells (pystr "Data Pagamento")));
    destruct (isna (row_get cols cells (pystr "VALOR PAGO")));
    destruct (is_SIM (row_get cols cells (pystr "TED/Devolvida"))
              && isna (row_get cols cells (pystr "Valor Devolvido")));
    cbn [andb negb app]; rewrite <- ?app_assoc; cbn [app];
    rewrite ?app_nil_r; reflexivity.
Qed.

Lemma iterrows_checks (cols : list str) (rs : list (list value)) :
  forall idx issues,
    iterrows cols idx rs issues = issues ++ table_checks cols idx rs.
Proof.
  induction rs as [| r rest IH]; intros idx issues; cbn [iterrows table_checks].
  - rewrite app_nil_r. reflexivity.
  - rewrite IH, validate_row_checks, <- app_assoc. reflexivity.
Qed.

Lemma validate_dataframe_checks (df : DataFrame) :
  validate_dataframe df = table_checks (columns df) 0 (rows df).
Proof. unfold validate_dataframe. rewrite iterrows_checks. reflexivity. Qed.

Lemma elem_of_opt_issue (b : bool) (x i : Issue) : i ∈ opt_issue b x -> i = x.
Proof.
  destruct b; cbn [opt_issue]; intros H.
  - apply list_elem_of_singleton in H. exact H.
  - apply elem_of_nil in H. destruct H.
Qed.

Lemma row_checks_row (cols : list str) (idx : nat) (cells : list value) (i : Issue) :
  i ∈ row_checks cols idx cells -> row i = Some idx.
Proof.
  unfold row_checks. rewrite !elem_of_app.
  intros [H | [H | [H | [H | [H | H]]]]];
    apply elem_of_opt_issue in H; subst; reflexivity.
Qed.

Lemma filter_all {A} (P : A -> Prop) `{forall x, Decision (P x)} (l : list A) :
  (forall x, x ∈ l -> P x) -> filter P l = l.
Proof.
  induction l as [| a l IH]; intros Hall; [reflexivity |].
  rewrite filter_cons, decide_True by (apply Hall; left).
  f_equal. apply IH. intros x Hx. apply Hall. right. exact Hx.
Qed.

Lemma filter_none {A} (P : A -> Prop) `{forall x, Decision (P x)} (l : list A) :
  (forall x, x ∈ l -> ~ P x) -> filter P l = [].
Proof.
  induction l as [| a l IH]; intros Hall; [reflexivity |].
  rewrite filter_cons, decide_False by (apply Hall; left).
  apply IH. intros x Hx. apply Hall. right. exact Hx.
Qed.

(** The issues of one row, taken out of the issues of a table. *)
Lemma table_checks_of_row (cols : list str) (k : nat) (rs : list (list value)) :
  forall idx,
    filter (fun i => row i = Some k) (table_checks cols idx rs) =
    if decide (idx <= k) then
      match rs !! (k - idx) with
      | Some cells => row_checks cols k cells
      | None => []
      end
    else [].
Proof.
  induction rs as [| r rest IH]; intros idx; cbn [table_checks].
  - rewrite filter_nil. destruct (decide (idx <= k)); reflexivity.
  - rewrite filter_app, IH.
    destruct (decide (idx = k)) as [-> | Hne].
    + rewrite filter_all by (intros x Hx; apply (row_checks_row _ _ _ _ Hx)).
      rewrite decide_False by lia. rewrite decide_True by lia.
      replace (k - k) with 0 by lia. cbn. rewrite app_nil_r. reflexivity.
    + rewrite filter_none.
      2:{ intros x Hx Hk. apply row_checks_row in Hx. congruence. }
      cbn [app]. destruct (decide (idx <= k)) as [Hle | Hgt].
      * rewrite decide_True by lia.
        replace (k - idx) with (S (k - S idx)) by lia. reflexivity.
      * rewrite decide_False by lia. reflexivity.
Qed.

Lemma validate_dataframe_of_row (df : DataFrame) (k : nat) (cells : list value) :
  rows df !! k = Some cells ->
  filter (fun i => row i = Some k) (validate_dataframe df)
  = row_checks (columns df) k cells.
Proof.
  intros Hk. rewrite validate_dataframe_checks, table_checks_of_row.
  rewrite decide_True by lia. replace (k - 0) with k by lia. rewrite Hk. reflexivity.
Qed.

(** [_s] gives nothing exactly on the empty fields. *)
Lemma empty_field_s (v : value) :
  empty_field v = negb (bool_decide (is_Some (_s v))).
Proof.
  assert (Hnone : bool_decide (is_Some (@None (list N))) = false).
  { apply bool_decide_eq_false_2. intros [x Hx]. discriminate. }
  assert (Hsome : forall x : str, bool_decide (is_Some (Some x)) = true).
  { intros x. apply bool_decide_eq_true_2. eauto. }
  assert (Htext : forall t : str,
            bool_decide (t = []) =
            negb (bool_decide (is_Some (match t with [] => None | _ => Some t end)))).
  { intros [| c t]; [rewrite Hnone | rewrite Hsome]; reflexivity. }
  destruct v; cbn [empty_field _s]; [rewrite Hnone; reflexivity | apply Htext ..].
Qed.

Lemma row_checks_lacks_identity (cols : list str) (idx : nat) (cells : list value) :
  lacks_identity cols cells = true -> 1 <= length (row_checks cols idx cells).
Proof.
  unfold lacks_identity, row_checks, opt_issue. rewrite !empty_field_s. intros H.
  apply orb_true_iff in H as [H | H]; rewrite H; rewrite ?length_app; cbn [length]; lia.
Qed.

Lemma table_checks_lower_bound (cols : list str) (rs : list (list value)) :
  forall idx,
    length (filter (fun r => lacks_identity cols r = true) rs)
    <= length (table_checks cols idx rs).
Proof.
  induction rs as [| r rest IH]; intros idx; cbn [table_checks]; [rewrite filter_nil; cbn; lia |].
  rewrite filter_cons, length_app. specialize (IH (S idx)).
  destruct (decide (lacks_identity cols r = true)) as [Hr | Hr].
  - pose proof (row_checks_lacks_identity cols idx r Hr). cbn [length]. lia.
  - lia.
Qed.

(** C8: the validator returns at least as many issues as the table has
    rows whose contract or client is empty after trimming, a field being
    empty when its cell is absent or its text trims to nothing. *)
Theorem C8_validator_lower_bound (df : DataFrame) :
  length (filter (fun r => lacks_identity (columns df) r = true) (rows df))
  <= length (validate_dataframe df).
Proof.
  rewrite validate_dataframe_checks. apply table_checks_lower_bound.
Qed.

(** C4, as stated: a row with contract and client, paid flag [SIM], no
    payment date and no paid amount would get exactly two ERROR issues.
    The row below is such a row and gets three: its returned flag is
    [SIM] too and its returned amount is empty. *)
Lemma C4_three_errors :
  let df := {| columns := Samples.headers;
               rows := [Samples.paid_and_returned_row] |} in
  let get := row_get (columns df) Samples.paid_and_returned_row in
  is_Some (_s (get (pystr "Contrato")))
  /\ is_Some (_s (get (pystr "Cliente")))
  /\ get (pystr "Pago") = VStr (pystr "SIM")
  /\ isna (get (pystr "Data Pagamento")) = true
  /\ isna (get (pystr "VALOR PAGO")) = true
  /\ length (filter (fun i => row i = Some 0 /\ severity i = ERROR)
               (validate_dataframe df)) = 3.
Proof.
  cbv zeta. repeat split; try (vm_compute; reflexivity); vm_compute; eauto.
Qed.

(** C4, amended: the validator goes through the rows in order and, for
    each row, appends the issues of the six checks in the fixed order
    contract-empty, client-empty, paid-without-date, paid-without-amount,
    not-paid-with-amount (WARN), returned-without-amount.  For a row with
    contract and client, paid flag [SIM], no payment date and no paid
    amount, the issues of that row are the missing-date ERROR, then the
    missing-amount ERROR, and after them the returned-without-amount ERROR
    when the returned flag is [SIM] and the returned amount is empty:
    exactly two ERROR issues when that last check does not fire. *)
Theorem C4_validator_order :
  (forall df : DataFrame,
     validate_dataframe df = table_checks (columns df) 0 (rows df))
  /\ (forall (df : DataFrame) (k : nat) (cells : list value),
        rows df !! k = Some cells ->
        forall contrato cliente : str,
        _s (row_get (columns df) cells (pystr "Contrato")) = Some contrato ->
        _s (row_get (columns df) cells (pystr "Cliente")) = Some cliente ->
        row_get (columns df) cells (pystr "Pago") = VStr (pystr "SIM") ->
        isna (row_get (columns df) cells (pystr "Data Pagamento")) = true ->
        isna (row_get (columns df) cells (pystr "VALOR PAGO")) = true ->
        filter (fun i => row i = Some k) (validate_dataframe df)
        = [ Build_Issue ERROR (Some k) (Some contrato) (Some cliente)
              (pystr "Pago=SIM mas Data Pagamento vazio");
            Build_Issue ERROR (Some k) (Some contrato) (Some cliente)
              (pystr "Pago=SIM mas VALOR PAGO vazio") ]
          ++ (if is_SIM (row_get (columns df) cells (pystr "TED/Devolvida"))
                 && isna (row_get (columns df) cells (pystr "Valor Devolvido"))
              then [ Build_Issue ERROR (Some k) (Some contrato) (Some cliente)
                       (pystr "TED/Devolvida=SIM mas Valor Devolvido vazio") ]
              else [])).
Proof.
  split; [exact validate_dataframe_checks |].
  intros df k cells Hk contrato cliente Hcontrato Hcliente Hpago Hdate Hamount.
  rewrite (validate_dataframe_of_row df k cells Hk).
  unfold row_checks, opt_issue.
  rewrite Hcontrato, Hcliente, Hpago, Hdate, Hamount.
  reflexivity.
Qed.

Lemma C4_validator_order_witness :
  filter (fun i => row i = Some 0)
    (validate_dataframe {| columns := Samples.headers; rows := [Samples.paid_row] |})
  = [ Build_Issue ERROR (Some 0) (Some (pystr "861234567890-3")) (Some (pystr "ANA"))
        (pystr "Pago=SIM mas Data Pagamento vazio");
      Build_Issue ERROR (Some 0) (Some (pystr "861234567890-3")) (Some (pystr "ANA"))
        (pystr "Pago=SIM mas VALOR PAGO vazio") ].
Proof.
  destruct C4_validator_order as [_ Hrow].
  apply (Hrow {| columns := Samples.headers; rows := [Samples.paid_row] |}
           0 Samples.paid_row eq_refl (pystr "861234567890-3") (pystr "ANA"));
    vm_compute; reflexivity.
Defined.

(** ** Files of a run *)

Lemma parent_join (p : path) (n : str) : parent (join p n) = p.
Proof. unfold parent, join. apply removelast_last. Qed.

Lemma join_ne (p : path) (n : str) : join p n <> p.
Proof.
  unfold join. intros H. apply (f_equal length) in H.
  rewrite length_app in H. cbn in H. lia.
Qed.

Lemma mkdir_one_lookup (fs : gmap path node) (p q : path) :
  mkdir_one fs p !! q = fs !! q
  \/ (fs !! q = None /\ mkdir_one fs p !! q = Some Dir).
Proof.
  unfold mkdir_one. destruct (fs !! p) as [n |] eqn:Hp; [left; reflexivity |].
  destruct (decide (p = q)) as [-> | Hne].
  - right. rewrite lookup_insert_eq. split; [exact Hp | reflexivity].
  - left. apply lookup_insert_ne. exact Hne.
Qed.

Lemma mkdir_list_lookup (l : list path) (q : path) :
  forall fs : gmap path node,
    fold_left mkdir_one l fs !! q = fs !! q
    \/ (fs !! q = None /\ fold_left mkdir_one l fs !! q = Some Dir).
Proof.
  induction l as [| p l IH]; intros fs; cbn [fold_left]; [left; reflexivity |].
  destruct (IH (mkdir_one fs p)) as [-> | [Hnone ->]];
    destruct (mkdir_one_lookup fs p q) as [Heq | [Hq Hd]].
  - left. exact Heq.
  - right. split; assumption.
  - right. split; [congruence | reflexivity].
  - congruence.
Qed.

(** Creating directories leaves every existing entry as it is; what it
    adds is a directory. *)
Lemma mkdir_parents_lookup (p q : path) (fs : gmap path node) :
  mkdir_parents p fs !! q = fs !! q
  \/ (fs !! q = None /\ mkdir_parents p fs !! q = Some Dir).
Proof. apply mkdir_list_lookup. Qed.

Lemma mkdir_list_creates (l : list path) (p : path) :
  forall fs : gmap path node,
    p ∈ l \/ is_Some (fs !! p) -> is_Some (fold_left mkdir_one l fs !! p).
Proof.
  induction l as [| a l IH]; intros fs H; cbn [fold_left].
  - destruct H as [H | H]; [apply elem_of_nil in H; destruct H | exact H].
  - apply IH. destruct H as [H | H].
    + apply elem_of_cons in H as [-> | H]; [| left; exact H].
      right. unfold mkdir_one. destruct (fs !! a) as [n |] eqn:Ha.
      * rewrite Ha. eauto.
      * rewrite lookup_insert_eq. eauto.
    + right. destruct (mkdir_one_lookup fs a p) as [-> | [_ ->]]; eauto.
Qed.

Lemma mkdir_parents_creates (p : path) (fs : gmap path node) :
  p <> [] -> is_Some (mkdir_parents p fs !! p).
Proof.
  intros Hp. apply mkdir_list_creates. left. unfold ancestors_and_self.
  apply list_elem_of_fmap. exists (length p). split.
  - symmetry. apply firstn_all.
  - apply elem_of_seq. destruct p; [congruence | cbn; lia].
Qed.

Lemma missing_required_spec (cols : list str) (c : str) :
  c ∈ missing_required cols <-> c ∈ REQUIRED_COLUMNS /\ c ∉ cols.
Proof.
  unfold missing_required. rewrite list_elem_of_filter. tauto.
Qed.

(** C9: when a required internal column is absent after canonicalization
    and renaming, the pipeline raises the error that lists the absent
    required columns and leaves the file system as it found it: no run
    directory, no artifact. *)
Theorem C9_missing_columns_abort
    (parse_datetime : bool -> str -> option timestamp)
    (now_dir now_summary : timestamp) (df : DataFrame)
    (input_path output_path : path) (strict : bool) (fs : gmap path node) :
  (exists c, c ∈ REQUIRED_COLUMNS /\ c ∉ renamed_columns df) ->
  normalize_excel parse_datetime now_dir now_summary df input_path output_path
    strict fs
  = (fs, Raise (ValueError
                  (ColunasObrigatoriasAusentes
                     (missing_required (renamed_columns df)))))
  /\ missing_required (renamed_columns df) <> []
  /\ (forall c, c ∈ missing_required (renamed_columns df)
                <-> c ∈ REQUIRED_COLUMNS /\ c ∉ renamed_columns df).
Proof.
  intros (c & Hreq & Habs).
  assert (Hin : c ∈ missing_required (renamed_columns df))
    by (apply missing_required_spec; split; assumption).
  split; [| split].
  - unfold normalize_excel, normalize_dataframe.
    destruct (missing_required (renamed_columns df)) as [| m ms];
      [apply elem_of_nil in Hin; destruct Hin | reflexivity].
  - intros Hnil. rewrite Hnil in Hin. apply elem_of_nil in Hin. exact Hin.
  - intros c'. apply missing_required_spec.
Qed.

Lemma C9_missing_columns_abort_witness :
  normalize_excel reference_reader Samples.noon Samples.noon
    Samples.sheet_without_columns Samples.input_path Samples.output_path false ∅
  = (∅, Raise (ValueError
                 (ColunasObrigatoriasAusentes [pystr "Contrato"; pystr "Vlr Liberado"]))).
Proof.
  refine (proj1 (C9_missing_columns_abort reference_reader Samples.noon Samples.noon
            Samples.sheet_without_columns Samples.input_path Samples.output_path
            false ∅ _)).
  exists (pystr "Contrato"). split.
  - vm_compute. apply elem_of_cons. right. apply elem_of_cons. left. reflexivity.
  - vm_compute. intros H. list_cases H; discriminate.
Defined.

Lemma has_errors_nonempty (issues : list Issue) :
  has_errors issues = true -> issues <> [].
Proof. destruct issues; [discriminate | discriminate]. Qed.

Lemma write_issues_csv_nonempty (issues : list Issue) (p : path)
    (fs : gmap path node) :
  issues <> [] ->
  write_issues_csv issues p fs
  = (write_file p (IssuesCsv issues) (mkdir_parents (parent p) fs), true).
Proof. destruct issues; [congruence | reflexivity]. Qed.

(** C1, as stated: in strict mode with an ERROR issue the run directory
    would hold the normalized spreadsheet, issues.csv and summary.json when
    the failure is raised.  On the sheet below (one row, whose client cell
    is a blank text, so that the validator reports "Cliente vazio") the
    failure is raised with issues.csv written, and neither the spreadsheet
    nor the summary exists. *)
Lemma C1_strict_failure_before_outputs :
  let result :=
    normalize_excel reference_reader Samples.noon Samples.noon
      Samples.sheet_without_client Samples.input_path Samples.output_path true ∅ in
  snd result = Raise (ValueError StrictIssuesError)
  /\ is_Some (fst result !! join Samples.run_dir (pystr "issues.csv"))
  /\ fst result !! join Samples.run_dir (pystr "normalizado.xlsx") = None
  /\ fst result !! join Samples.run_dir (pystr "summary.json") = None.
Proof.
  cbv zeta. repeat split; try (vm_compute; reflexivity). vm_compute. eauto.
Qed.

(** C1, amended: in strict mode, if validation produced at least one
    ERROR-severity issue, the pipeline creates the run directory, writes
    issues.csv there and then raises the strict-mode failure; it writes
    neither the normalized spreadsheet nor the summary: apart from
    issues.csv, the only change to the file system is the creation of
    directories. *)
Theorem C1_strict_gate
    (parse_datetime : bool -> str -> option timestamp)
    (now_dir now_summary : timestamp) (df df2 : DataFrame)
    (stats : list (str * RunSummaryData.transform_stats))
    (input_path output_path : path) (fs : gmap path node) :
  normalize_dataframe parse_datetime df = Ok (df2, stats) ->
  has_errors (validate_dataframe df2) = true ->
  let run_dir :=
    join (join (parent output_path) (pystr "runs")) (strftime_run now_dir) in
  let issues_path := join run_dir (pystr "issues.csv") in
  exists fs' : gmap path node,
    normalize_excel parse_datetime now_dir now_summary df input_path output_path
      true fs
    = (fs', Raise (ValueError StrictIssuesError))
    /\ is_Some (fs' !! run_dir)
    /\ fs' !! issues_path = Some (IssuesCsv (validate_dataframe df2))
    /\ forall p : path, p <> issues_path ->
         fs' !! p = fs !! p \/ (fs !! p = None /\ fs' !! p = Some Dir).
Proof.
  intros Hnorm Herr run_dir issues_path.
  pose proof (has_errors_nonempty _ Herr) as Hne.
  exists (write_file issues_path (IssuesCsv (validate_dataframe df2))
            (mkdir_parents (parent issues_path) (mkdir_parents run_dir fs))).
  assert (Hlook : forall p, p <> issues_path ->
            write_file issues_path (IssuesCsv (validate_dataframe df2))
              (mkdir_parents (parent issues_path) (mkdir_parents run_dir fs)) !! p
            = fs !! p
            \/ (fs !! p = None
                /\ write_file issues_path (IssuesCsv (validate_dataframe df2))
                     (mkdir_parents (parent issues_path) (mkdir_parents run_dir fs)) !! p
                   = Some Dir)).
  { intros p Hp. unfold write_file. rewrite lookup_insert_ne by congruence.
    destruct (mkdir_parents_lookup (parent issues_path) p (mkdir_parents run_dir fs))
      as [-> | [Hn ->]];
      destruct (mkdir_parents_lookup run_dir p fs) as [Heq | [Hq Hd]].
    - left. exact Heq.
    - right. split; assumption.
    - right. split; [congruence | reflexivity].
    - congruence. }
  split; [| split; [| split]].
  - unfold normalize_excel. rewrite Hnorm. unfold make_run_dir.
    fold run_dir. cbv zeta. fold issues_path.
    rewrite write_issues_csv_nonempty by exact Hne.
    rewrite Herr. reflexivity.
  - assert (Hrun : run_dir <> issues_path)
      by (intros H; symmetry in H; apply join_ne in H; exact H).
    pose proof (mkdir_parents_creates run_dir fs) as [n Hn].
    { unfold run_dir, join. intros H. apply app_eq_nil in H as [_ H]. discriminate. }
    destruct (Hlook run_dir Hrun) as [Heq | [_ Hd]].
    + unfold write_file in *. rewrite lookup_insert_ne in * by congruence.
      unfold issues_path. rewrite parent_join.
      destruct (mkdir_parents_lookup run_dir run_dir (mkdir_parents run_dir fs))
        as [-> | [_ ->]]; eauto.
    + rewrite Hd. eauto.
  - unfold write_file. apply lookup_insert_eq.
  - exact Hlook.
Qed.

Lemma C1_strict_gate_witness :
  exists fs' : gmap path node,
    normalize_excel reference_reader Samples.noon Samples.noon
      Samples.sheet_without_client Samples.input_path Samples.output_path true ∅
    = (fs', Raise (ValueError StrictIssuesError))
    /\ is_Some (fs' !! Samples.run_dir).
Proof.
  destruct (C1_strict_gate reference_reader Samples.noon Samples.noon
              Samples.sheet_without_client
              {| columns := REQUIRED_COLUMNS;
                 rows := [[VStr (pystr " "); VStr (pystr "861234567890-3");
                           VTimestamp (midnight 2026 1 2);
                           VFloat (float_of_N 3000)]] |}
              [(pystr "Emissão",
                {| RunSummaryData.before_non_empty := 1;
                   RunSummaryData.after_non_empty := 1;
                   RunSummaryData.became_empty := 0 |})]
              Samples.input_path Samples.output_path ∅)
    as (fs' & Hrun & Hdir & _).
  - vm_compute. reflexivity.
  - vm_compute. reflexivity.
  - exists fs'. split; [exact Hrun | exact Hdir].
Defined.

(** ** The contract column through normalization *)

Lemma bind_Ok {A B} (c : py A) (k : A -> py B) (b : B) :
  bind c k = Ok b -> exists a, c = Ok a /\ k a = Ok b.
Proof. destruct c as [a | e]; [eauto | discriminate]. Qed.

Lemma apply_cells_length (label : str) (f : value -> py value) (cols : list str) :
  forall cells cells',
    apply_cells label f cols cells = Ok cells' -> length cells' = length cells.
Proof.
  induction cols as [| c cs IH]; intros cells cells'.
  - destruct cells; intros [= <-]; reflexivity.
  - destruct cells as [| v vs]; [intros [= <-]; reflexivity |].
    cbn [apply_cells]. intros H.
    apply bind_Ok in H as (v' & _ & H). apply bind_Ok in H as (vs' & Hvs & H).
    injection H as <-. cbn [length]. f_equal. eauto.
Qed.

(** Applying a function to the column [label] leaves the cell under any
    other label as it was. *)
Lemma apply_cells_other (label other : str) (f : value -> py value)
    (cols : list str) :
  label <> other ->
  forall cells cells',
    apply_cells label f cols cells = Ok cells' ->
    row_get cols cells' other = row_get cols cells other.
Proof.
  intros Hne. induction cols as [| c cs IH]; intros cells cells'.
  - destruct cells; intros [= <-]; reflexivity.
  - destruct cells as [| v vs]; [intros [= <-]; reflexivity |].
    cbn [apply_cells]. intros H.
    apply bind_Ok in H as (v' & Hv & H). apply bind_Ok in H as (vs' & Hvs & H).
    injection H as <-. cbn [row_get].
    destruct (decide (c = other)) as [-> | Hc].
    + rewrite decide_False in Hv by congruence. congruence.
    + eauto.
Qed.

(** ... and puts the image of the cell under [label]. *)
Lemma apply_cells_same (label : str) (f : value -> py value) (cols : list str) :
  label ∈ cols ->
  forall cells cells',
    length cols <= length cells ->
    apply_cells label f cols cells = Ok cells' ->
    f (row_get cols cells label) = Ok (row_get cols cells' label).
Proof.
  induction cols as [| c cs IH]; intros Hin cells cells' Hlen.
  - apply elem_of_nil in Hin. destruct Hin.
  - destruct cells as [| v vs]; [cbn in Hlen; lia |].
    cbn [apply_cells]. intros H.
    apply bind_Ok in H as (v' & Hv & H). apply bind_Ok in H as (vs' & Hvs & H).
    injection H as <-. cbn [row_get].
    destruct (decide (c = label)) as [-> | Hc]; [exact Hv |].
    apply IH; [| cbn in Hlen; lia | exact Hvs].
    apply elem_of_cons in Hin as [-> | Hin]; [congruence | exact Hin].
Qed.

Lemma apply_rows_lookup (label : str) (f : value -> py value) (cols : list str) :
  forall rs rs' i cells,
    apply_rows label f cols rs = Ok rs' ->
    rs !! i = Some cells ->
    exists cells', rs' !! i = Some cells'
                   /\ apply_cells label f cols cells = Ok cells'.
Proof.
  induction rs as [| r rest IH]; intros rs' i cells H Hi; [discriminate |].
  cbn [apply_rows] in H.
  apply bind_Ok in H as (r' & Hr & H). apply bind_Ok in H as (rest' & Hrest & H).
  injection H as <-. destruct i as [| i].
  - injection Hi as <-. exists r'. split; [reflexivity | exact Hr].
  - cbn in Hi. destruct (IH rest' i cells Hrest Hi) as (cells' & Hl & Hc).
    exists cells'. split; [exact Hl | exact Hc].
Qed.

(** The state of one row along the pipeline: the table has the labels
    [cols], its row [i] has as many cells as there are labels, and the cell
    under [label] is [v]. *)
Definition row_state (cols : list str) (i : nat) (label : str) (v : value)
    (df : DataFrame) : Prop :=
  columns df = cols
  /\ exists cells, rows df !! i = Some cells
                   /\ length cells = length cols
                   /\ row_get cols cells label = v.

Lemma apply_column_other (cols : list str) (i : nat) (label other : str)
    (f : value -> py value) (v : value) (df df' : DataFrame) :
  label <> other ->
  row_state cols i other v df ->
  apply_column label f df = Ok df' ->
  row_state cols i other v df'.
Proof.
  intros Hne (Hcols & cells & Hi & Hlen & Hv) H. unfold apply_column in H.
  apply bind_Ok in H as (rs & Hrs & H). injection H as <-.
  destruct (apply_rows_lookup _ _ _ _ _ _ _ Hrs Hi) as (cells' & Hi' & Hc).
  split; [exact Hcols |]. exists cells'. cbn [rows]. split; [exact Hi' |].
  rewrite Hcols in Hc. split.
  - rewrite (apply_cells_length _ _ _ _ _ Hc). exact Hlen.
  - rewrite (apply_cells_other _ _ _ _ Hne _ _ Hc). exact Hv.
Qed.

Lemma apply_if_present_other (cols : list str) (i : nat) (label other : str)
    (f : value -> py value) (v : value) (df df' : DataFrame) :
  label <> other ->
  row_state cols i other v df ->
  apply_if_present label f df = Ok df' ->
  row_state cols i other v df'.
Proof.
  intros Hne Hst H. unfold apply_if_present in H.
  destruct (decide (label ∈ columns df)).
  - eapply apply_column_other; eassumption.
  - injection H as <-. exact Hst.
Qed.

Lemma apply_if_present_same (cols : list str) (i : nat) (label : str)
    (f : value -> py value) (v : value) (df df' : DataFrame) :
  label ∈ cols ->
  row_state cols i label v df ->
  apply_if_present label f df = Ok df' ->
  exists v', f v = Ok v' /\ row_state cols i label v' df'.
Proof.
  intros Hin (Hcols & cells & Hi & Hlen & Hv) H. unfold apply_if_present in H.
  rewrite Hcols in H. rewrite decide_True in H by exact Hin.
  unfold apply_column in H.
  apply bind_Ok in H as (rs & Hrs & H). injection H as <-.
  destruct (apply_rows_lookup _ _ _ _ _ _ _ Hrs Hi) as (cells' & Hi' & Hc).
  rewrite Hcols in Hc.
  exists (row_get cols cells' label). split.
  - rewrite <- Hv. apply apply_cells_same with (cells' := cells');
      [exact Hin | lia | exact Hc].
  - split; [exact Hcols |]. exists cells'. cbn [rows]. split; [exact Hi' |].
    split; [| reflexivity].
    rewrite (apply_cells_length _ _ _ _ _ Hc). exact Hlen.
Qed.

Lemma row_get_where (cols : list str) (label : str) :
  forall cells,
    row_get cols (map (fun v => if isna v then VNone else v) cells) label
    = (fun v => if isna v then VNone else v) (row_get cols cells label).
Proof.
  induction cols as [| c cs IH]; intros cells.
  - destruct cells; reflexivity.
  - destruct cells as [| v vs]; [reflexivity |].
    cbn [map row_get]. destruct (decide (c = label)); [reflexivity | apply IH].
Qed.

Lemma stats_step_other (cols : list str) (i : nat) (label other : str)
    (f : value -> py value) (v : value) (df : DataFrame)
    (stats : list (str * RunSummaryData.transform_stats))
    (r : DataFrame * list (str * RunSummaryData.transform_stats)) :
  label <> other ->
  row_state cols i other v df ->
  (if decide (label ∈ columns df)
   then bind (_apply_with_stats label f df)
          (fun '(d, st) => Ok (d, stats ++ [(label, st)]))
   else Ok (df, stats)) = Ok r ->
  row_state cols i other v (fst r).
Proof.
  intros Hne Hst H. destruct (decide (label ∈ columns df)).
  - apply bind_Ok in H as ([d st] & Happly & H). injection H as <-.
    unfold _apply_with_stats in Happly.
    apply bind_Ok in Happly as (out & Hout & Happly). injection Happly as <- _.
    cbn [fst]. eapply apply_column_other; eassumption.
  - injection H as <-. exact Hst.
Qed.

Lemma fold_apply_raise (f : value -> py value) (labels : list str) (e : exn) :
  fold_left (fun acc col => bind acc (apply_if_present col f)) labels (Raise e)
  = Raise e.
Proof. induction labels as [| l ls IH]; [reflexivity | exact IH]. Qed.

Lemma fold_apply_other (cols : list str) (i : nat) (other : str)
    (f : value -> py value) (v : value) (labels : list str) :
  (forall l, l ∈ labels -> l <> other) ->
  forall df df',
    row_state cols i other v df ->
    fold_left (fun acc col => bind acc (apply_if_present col f)) labels (Ok df)
    = Ok df' ->
    row_state cols i other v df'.
Proof.
  induction labels as [| l ls IH]; intros Hne df df' Hst H.
  - injection H as <-. exact Hst.
  - cbn [fold_left bind] in H.
    destruct (apply_if_present l f df) as [d | e] eqn:Hl.
    + apply (IH (fun x Hx => Hne x (list_elem_of_further _ _ _ Hx)) d df');
        [| exact H].
      eapply apply_if_present_other; [apply Hne; left | exact Hst | exact Hl].
    + rewrite fold_apply_raise in H. discriminate.
Qed.

Lemma required_present (cols : list str) (c : str) :
  missing_required cols = [] -> c ∈ REQUIRED_COLUMNS -> c ∈ cols.
Proof.
  intros Hnil Hreq. destruct (decide (c ∈ cols)) as [H | H]; [exact H |].
  assert (Hin : c ∈ missing_required cols) by (apply missing_required_spec; tauto).
  rewrite Hnil in Hin. apply elem_of_nil in Hin. destruct Hin.
Qed.

Section ContractColumn.

Variable parse_datetime : bool -> str -> option timestamp.

(** After [normalize_dataframe] the contract cell of every row is the
    trimmed text of [str] of the raw cell. *)
Lemma normalize_dataframe_contract (df df2 : DataFrame)
    (stats : list (str * RunSummaryData.transform_stats))
    (i : nat) (cells : list value) :
  normalize_dataframe parse_datetime df = Ok (df2, stats) ->
  rows df !! i = Some cells ->
  length cells = length (columns df) ->
  row_state (columns df2) i (pystr "Contrato")
    (VStr (strip (str_ (row_get (columns df2) cells (pystr "Contrato"))))) df2.
Proof.
  intros H Hi Hlen. unfold normalize_dataframe in H.
  destruct (missing_required (renamed_columns df)) as [| m ms] eqn:Hmiss;
    [| discriminate].
  set (cols := map strip (renamed_columns df)) in *.
  set (contrato := pystr "Contrato") in *.
  assert (Hin : contrato ∈ cols).
  { unfold cols. apply list_elem_of_fmap. exists contrato. split; [reflexivity |].
    apply required_present; [exact Hmiss |].
    unfold REQUIRED_COLUMNS. apply elem_of_cons. right. apply elem_of_cons. left.
    reflexivity. }
  assert (H0 : row_state cols i contrato (row_get cols cells contrato)
                 {| columns := cols; rows := rows df |}).
  { split; [reflexivity |]. exists cells. cbn [rows]. split; [exact Hi |].
    split; [| reflexivity].
    unfold cols, renamed_columns. rewrite !length_map. exact Hlen. }
  cbv zeta in H.
  apply bind_Ok in H as ([df1 st1] & H1 & H).
  apply stats_step_other with (cols := cols) (i := i) (other := contrato)
    (v := row_get cols cells contrato) in H1; [| discriminate | exact H0].
  cbn [fst] in H1.
  apply bind_Ok in H as ([df2' st2] & H2 & H).
  apply stats_step_other with (cols := cols) (i := i) (other := contrato)
    (v := row_get cols cells contrato) in H2; [| discriminate | exact H1].
  cbn [fst] in H2.
  apply bind_Ok in H as (df3 & H3 & H).
  apply apply_if_present_other with (cols := cols) (i := i) (other := contrato)
    (v := row_get cols cells contrato) in H3; [| discriminate | exact H2].
  apply bind_Ok in H as (df4 & H4 & H).
  apply fold_apply_other with (cols := cols) (i := i) (other := contrato)
    (v := row_get cols cells contrato) in H4; [| | exact H3].
  2:{ intros l Hl. unfold money_columns in Hl. list_cases Hl; discriminate. }
  apply bind_Ok in H as (df5 & H5 & H).
  apply apply_if_present_other with (cols := cols) (i := i) (other := contrato)
    (v := row_get cols cells contrato) in H5; [| discriminate | exact H4].
  apply bind_Ok in H as (df6 & H6 & H).
  apply apply_if_present_other with (cols := cols) (i := i) (other := contrato)
    (v := row_get cols cells contrato) in H6; [| discriminate | exact H5].
  apply bind_Ok in H as (df7 & H7 & H).
  destruct (apply_if_present_same cols i contrato astype_str_strip _ _ _ Hin H6 H7)
    as (v' & Hv' & (Hcols7 & cells7 & Hi7 & Hlen7 & Hget7)).
  injection Hv' as <-. injection H as <- <-.
  assert (Hcols2 : columns (where_notnull_none df7) = cols) by exact Hcols7.
  rewrite Hcols2. split; [exact Hcols2 |].
  exists (map (fun v => if isna v then VNone else v) cells7).
  split; [| split].
  - cbn [where_notnull_none rows]. rewrite list_lookup_fmap, Hi7. reflexivity.
  - rewrite length_map. exact Hlen7.
  - rewrite row_get_where, Hget7. reflexivity.
Qed.

End ContractColumn.

(** C10: when [normalize_dataframe] succeeds, a row whose raw contract
    cell is missing ([None] or NaN) has, in the normalized table, the
    contract text ["None"] or ["nan"]; the validator run on the normalized
    table therefore reports no [Contrato vazio] issue for that row.  The
    raw cell is the one under the column that the renaming names
    [Contrato]. *)
Theorem C10_missing_contract_not_reported
    (parse_datetime : bool -> str -> option timestamp)
    (df df2 : DataFrame) (stats : list (str * RunSummaryData.transform_stats))
    (i : nat) (cells : list value) :
  normalize_dataframe parse_datetime df = Ok (df2, stats) ->
  rows df !! i = Some cells ->
  length cells = length (columns df) ->
  (row_get (columns df2) cells (pystr "Contrato") = VNone
   \/ row_get (columns df2) cells (pystr "Contrato") = VFloat FNan) ->
  (exists cells2,
     rows df2 !! i = Some cells2
     /\ (row_get (columns df2) cells2 (pystr "Contrato") = VStr (pystr "None")
         \/ row_get (columns df2) cells2 (pystr "Contrato") = VStr (pystr "nan")))
  /\ (forall issue : Issue,
        issue ∈ validate_dataframe df2 -> row issue = Some i ->
        message issue <> pystr "Contrato vazio").
Proof.
  intros Hnorm Hi Hlen Hraw.
  destruct (normalize_dataframe_contract parse_datetime df df2 stats i cells
              Hnorm Hi Hlen) as (_ & cells2 & Hi2 & _ & Hget).
  assert (Htext : row_get (columns df2) cells2 (pystr "Contrato") = VStr (pystr "None")
                  \/ row_get (columns df2) cells2 (pystr "Contrato") = VStr (pystr "nan")).
  { rewrite Hget. destruct Hraw as [-> | ->]; [left | right]; reflexivity. }
  split; [exists cells2; split; assumption |].
  intros issue Hin Hrow.
  assert (Hof : issue ∈ row_checks (columns df2) i cells2).
  { rewrite <- (validate_dataframe_of_row df2 i cells2 Hi2).
    apply list_elem_of_filter. split; assumption. }
  assert (Hs : is_Some (_s (row_get (columns df2) cells2 (pystr "Contrato")))).
  { destruct Htext as [-> | ->]; vm_compute; eauto. }
  unfold row_checks in Hof. rewrite (bool_decide_eq_true_2 _ Hs) in Hof.
  cbn [negb opt_issue app] in Hof. rewrite !elem_of_app in Hof.
  destruct Hof as [H | [H | [H | [H | H]]]];
    apply elem_of_opt_issue in H; subst issue; cbn [message];
    intros Heq; vm_compute in Heq; discriminate.
Qed.

Lemma C10_missing_contract_not_reported_witness :
  exists cells2,
    [[VStr (pystr "ANA"); VStr (pystr "nan"); VTimestamp (midnight 2026 1 2);
      VFloat (float_of_N 3000)]] !! 0 = Some cells2
    /\ (row_get REQUIRED_COLUMNS cells2 (pystr "Contrato") = VStr (pystr "None")
        \/ row_get REQUIRED_COLUMNS cells2 (pystr "Contrato") = VStr (pystr "nan")).
Proof.
  refine (proj1 (C10_missing_contract_not_reported reference_reader
            Samples.sheet_without_contract
            {| columns := REQUIRED_COLUMNS;
               rows := [[VStr (pystr "ANA"); VStr (pystr "nan");
                         VTimestamp (midnight 2026 1 2);
                         VFloat (float_of_N 3000)]] |}
            [(pystr "Emissão",
              {| RunSummaryData.before_non_empty := 1;
                 RunSummaryData.after_non_empty := 1;
                 RunSummaryData.became_empty := 0 |})]
            0
            [VStr (pystr "ANA"); VFloat FNan; VStr (pystr "2026-01-02");
             VStr (pystr "3000.00")]
            _ _ _ _)).
  - vm_compute. reflexivity.
  - reflexivity.
  - reflexivity.
  - right. vm_compute. reflexivity.
Defined.

(** * Further properties of the code *)

(** ** Validator: order, range and size of the result *)

Lemma table_checks_rows (cols : list str) (rs : list (list value)) :
  forall idx i,
    i ∈ table_checks cols idx rs ->
    exists k, row i = Some k /\ idx <= k < idx + length rs.
Proof.
  induction rs as [| r rest IH]; intros idx i Hin; cbn [table_checks] in Hin.
  - apply elem_of_nil in Hin. destruct Hin.
  - apply elem_of_app in Hin as [Hin | Hin].
    + exists idx. split; [eapply row_checks_row; exact Hin | cbn [length]; lia].
    + destruct (IH (S idx) i Hin) as (k & Hk & Hrange).
      exists k. split; [exact Hk | cbn [length]; lia].
Qed.

Lemma row_checks_length (cols : list str) (idx : nat) (cells : list value) :
  length (row_checks cols idx cells) <= 5.
Proof.
  unfold row_checks, opt_issue. rewrite !length_app.
  destruct (is_SIM (row_get cols cells (pystr "Pago"))); cbn [andb negb];
    repeat match goal with
           | |- context [if ?b then _ else _] => destruct b
           end; cbn; lia.
Qed.

Lemma table_checks_length (cols : list str) (rs : list (list value)) :
  forall idx, length (table_checks cols idx rs) <= 5 * length rs.
Proof.
  induction rs as [| r rest IH]; intros idx; cbn [table_checks length]; [lia |].
  rewrite length_app. pose proof (row_checks_length cols idx r).
  specialize (IH (S idx)). lia.
Qed.

Lemma table_checks_sorted (cols : list str) (rs : list (list value)) :
  forall idx p q a b ka kb,
    p <= q ->
    table_checks cols idx rs !! p = Some a ->
    table_checks cols idx rs !! q = Some b ->
    row a = Some ka -> row b = Some kb -> ka <= kb.
Proof.
  induction rs as [| r rest IH]; intros idx p q a b ka kb Hpq Hp Hq Ha Hb;
    cbn [table_checks] in *; [discriminate |].
  destruct (decide (p < length (row_checks cols idx r))) as [Hlt | Hge].
  - rewrite lookup_app_l in Hp by exact Hlt.
    apply list_elem_of_lookup_2, row_checks_row in Hp.
    assert (Hin : b ∈ table_checks cols idx (r :: rest))
      by (cbn [table_checks]; eapply list_elem_of_lookup_2; exact Hq).
    apply table_checks_rows in Hin as (k & Hk & Hrange). 
    assert (ka = idx) by congruence. assert (kb = k) by congruence. lia.
  - rewrite lookup_app_r in Hp by lia. rewrite lookup_app_r in Hq by lia.
    eapply (IH (S idx)); [| exact Hp | exact Hq | exact Ha | exact Hb]. lia.
Qed.

(** The issues come in row order, each carries the index of a row of the
    table, and every row index has at most five issues (the WARN excludes
    the two paid-flag ERRORs), so that the whole list has at most five
    times as many issues as the table has rows. *)
Theorem validate_dataframe_row_order (df : DataFrame) :
  (forall i, i ∈ validate_dataframe df ->
     exists k, row i = Some k /\ k < length (rows df))
  /\ (forall p q a b ka kb,
        p <= q ->
        validate_dataframe df !! p = Some a ->
        validate_dataframe df !! q = Some b ->
        row a = Some ka -> row b = Some kb -> ka <= kb)
  /\ (forall k,
        length (filter (fun i => row i = Some k) (validate_dataframe df)) <= 5)
  /\ length (validate_dataframe df) <= 5 * length (rows df).
Proof.
  rewrite validate_dataframe_checks. split; [| split; [| split]].
  - intros i Hin. apply table_checks_rows in Hin as (k & Hk & Hrange).
    exists k. split; [exact Hk | lia].
  - apply table_checks_sorted.
  - intros k. rewrite table_checks_of_row.
    destruct (decide (0 <= k)); [| cbn [length]; lia].
    destruct (rows df !! (k - 0)) as [cells |]; [| cbn [length]; lia].
    apply row_checks_length.
  - apply table_checks_length.
Qed.

Lemma validate_dataframe_row_order_witness :
  length (filter (fun i => row i = Some 1)
            (validate_dataframe
               {| columns := Samples.headers;
                  rows := [Samples.paid_row; Samples.paid_and_returned_row] |}))
  <= 5
  /\ length (validate_dataframe
               {| columns := Samples.headers;
                  rows := [Samples.paid_row; Samples.paid_and_returned_row] |})
     <= 5 * 2.
Proof.
  destruct (validate_dataframe_row_order
              {| columns := Samples.headers;
                 rows := [Samples.paid_row; Samples.paid_and_returned_row] |})
    as (_ & _ & Hrow & Hall).
  split; [exact (Hrow 1) | exact Hall].
Defined.

(** A row with contract and client whose paid flag is not [SIM] while a
    paid amount is present, and whose returned-flag check does not fire,
    gets the WARN and nothing else; and no row ever gets the WARN together
    with a paid-flag ERROR. *)
Theorem validate_dataframe_warn_only :
  (forall (df : DataFrame) (k : nat) (cells : list value) (contrato cliente : str),
     rows df !! k = Some cells ->
     _s (row_get (columns df) cells (pystr "Contrato")) = Some contrato ->
     _s (row_get (columns df) cells (pystr "Cliente")) = Some cliente ->
     is_SIM (row_get (columns df) cells (pystr "Pago")) = false ->
     isna (row_get (columns df) cells (pystr "VALOR PAGO")) = false ->
     is_SIM (row_get (columns df) cells (pystr "TED/Devolvida"))
       && isna (row_get (columns df) cells (pystr "Valor Devolvido")) = false ->
     filter (fun i => row i = Some k) (validate_dataframe df)
     = [ Build_Issue WARN (Some k) (Some contrato) (Some cliente)
           (pystr "Pago!=SIM mas VALOR PAGO preenchido") ])
  /\ (forall (df : DataFrame) (a b : Issue),
        a ∈ validate_dataframe df -> b ∈ validate_dataframe df ->
        row a = row b -> severity a = WARN ->
        message b <> pystr "Pago=SIM mas Data Pagamento vazio"
        /\ message b <> pystr "Pago=SIM mas VALOR PAGO vazio").
Proof.
  split.
  - intros df k cells contrato cliente Hk Hcontrato Hcliente Hpago Hamount Hted.
    rewrite (validate_dataframe_of_row df k cells Hk).
    unfold row_checks, opt_issue.
    rewrite Hcontrato, Hcliente, Hpago, Hamount, Hted. reflexivity.
  - intros df a b Ha Hb Hrow Hwarn.
    assert (Hrange : exists k, row a = Some k /\ k < length (rows df)).
    { rewrite validate_dataframe_checks in Ha.
      apply table_checks_rows in Ha as (k & Hk & Hr). exists k. split; [exact Hk | lia]. }
    destruct Hrange as (k & Hka & Hlt).
    destruct (lookup_lt_is_Some_2 (rows df) k Hlt) as [cells Hcells].
    assert (Ha' : a ∈ row_checks (columns df) k cells).
    { rewrite <- (validate_dataframe_of_row df k cells Hcells).
      apply list_elem_of_filter. split; assumption. }
    assert (Hb' : b ∈ row_checks (columns df) k cells).
    { rewrite <- (validate_dataframe_of_row df k cells Hcells).
      apply list_elem_of_filter. split; [congruence | assumption]. }
    clear Ha Hb. unfold row_checks in Ha', Hb'.
    destruct (is_SIM (row_get (columns df) cells (pystr "Pago"))).
    + exfalso. cbn [negb andb] in Ha'. rewrite !elem_of_app in Ha'.
      destruct Ha' as [H | [H | [H | [H | [H | H]]]]];
        first [ cbn [opt_issue] in H; apply elem_of_nil in H; exact H
              | apply elem_of_opt_issue in H; subst a; discriminate Hwarn ].
    + cbn [negb andb] in Hb'. rewrite !elem_of_app in Hb'.
      destruct Hb' as [H | [H | [H | [H | [H | H]]]]];
        first [ cbn [opt_issue] in H; apply elem_of_nil in H; destruct H
              | apply elem_of_opt_issue in H; subst b; cbn [message];
                split; intros Heq; vm_compute in Heq; discriminate Heq ].
Qed.

Lemma validate_dataframe_warn_only_witness :
  filter (fun i => row i = Some 0)
    (validate_dataframe
       {| columns := [pystr "Cliente"; pystr "Contrato"; pystr "Pago"; pystr "VALOR PAGO"];
          rows := [[VStr (pystr "ANA"); VStr (pystr "86-1"); VStr (pystr "NÃO");
                    VFloat (float_of_N 100)]] |})
  = [ Build_Issue WARN (Some 0) (Some (pystr "86-1")) (Some (pystr "ANA"))
        (pystr "Pago!=SIM mas VALOR PAGO preenchido") ].
Proof.
  refine (proj1 validate_dataframe_warn_only
            {| columns := [pystr "Cliente"; pystr "Contrato"; pystr "Pago"; pystr "VALOR PAGO"];
               rows := [[VStr (pystr "ANA"); VStr (pystr "86-1"); VStr (pystr "NÃO");
                         VFloat (float_of_N 100)]] |}
            0 _ (pystr "86-1") (pystr "ANA") eq_refl _ _ _ _ _);
    vm_compute; reflexivity.
Defined.

(** ** The basic report against the validator *)

Lemma report_row_app (cols : list str) (idx : nat) (cells : list value)
    (errors : list (nat * str)) :
  report_row cols idx cells errors = errors ++ report_row cols idx cells [].
Proof.
  unfold report_row.
  repeat match goal with
         | |- context [if ?b then _ else _] => destruct b
         end;
    cbn [app]; rewrite <- ?app_assoc; cbn [app]; rewrite ?app_nil_r; reflexivity.
Qed.

Lemma report_rows_app (cols : list str) (rs : list (list value)) :
  forall idx errors,
    report_rows cols idx rs errors = errors ++ report_rows cols idx rs [].
Proof.
  induction rs as [| r rest IH]; intros idx errors; cbn [report_rows].
  - rewrite app_nil_r. reflexivity.
  - rewrite IH, (IH _ (report_row cols idx r [])), report_row_app, app_assoc.
    reflexivity.
Qed.

Lemma report_contract_empty (v : value) :
  bool_decide (v = VNone) || bool_decide (strip (str_ v) = pystr "")
  = negb (bool_decide (is_Some (_s v))).
Proof.
  rewrite <- empty_field_s. destruct v; reflexivity.
Qed.

Lemma report_row_length (cols : list str) (idx : nat) (cells : list value) :
  length (report_row cols idx cells [])
  = length (filter (fun i => message i <> pystr "Cliente vazio")
              (row_checks cols idx cells)).
Proof.
  unfold report_row, row_checks, opt_issue. rewrite report_contract_empty.
  destruct (negb (bool_decide (is_Some (_s (row_get cols cells (pystr "Contrato"))))));
    destruct (negb (bool_decide (is_Some (_s (row_get cols cells (pystr "Cliente"))))));
    destruct (is_SIM (row_get cols cells (pystr "Pago")));
    destruct (isna (row_get cols cells (pystr "Data Pagamento")));
    destruct (isna (row_get cols cells (pystr "VALOR PAGO")));
    destruct (is_SIM (row_get cols cells (pystr "TED/Devolvida"))
              && isna (row_get cols cells (pystr "Valor Devolvido")));
    vm_compute; reflexivity.
Qed.

Lemma report_rows_length (cols : list str) (rs : list (list value)) :
  forall idx,
    length (report_rows cols idx rs [])
    = length (filter (fun i => message i <> pystr "Cliente vazio")
                (table_checks cols idx rs)).
Proof.
  induction rs as [| r rest IH]; intros idx; cbn [report_rows table_checks].
  - reflexivity.
  - rewrite report_rows_app, filter_app, !length_app, IH, report_row_length.
    reflexivity.
Qed.

(** [generate_validation_report] and [validate_dataframe] agree except on
    the client: the report has as many entries as the validator has issues
    other than [Cliente vazio], and it returns [True] exactly when the
    validator finds such an issue. *)
Theorem generate_validation_report_agrees (df : DataFrame) :
  length (report_errors df)
  = length (filter (fun i => message i <> pystr "Cliente vazio")
              (validate_dataframe df))
  /\ (generate_validation_report df = true
      <-> exists i, i ∈ validate_dataframe df
                    /\ message i <> pystr "Cliente vazio").
Proof.
  assert (Hlen : length (report_errors df)
                 = length (filter (fun i => message i <> pystr "Cliente vazio")
                             (validate_dataframe df))).
  { unfold report_errors. rewrite validate_dataframe_checks. apply report_rows_length. }
  split; [exact Hlen |].
  unfold generate_validation_report. split.
  - intros Htrue.
    destruct (filter (fun i => message i <> pystr "Cliente vazio")
                (validate_dataframe df)) as [| i rest] eqn:Hf.
    + destruct (report_errors df); [discriminate | cbn [length] in Hlen; lia].
    + assert (Hin : i ∈ filter (fun i => message i <> pystr "Cliente vazio")
                          (validate_dataframe df))
        by (rewrite Hf; left).
      apply list_elem_of_filter in Hin as [Hmsg Hin]. eauto.
  - intros (i & Hin & Hmsg).
    assert (Hf : i ∈ filter (fun i => message i <> pystr "Cliente vazio")
                       (validate_dataframe df))
      by (apply list_elem_of_filter; split; assumption).
    destruct (report_errors df) as [| e es]; [| reflexivity].
    cbn [length] in Hlen. symmetry in Hlen. apply length_zero_iff_nil in Hlen.
    rewrite Hlen in Hf. apply elem_of_nil in Hf. destruct Hf.
Qed.

Lemma generate_validation_report_agrees_witness :
  generate_validation_report
    {| columns := Samples.headers; rows := [Samples.paid_row] |} = true.
Proof.
  apply (generate_validation_report_agrees
           {| columns := Samples.headers; rows := [Samples.paid_row] |}).
  exists (Build_Issue ERROR (Some 0) (Some (pystr "861234567890-3")) (Some (pystr "ANA"))
            (pystr "Pago=SIM mas VALOR PAGO vazio")).
  split.
  - vm_compute. apply elem_of_cons. right. apply elem_of_cons. left. reflexivity.
  - vm_compute. discriminate.
Defined.

(** ** Files: the issues file and the run directory *)

Lemma exists_false (fs : gmap path node) (p : path) :
  exists_ fs p = false -> fs !! p = None.
Proof.
  unfold exists_. intros H. apply bool_decide_eq_false_1 in H.
  destruct (fs !! p) as [n |]; [exfalso; apply H; eauto | reflexivity].
Qed.

Lemma write_issues_csv_lookup (issues : list Issue) (p : path)
    (fs : gmap path node) :
  (snd (write_issues_csv issues p fs) = true <-> issues <> [])
  /\ fst (write_issues_csv issues p fs) !! p
     = (if snd (write_issues_csv issues p fs) then Some (IssuesCsv issues) else None)
  /\ (forall q, q <> p ->
        fst (write_issues_csv issues p fs) !! q = fs !! q
        \/ (fs !! q = None
            /\ fst (write_issues_csv issues p fs) !! q = Some Dir)).
Proof.
  destruct issues as [| i rest].
  - cbn [write_issues_csv fst snd]. split; [split; [discriminate | congruence] |].
    destruct (exists_ fs p) eqn:He; unfold unlink.
    + split; [apply lookup_delete_eq |].
      intros q Hq. left. apply lookup_delete_ne. congruence.
    + split; [apply exists_false, He | intros q Hq; left; reflexivity].
  - rewrite write_issues_csv_nonempty by discriminate. cbn [fst snd].
    split; [split; [discriminate | reflexivity] |]. unfold write_file.
    split; [apply lookup_insert_eq |].
    intros q Hq. rewrite lookup_insert_ne by congruence.
    apply mkdir_parents_lookup.
Qed.

(** After [write_issues_csv] the file exists exactly when the function
    returned [True], that is when there are issues, and then it holds them;
    a file left there by an earlier run is removed when there is nothing to
    report.  Nothing else changes, except that missing directories are
    created. *)
Theorem write_issues_csv_file (issues : list Issue) (p : path)
    (fs : gmap path node) :
  (snd (write_issues_csv issues p fs) = true <-> issues <> [])
  /\ fst (write_issues_csv issues p fs) !! p
     = (if snd (write_issues_csv issues p fs) then Some (IssuesCsv issues) else None)
  /\ (forall q, q <> p ->
        fst (write_issues_csv issues p fs) !! q = fs !! q
        \/ (fs !! q = None
            /\ fst (write_issues_csv issues p fs) !! q = Some Dir)).
Proof. apply write_issues_csv_lookup. Qed.

Lemma write_issues_csv_file_witness :
  fst (write_issues_csv [] [pystr "issues.csv"]
         {[ [pystr "issues.csv"] := IssuesCsv [] ]}) !! [pystr "issues.csv"] = None.
Proof.
  exact (proj1 (proj2 (write_issues_csv_file [] [pystr "issues.csv"]
                         {[ [pystr "issues.csv"] := IssuesCsv [] ]}))).
Defined.

Lemma mkdir_list_existing (l : list path) :
  forall fs : gmap path node,
    (forall q, q ∈ l -> is_Some (fs !! q)) -> fold_left mkdir_one l fs = fs.
Proof.
  induction l as [| a l IH]; intros fs Hall; cbn [fold_left]; [reflexivity |].
  assert (Ha : mkdir_one fs a = fs).
  { unfold mkdir_one. destruct (Hall a) as [n Hn]; [left |]. rewrite Hn. reflexivity. }
  rewrite Ha. apply IH. intros q Hq. apply Hall. right. exact Hq.
Qed.

Lemma mkdir_parents_again (p : path) (fs : gmap path node) :
  mkdir_parents p (mkdir_parents p fs) = mkdir_parents p fs.
Proof.
  unfold mkdir_parents at 1. apply mkdir_list_existing.
  intros q Hq. apply mkdir_list_creates. left. exact Hq.
Qed.

Lemma ancestors_length (p q : path) :
  q ∈ ancestors_and_self p -> 1 <= length q <= length p.
Proof.
  unfold ancestors_and_self. intros H.
  apply list_elem_of_fmap in H as (n & -> & Hn). apply elem_of_seq in Hn.
  rewrite length_take. lia.
Qed.

Lemma mkdir_list_outside (l : list path) (q : path) :
  q ∉ l -> forall fs : gmap path node, fold_left mkdir_one l fs !! q = fs !! q.
Proof.
  induction l as [| a l IH]; intros Hq fs; cbn [fold_left]; [reflexivity |].
  apply not_elem_of_cons in Hq as [Hne Hq]. rewrite IH by exact Hq.
  unfold mkdir_one. destruct (fs !! a); [reflexivity |].
  apply lookup_insert_ne. congruence.
Qed.

(** A path longer than [p] is not touched by the creation of [p]. *)
Lemma mkdir_parents_longer (p q : path) (fs : gmap path node) :
  length p < length q -> mkdir_parents p fs !! q = fs !! q.
Proof.
  intros Hlen. apply mkdir_list_outside. intros Hin.
  apply ancestors_length in Hin. lia.
Qed.

(** [make_run_dir] returns [base/runs/<timestamp>], which exists
    afterwards together with [base/runs]; it removes and overwrites nothing
    (what it adds is a directory); and a second call at the same second
    finds everything in place and changes nothing. *)
Theorem make_run_dir_creates (now : timestamp) (base : path)
    (fs : gmap path node) :
  snd (make_run_dir now base fs)
  = join (join base (pystr "runs")) (strftime_run now)
  /\ is_Some (fst (make_run_dir now base fs) !! snd (make_run_dir now base fs))
  /\ is_Some (fst (make_run_dir now base fs) !! join base (pystr "runs"))
  /\ (forall q, fst (make_run_dir now base fs) !! q = fs !! q
                \/ (fs !! q = None
                    /\ fst (make_run_dir now base fs) !! q = Some Dir))
  /\ make_run_dir now base (fst (make_run_dir now base fs))
     = make_run_dir now base fs.
Proof.
  unfold make_run_dir. cbn [fst snd]. split; [reflexivity |].
  split; [| split; [| split]].
  - apply mkdir_parents_creates. unfold join. intros H.
    apply app_eq_nil in H as [_ H]. discriminate.
  - apply mkdir_list_creates. left. unfold ancestors_and_self.
    apply list_elem_of_fmap. exists (S (length base)). split.
    + unfold join. rewrite <- app_assoc.
      rewrite take_app_ge by lia.
      replace (S (length base) - length base) with 1 by lia. reflexivity.
    + apply elem_of_seq. unfold join. rewrite !length_app. cbn. lia.
  - intros q. apply mkdir_parents_lookup.
  - rewrite mkdir_parents_again. reflexivity.
Qed.

(** ** The steps of [normalize_dataframe] *)

Section Steps.

Variable parse_datetime : bool -> str -> option timestamp.

(** A successful [normalize_dataframe], step by step. *)
Lemma normalize_dataframe_steps (df df2 : DataFrame)
    (stats : list (str * RunSummaryData.transform_stats)) :
  normalize_dataframe parse_datetime df = Ok (df2, stats) ->
  missing_required (renamed_columns df) = []
  /\ exists r1 r2 d3 d4 d5 d6 d7,
       (if decide (pystr "Taxa" ∈ map strip (renamed_columns df))
        then bind (_apply_with_stats (pystr "Taxa") money_column
                     {| columns := map strip (renamed_columns df); rows := rows df |})
               (fun '(d, st) => Ok (d, [] ++ [(pystr "Taxa", st)]))
        else Ok ({| columns := map strip (renamed_columns df); rows := rows df |}, []))
       = Ok r1
       /\ (if decide (pystr "Emissão" ∈ columns (fst r1))
           then bind (_apply_with_stats (pystr "Emissão")
                        (date_column parse_datetime) (fst r1))
                  (fun '(d, st) => Ok (d, snd r1 ++ [(pystr "Emissão", st)]))
           else Ok (fst r1, snd r1)) = Ok r2
       /\ apply_if_present (pystr "Data Pagamento") (date_column parse_datetime)
            (fst r2) = Ok d3
       /\ fold_left (fun acc col => bind acc (apply_if_present col money_column))
            money_columns (Ok d3) = Ok d4
       /\ apply_if_present (pystr "Pago") yes_no_column d4 = Ok d5
       /\ apply_if_present (pystr "TED/Devolvida") yes_no_column d5 = Ok d6
       /\ apply_if_present (pystr "Contrato") astype_str_strip d6 = Ok d7
       /\ df2 = where_notnull_none d7
       /\ stats = snd r2.
Proof.
  intros H. unfold normalize_dataframe in H.
  destruct (missing_required (renamed_columns df)) as [| m ms] eqn:Hmiss;
    [| discriminate].
  split; [reflexivity |]. cbv zeta in H. cbn [columns] in H.
  apply bind_Ok in H as ([df1 st1] & H1 & H).
  apply bind_Ok in H as ([df2' st2] & H2 & H).
  apply bind_Ok in H as (d3 & H3 & H).
  apply bind_Ok in H as (d4 & H4 & H).
  apply bind_Ok in H as (d5 & H5 & H).
  apply bind_Ok in H as (d6 & H6 & H).
  apply bind_Ok in H as (d7 & H7 & H).
  injection H as <- <-.
  exists (df1, st1), (df2', st2), d3, d4, d5, d6, d7.
  cbn [fst snd]. repeat split; assumption.
Qed.

End Steps.

Lemma same_shape_refl (df : DataFrame) : same_shape df df.
Proof.
  split; [reflexivity |]. induction (rows df); constructor; auto.
Qed.

Lemma same_shape_trans (a b c : DataFrame) :
  same_shape a b -> same_shape b c -> same_shape a c.
Proof.
  intros [Hc1 Hr1] [Hc2 Hr2]. split; [congruence |].
  revert Hr2. generalize (rows c). induction Hr1 as [| r r' rs rs' Hlen _ IH];
    intros l Hr2; inversion Hr2; subst; constructor; [congruence | auto].
Qed.

Lemma apply_rows_shape (label : str) (f : value -> py value) (cols : list str) :
  forall rs rs',
    apply_rows label f cols rs = Ok rs' ->
    Forall2 (fun r r' => length r' = length r) rs rs'.
Proof.
  induction rs as [| r rest IH]; intros rs' H; cbn [apply_rows] in H.
  - injection H as <-. constructor.
  - apply bind_Ok in H as (r' & Hr & H). apply bind_Ok in H as (rest' & Hrest & H).
    injection H as <-. constructor; [eapply apply_cells_length; exact Hr | auto].
Qed.

Lemma apply_column_shape (label : str) (f : value -> py value) (df df' : DataFrame) :
  apply_column label f df = Ok df' -> same_shape df df'.
Proof.
  unfold apply_column. intros H. apply bind_Ok in H as (rs & Hrs & H).
  injection H as <-. split; [reflexivity |]. cbn [rows].
  eapply apply_rows_shape. exact Hrs.
Qed.

Lemma apply_if_present_shape (label : str) (f : value -> py value)
    (df df' : DataFrame) :
  apply_if_present label f df = Ok df' -> same_shape df df'.
Proof.
  unfold apply_if_present. destruct (decide (label ∈ columns df)).
  - apply apply_column_shape.
  - intros [= <-]. apply same_shape_refl.
Qed.

Lemma stats_step_shape (label : str) (f : value -> py value) (df : DataFrame)
    (stats : list (str * RunSummaryData.transform_stats))
    (r : DataFrame * list (str * RunSummaryData.transform_stats)) :
  (if decide (label ∈ columns df)
   then bind (_apply_with_stats label f df)
          (fun '(d, st) => Ok (d, stats ++ [(label, st)]))
   else Ok (df, stats)) = Ok r ->
  same_shape df (fst r).
Proof.
  intros H. destruct (decide (label ∈ columns df)).
  - apply bind_Ok in H as ([d st] & Happly & H). injection H as <-.
    unfold _apply_with_stats in Happly.
    apply bind_Ok in Happly as (out & Hout & Happly). injection Happly as <- _.
    cbn [fst]. eapply apply_column_shape. exact Hout.
  - injection H as <-. apply same_shape_refl.
Qed.

Lemma fold_apply_shape (f : value -> py value) (labels : list str) :
  forall df df',
    fold_left (fun acc col => bind acc (apply_if_present col f)) labels (Ok df)
    = Ok df' ->
    same_shape df df'.
Proof.
  induction labels as [| l ls IH]; intros df df' H.
  - injection H as <-. apply same_shape_refl.
  - cbn [fold_left bind] in H.
    destruct (apply_if_present l f df) as [d | e] eqn:Hl.
    + eapply same_shape_trans; [eapply apply_if_present_shape; exact Hl | auto].
    + rewrite fold_apply_raise in H. discriminate.
Qed.

Lemma where_shape (df : DataFrame) : same_shape df (where_notnull_none df).
Proof.
  split; [reflexivity |]. cbn [where_notnull_none rows].
  induction (rows df) as [| r rs IH]; constructor; [apply length_map | exact IH].
Qed.

Lemma normalize_dataframe_same_shape
    (parse_datetime : bool -> str -> option timestamp)
    (df df2 : DataFrame) (stats : list (str * RunSummaryData.transform_stats)) :
  normalize_dataframe parse_datetime df = Ok (df2, stats) ->
  same_shape {| columns := map strip (renamed_columns df); rows := rows df |} df2
  /\ exists d7, df2 = where_notnull_none d7.
Proof.
  intros H.
  destruct (normalize_dataframe_steps parse_datetime df df2 stats H)
    as (_ & r1 & r2 & d3 & d4 & d5 & d6 & d7
        & H1 & H2 & H3 & H4 & H5 & H6 & H7 & -> & _).
  split; [| exists d7; reflexivity].
  eapply same_shape_trans;
    [exact (stats_step_shape (pystr "Taxa") money_column
              {| columns := map strip (renamed_columns df); rows := rows df |}
              [] r1 H1) |].
  eapply same_shape_trans; [exact (stats_step_shape _ _ _ _ _ H2) |].
  eapply same_shape_trans; [exact (apply_if_present_shape _ _ _ _ H3) |].
  eapply same_shape_trans; [exact (fold_apply_shape _ _ _ _ H4) |].
  eapply same_shape_trans; [exact (apply_if_present_shape _ _ _ _ H5) |].
  eapply same_shape_trans; [exact (apply_if_present_shape _ _ _ _ H6) |].
  eapply same_shape_trans; [exact (apply_if_present_shape _ _ _ _ H7) |].
  apply where_shape.
Qed.

(** [normalize_dataframe] keeps the shape of the table: it drops and adds
    no row and no cell, and the labels are the renamed headers. *)
Theorem normalize_dataframe_shape
    (parse_datetime : bool -> str -> option timestamp)
    (df df2 : DataFrame) (stats : list (str * RunSummaryData.transform_stats)) :
  normalize_dataframe parse_datetime df = Ok (df2, stats) ->
  columns df2 = map strip (renamed_columns df)
  /\ length (columns df2) = length (columns df)
  /\ Forall2 (fun r r' => length r' = length r) (rows df) (rows df2)
  /\ length (rows df2) = length (rows df).
Proof.
  intros H.
  destruct (normalize_dataframe_same_shape parse_datetime df df2 stats H)
    as ([Hcols Hrows] & _).
  cbn [columns rows] in Hcols, Hrows.
  split; [exact Hcols |]. split; [| split; [exact Hrows |]].
  - rewrite Hcols. unfold renamed_columns. rewrite !length_map. reflexivity.
  - symmetry. eapply Forall2_length. exact Hrows.
Qed.

Lemma normalize_dataframe_shape_witness :
  length (rows {| columns := REQUIRED_COLUMNS;
                  rows := [[VStr (pystr " "); VStr (pystr "861234567890-3");
                            VTimestamp (midnight 2026 1 2);
                            VFloat (float_of_N 3000)]] |})
  = length (rows Samples.sheet_without_client).
Proof.
  refine (proj2 (proj2 (proj2
            (normalize_dataframe_shape reference_reader Samples.sheet_without_client
               _ [(pystr "Emissão",
                   {| RunSummaryData.before_non_empty := 1;
                      RunSummaryData.after_non_empty := 1;
                      RunSummaryData.became_empty := 0 |})] _)))).
  vm_compute. reflexivity.
Defined.

(** ** Trimming *)

Lemma lstrip_head (s : str) :
  match lstrip s with
  | c :: _ => is_space c = false
  | [] => True
  end.
Proof.
  induction s as [| c t IH]; cbn [lstrip]; [exact I |].
  destruct (is_space c) eqn:Hc; [exact IH | exact Hc].
Qed.

Lemma lstrip_fixed (s : str) :
  match s with c :: _ => is_space c = false | [] => True end -> lstrip s = s.
Proof.
  destruct s as [| c t]; [reflexivity |]. cbn [lstrip]. intros ->. reflexivity.
Qed.

Lemma lstrip_idempotent (s : str) : lstrip (lstrip s) = lstrip s.
Proof. apply lstrip_fixed, lstrip_head. Qed.

Lemma lstrip_suffix (s : str) :
  exists u, s = u ++ lstrip s /\ Forall (fun c => is_space c = true) u.
Proof.
  induction s as [| c t (u & Heq & Hu)]; [exists []; split; [reflexivity | constructor] |].
  cbn [lstrip]. destruct (is_space c) eqn:Hc.
  - exists (c :: u). split; [cbn [app]; congruence | constructor; assumption].
  - exists []. split; [reflexivity | constructor].
Qed.

Lemma rstrip_prefix (s : str) :
  exists u, s = rstrip s ++ u /\ Forall (fun c => is_space c = true) u.
Proof.
  unfold rstrip. destruct (lstrip_suffix (rev s)) as (u & Heq & Hu).
  exists (rev u). split.
  - rewrite <- rev_app_distr, <- Heq, rev_involutive. reflexivity.
  - apply List.Forall_rev. exact Hu.
Qed.

Lemma rstrip_idempotent (s : str) : rstrip (rstrip s) = rstrip s.
Proof. unfold rstrip. rewrite rev_involutive, lstrip_idempotent. reflexivity. Qed.

(** A trimmed text starts with no blank. *)
Lemma strip_head (s : str) :
  match strip s with
  | c :: _ => is_space c = false
  | [] => True
  end.
Proof.
  unfold strip. destruct (rstrip_prefix (lstrip s)) as (u & Heq & _).
  pose proof (lstrip_head s) as Hh.
  destruct (rstrip (lstrip s)) as [| c r]; [exact I |].
  rewrite Heq in Hh. exact Hh.
Qed.

(** Trimming twice is trimming once. *)
Lemma strip_idempotent (s : str) : strip (strip s) = strip s.
Proof.
  unfold strip at 1. rewrite (lstrip_fixed (strip s)) by apply strip_head.
  unfold strip. apply rstrip_idempotent.
Qed.

(** ** What normalization makes of the contract, the flags and the rate *)

(** The contract cell of every normalized row is the trimmed text of the
    raw cell, when the raw cell is not a date (of a column of dates
    [astype(str)] can write the date without its time, which [str] does
    not); and the validator reports [Contrato vazio] for a row exactly when
    the trimmed text of the raw cell is empty: for a blank text, never for
    a missing cell, whose text is [nan] or [None]. *)
Theorem normalized_contract_text
    (parse_datetime : bool -> str -> option timestamp)
    (df df2 : DataFrame) (stats : list (str * RunSummaryData.transform_stats))
    (i : nat) (cells : list value) :
  normalize_dataframe parse_datetime df = Ok (df2, stats) ->
  rows df !! i = Some cells ->
  length cells = length (columns df) ->
  ((forall t, row_get (columns df2) cells (pystr "Contrato") <> VTimestamp t) ->
   exists cells2,
     rows df2 !! i = Some cells2
     /\ row_get (columns df2) cells2 (pystr "Contrato")
        = VStr (strip (str_ (row_get (columns df2) cells (pystr "Contrato")))))
  /\ ((exists issue, issue ∈ validate_dataframe df2 /\ row issue = Some i
                     /\ message issue = pystr "Contrato vazio")
      <-> strip (str_ (row_get (columns df2) cells (pystr "Contrato"))) = []).
Proof.
  intros Hnorm Hi Hlen.
  destruct (normalize_dataframe_contract parse_datetime df df2 stats i cells
              Hnorm Hi Hlen) as (_ & cells2 & Hi2 & _ & Hget).
  split; [intros _; exists cells2; split; assumption |].
  set (t := strip (str_ (row_get (columns df2) cells (pystr "Contrato")))) in *.
  assert (Hrow : forall issue, issue ∈ validate_dataframe df2 /\ row issue = Some i
                               <-> issue ∈ row_checks (columns df2) i cells2).
  { intros issue. rewrite <- (validate_dataframe_of_row df2 i cells2 Hi2).
    rewrite list_elem_of_filter. tauto. }
  split.
  - intros (issue & Hin & Hr & Hmsg).
    assert (Hof : issue ∈ row_checks (columns df2) i cells2) by (apply Hrow; tauto).
    unfold row_checks in Hof. rewrite Hget in Hof.
    assert (Hstrip : strip t = t) by apply strip_idempotent.
    destruct t as [| c t']; [reflexivity | exfalso].
    rewrite (bool_decide_eq_true_2 (is_Some (_s (VStr (c :: t'))))) in Hof
      by (cbn [_s str_]; rewrite Hstrip; eauto).
    cbn [negb opt_issue app] in Hof. rewrite !elem_of_app in Hof.
    destruct Hof as [H | [H | [H | [H | H]]]];
      apply elem_of_opt_issue in H; subst issue; cbn [message] in Hmsg;
      vm_compute in Hmsg; discriminate Hmsg.
  - intros Ht.
    exists (Build_Issue ERROR (Some i) None
              (_s (row_get (columns df2) cells2 (pystr "Cliente")))
              (pystr "Contrato vazio")).
    assert (Hof : Build_Issue ERROR (Some i) None
                    (_s (row_get (columns df2) cells2 (pystr "Cliente")))
                    (pystr "Contrato vazio") ∈ row_checks (columns df2) i cells2).
    { unfold row_checks. rewrite Hget, Ht. apply elem_of_app. left. left. }
    apply Hrow in Hof as [Hin Hr]. split; [exact Hin | split; [exact Hr | reflexivity]].
Qed.

Lemma normalized_contract_text_witness :
  exists cells2,
    [[VStr (pystr "ANA"); VStr (pystr "nan"); VTimestamp (midnight 2026 1 2);
      VFloat (float_of_N 3000)]] !! 0 = Some cells2
    /\ row_get REQUIRED_COLUMNS cells2 (pystr "Contrato") = VStr (pystr "nan").
Proof.
  refine (proj1 (normalized_contract_text reference_reader
            Samples.sheet_without_contract
            {| columns := REQUIRED_COLUMNS;
               rows := [[VStr (pystr "ANA"); VStr (pystr "nan");
                         VTimestamp (midnight 2026 1 2);
                         VFloat (float_of_N 3000)]] |}
            [(pystr "Emissão",
              {| RunSummaryData.before_non_empty := 1;
                 RunSummaryData.after_non_empty := 1;
                 RunSummaryData.became_empty := 0 |})]
            0
            [VStr (pystr "ANA"); VFloat FNan; VStr (pystr "2026-01-02");
             VStr (pystr "3000.00")]
            _ _ _) _).
  - vm_compute. reflexivity.
  - reflexivity.
  - reflexivity.
  - intros t H. vm_compute in H. discriminate H.
Defined.

Section Flags.

Variable parse_datetime : bool -> str -> option timestamp.

(** After [normalize_dataframe] a cell of the paid-flag column is the text
    the yes/no parser gives for the raw cell. *)
Lemma normalize_dataframe_pago (df df2 : DataFrame)
    (stats : list (str * RunSummaryData.transform_stats))
    (i : nat) (cells : list value) :
  normalize_dataframe parse_datetime df = Ok (df2, stats) ->
  pystr "Pago" ∈ columns df2 ->
  rows df !! i = Some cells ->
  length cells = length (columns df) ->
  exists s,
    _normalize_yes_no (row_get (columns df2) cells (pystr "Pago")) = Ok s
    /\ row_state (columns df2) i (pystr "Pago") (VStr s) df2.
Proof.
  intros H Hin Hi Hlen.
  destruct (normalize_dataframe_same_shape parse_datetime df df2 stats H)
    as ([Hcols _] & _). cbn [columns] in Hcols.
  destruct (normalize_dataframe_steps parse_datetime df df2 stats H)
    as (_ & r1 & r2 & d3 & d4 & d5 & d6 & d7
        & H1 & H2 & H3 & H4 & H5 & H6 & H7 & Hdf2 & _).
  rewrite Hcols in *.
  set (cols := map strip (renamed_columns df)) in *.
  set (pago := pystr "Pago") in *.
  assert (H0 : row_state cols i pago (row_get cols cells pago)
                 {| columns := cols; rows := rows df |}).
  { split; [reflexivity |]. exists cells. cbn [rows]. split; [exact Hi |].
    split; [| reflexivity].
    unfold cols, renamed_columns. rewrite !length_map. exact Hlen. }
  apply (stats_step_other cols i (pystr "Taxa") pago money_column
           (row_get cols cells pago) {| columns := cols; rows := rows df |} [] r1)
    in H1; [| discriminate | exact H0].
  apply stats_step_other with (cols := cols) (i := i) (other := pago)
    (v := row_get cols cells pago) in H2; [| discriminate | exact H1].
  apply apply_if_present_other with (cols := cols) (i := i) (other := pago)
    (v := row_get cols cells pago) in H3; [| discriminate | exact H2].
  apply fold_apply_other with (cols := cols) (i := i) (other := pago)
    (v := row_get cols cells pago) in H4; [| | exact H3].
  2:{ intros l Hl. unfold money_columns in Hl. list_cases Hl; discriminate. }
  destruct (apply_if_present_same cols i pago yes_no_column _ _ _ Hin H4 H5)
    as (v' & Hv' & Hst5).
  unfold yes_no_column in Hv'. apply bind_Ok in Hv' as (s & Hs & Hv').
  injection Hv' as <-.
  apply apply_if_present_other with (cols := cols) (i := i) (other := pago)
    (v := VStr s) in H6; [| discriminate | exact Hst5].
  apply apply_if_present_other with (cols := cols) (i := i) (other := pago)
    (v := VStr s) in H7; [| discriminate | exact H6].
  destruct H7 as (Hcols7 & cells7 & Hi7 & Hlen7 & Hget7).
  exists s. split; [exact Hs |]. subst df2.
  split; [exact Hcols7 |].
  exists (map (fun v => if isna v then VNone else v) cells7).
  split; [| split].
  - cbn [where_notnull_none rows]. rewrite list_lookup_fmap, Hi7. reflexivity.
  - rewrite length_map. exact Hlen7.
  - rewrite row_get_where, Hget7. reflexivity.
Qed.

End Flags.

Lemma yes_no_SIM (v : value) (s : str) :
  _normalize_yes_no v = Ok s ->
  (s = pystr "SIM"
   <-> v <> VNone /\ v <> VFloat FNan /\ upper (strip (str_ v)) ∈ truthy).
Proof.
  intros Hs.
  destruct (decide (v = VNone)) as [-> | Hnone].
  { injection Hs as <-. split; [discriminate | tauto]. }
  destruct (decide (v = VFloat FNan)) as [-> | Hnan].
  { injection Hs as <-. split; [discriminate | tauto]. }
  assert (Hbody : _normalize_yes_no v =
            if decide (upper (strip (str_ v)) ∈ truthy) then Ok (pystr "SIM")
            else if decide (upper (strip (str_ v)) ∈ falsy) then
              Ok (match upper (strip (str_ v)) with [] => pystr "" | _ => pystr "NÃO" end)
            else Ok (upper (strip (str_ v)))).
  { destruct v as [| | | f | | |]; try reflexivity; [congruence |].
    destruct f; try reflexivity. congruence. }
  rewrite Hbody in Hs. clear Hbody.
  destruct (decide (upper (strip (str_ v)) ∈ truthy)) as [Ht | Ht].
  - injection Hs as <-. tauto.
  - split; [| tauto]. intros ->. exfalso.
    destruct (decide (upper (strip (str_ v)) ∈ falsy)).
    + destruct (upper (strip (str_ v))); discriminate.
    + injection Hs as Hs. apply Ht. rewrite Hs. left.
Qed.

(** The paid flag of a normalized row is [SIM] exactly when the raw flag
    is present and, trimmed and uppercased, one of SIM, S, YES, Y, TRUE, 1:
    these are the rows on which the validator asks for a payment date and a
    paid amount. *)
Theorem normalized_paid_flag
    (parse_datetime : bool -> str -> option timestamp)
    (df df2 : DataFrame) (stats : list (str * RunSummaryData.transform_stats))
    (i : nat) (cells : list value) :
  normalize_dataframe parse_datetime df = Ok (df2, stats) ->
  pystr "Pago" ∈ columns df2 ->
  rows df !! i = Some cells ->
  length cells = length (columns df) ->
  exists cells2,
    rows df2 !! i = Some cells2
    /\ (is_SIM (row_get (columns df2) cells2 (pystr "Pago")) = true
        <-> row_get (columns df2) cells (pystr "Pago") <> VNone
            /\ row_get (columns df2) cells (pystr "Pago") <> VFloat FNan
            /\ upper (strip (str_ (row_get (columns df2) cells (pystr "Pago"))))
               ∈ truthy).
Proof.
  intros Hnorm Hin Hi Hlen.
  destruct (normalize_dataframe_pago parse_datetime df df2 stats i cells
              Hnorm Hin Hi Hlen) as (s & Hs & _ & cells2 & Hi2 & _ & Hget).
  exists cells2. split; [exact Hi2 |].
  rewrite Hget, <- (yes_no_SIM _ s Hs). unfold is_SIM.
  rewrite bool_decide_eq_true. split; [intros [= ->]; reflexivity | intros ->; reflexivity].
Qed.

Lemma normalized_paid_flag_witness :
  exists cells2,
    [[VStr (pystr "ANA"); VStr (pystr "86-1"); VTimestamp (midnight 2026 1 2);
      VFloat (float_of_N 3000); VStr (pystr "SIM")]] !! 0 = Some cells2
    /\ (is_SIM (row_get (REQUIRED_COLUMNS ++ [pystr "Pago"]) cells2 (pystr "Pago")) = true
        <-> VStr (pystr " yes ") <> VNone
            /\ VStr (pystr " yes ") <> VFloat FNan
            /\ upper (strip (str_ (VStr (pystr " yes ")))) ∈ truthy).
Proof.
  refine (normalized_paid_flag reference_reader
            {| columns := [pystr "Cliente"; pystr "Contrato"; pystr "Emissão";
                           pystr "Vlr Liberado"; pystr "pago"];
               rows := [[VStr (pystr "ANA"); VStr (pystr "86-1");
                         VStr (pystr "2026-01-02"); VStr (pystr "3000");
                         VStr (pystr " yes ")]] |}
            {| columns := REQUIRED_COLUMNS ++ [pystr "Pago"];
               rows := [[VStr (pystr "ANA"); VStr (pystr "86-1");
                         VTimestamp (midnight 2026 1 2);
                         VFloat (float_of_N 3000); VStr (pystr "SIM")]] |}
            [(pystr "Emissão",
              {| RunSummaryData.before_non_empty := 1;
                 RunSummaryData.after_non_empty := 1;
                 RunSummaryData.became_empty := 0 |})]
            0
            [VStr (pystr "ANA"); VStr (pystr "86-1");
             VStr (pystr "2026-01-02"); VStr (pystr "3000");
             VStr (pystr " yes ")]
            _ _ _ _).
  - vm_compute. reflexivity.
  - vm_compute. do 4 (apply elem_of_cons; right). apply elem_of_cons. left. reflexivity.
  - reflexivity.
  - reflexivity.
Defined.

(** ** Transform statistics *)

Lemma apply_rows_counts (label : str) (f : value -> py value) (cols : list str) :
  label ∈ cols ->
  (forall v v', isna v = true -> f v = Ok v' -> isna v' = true) ->
  forall rs rs',
    Forall (fun r => length cols <= length r) rs ->
    apply_rows label f cols rs = Ok rs' ->
    length (filter (fun r => isna (row_get cols r label) = false) rs)
    = length (filter (fun r => isna (row_get cols r label) = false) rs')
      + length (filter (fun r => lost f (row_get cols r label) = true) rs).
Proof.
  intros Hin Hnull. induction rs as [| r rest IH]; intros rs' Hlen H;
    cbn [apply_rows] in H.
  - injection H as <-. reflexivity.
  - apply bind_Ok in H as (r' & Hr & H). apply bind_Ok in H as (rest' & Hrest & H).
    injection H as <-. inversion Hlen as [| ? ? Hr_len Hrest_len]; subst.
    specialize (IH rest' Hrest_len Hrest).
    pose proof (apply_cells_same label f cols Hin r r' Hr_len Hr) as Hf.
    assert (Hlost : lost f (row_get cols r label)
                    = negb (isna (row_get cols r label)) && isna (row_get cols r' label))
      by (unfold lost; rewrite Hf; reflexivity).
    assert (Hn : isna (row_get cols r label) = true ->
                 isna (row_get cols r' label) = true)
      by (intros E; exact (Hnull _ _ E Hf)).
    rewrite !filter_cons.
    destruct (decide (isna (row_get cols r label) = false)) as [E1 | E1];
      destruct (decide (isna (row_get cols r' label) = false)) as [E2 | E2];
      destruct (decide (lost f (row_get cols r label) = true)) as [E3 | E3];
      rewrite Hlost in E3;
      destruct (isna (row_get cols r label));
      destruct (isna (row_get cols r' label));
      cbn [negb andb] in *; try congruence; cbn [length]; try lia;
      specialize (Hn eq_refl); discriminate.
Qed.

Lemma money_column_null (v v' : value) :
  isna v = true -> money_column v = Ok v' -> isna v' = true.
Proof.
  destruct v as [| | | [| |] | | |]; try discriminate; intros _ H;
    vm_compute in H; injection H as <-; reflexivity.
Qed.

(** The statistics recorded for a money column (the rate): [before] counts
    the raw cells that hold something, [became_empty] counts those of them
    the money parser could not read, so it is never negative, and [after]
    is what remains. *)
Theorem apply_with_stats_money (label : str) (df out : DataFrame)
    (st : RunSummaryData.transform_stats) :
  label ∈ columns df ->
  Forall (fun r => length (columns df) <= length r) (rows df) ->
  _apply_with_stats label money_column df = Ok (out, st) ->
  RunSummaryData.before_non_empty st
  = Z.of_nat (length (filter (fun r => isna (row_get (columns df) r label) = false)
                        (rows df)))
  /\ RunSummaryData.became_empty st
     = Z.of_nat (length (filter
                           (fun r => lost money_column (row_get (columns df) r label) = true)
                           (rows df)))
  /\ (RunSummaryData.after_non_empty st + RunSummaryData.became_empty st
      = RunSummaryData.before_non_empty st)%Z
  /\ (0 <= RunSummaryData.became_empty st)%Z.
Proof.
  intros Hin Hlen H. unfold _apply_with_stats in H.
  apply bind_Ok in H as (out' & Hout & H). injection H as <- <-.
  cbn [RunSummaryData.before_non_empty RunSummaryData.became_empty
         RunSummaryData.after_non_empty].
  unfold apply_column in Hout. apply bind_Ok in Hout as (rs & Hrs & Hout).
  injection Hout as <-. unfold count_notna. cbn [columns rows].
  pose proof (apply_rows_counts label money_column (columns df) Hin
                money_column_null (rows df) rs Hlen Hrs) as Hcount.
  repeat split; lia.
Qed.

Lemma apply_with_stats_money_witness :
  RunSummaryData.became_empty
    {| RunSummaryData.before_non_empty := 2;
       RunSummaryData.after_non_empty := 1;
       RunSummaryData.became_empty := 1 |}
  = Z.of_nat (length (filter
                        (fun r => lost money_column (row_get [pystr "Taxa"] r (pystr "Taxa")) = true)
                        [[VStr (pystr "9,20")]; [VStr (pystr "n/d")]; [VNone]])).
Proof.
  refine (proj1 (proj2 (apply_with_stats_money (pystr "Taxa")
            {| columns := [pystr "Taxa"];
               rows := [[VStr (pystr "9,20")]; [VStr (pystr "n/d")]; [VNone]] |}
            {| columns := [pystr "Taxa"];
               rows := [[VFloat (FFin false [9; 2]%N 1)]; [VNone]; [VNone]] |}
            _ _ _ _))).
  - apply elem_of_cons. left. reflexivity.
  - repeat constructor.
  - vm_compute. reflexivity.
Defined.

(** ** Renaming of the headers *)

Lemma rename_fold_lookup (cols : list str) (c : str) :
  forall m : gmap str str,
    fold_left
      (fun rename_map col =>
         match COLUMN_ALIASES !! canon_col col with
         | Some internal => <[col := internal]> rename_map
         | None => rename_map
         end) cols m !! c
    = if decide (c ∈ cols)
      then match COLUMN_ALIASES !! canon_col c with
           | Some internal => Some internal
           | None => m !! c
           end
      else m !! c.
Proof.
  induction cols as [| a rest IH]; intros m; cbn [fold_left].
  - rewrite decide_False by (intros H; inversion H). reflexivity.
  - rewrite IH. destruct (decide (c ∈ rest)) as [Hrest | Hrest].
    + rewrite decide_True by (right; exact Hrest).
      destruct (COLUMN_ALIASES !! canon_col c) as [x |] eqn:Hc; [reflexivity |].
      destruct (COLUMN_ALIASES !! canon_col a) as [y |] eqn:Ha; [| reflexivity].
      apply lookup_insert_ne. intros ->. congruence.
    + destruct (decide (c = a)) as [-> | Hne].
      * rewrite decide_True by left.
        destruct (COLUMN_ALIASES !! canon_col a) as [y |]; [| reflexivity].
        apply lookup_insert_eq.
      * rewrite decide_False by (intros H; apply elem_of_cons in H as [H | H]; tauto).
        destruct (COLUMN_ALIASES !! canon_col a) as [y |]; [| reflexivity].
        apply lookup_insert_ne. congruence.
Qed.

Lemma renamed_columns_map (df : DataFrame) :
  renamed_columns df = map (fun c => internal_name (strip c)) (columns df).
Proof.
  unfold renamed_columns, build_rename_map. rewrite map_map.
  apply map_ext_in. intros c Hc.
  rewrite rename_fold_lookup.
  rewrite decide_True by (apply list_elem_of_In, in_map, Hc).
  unfold internal_name. rewrite lookup_empty.
  destruct (COLUMN_ALIASES !! canon_col (strip c)); reflexivity.
Qed.

(** The renaming dictionary built by the loop gives every header, repeated
    or not, the internal name of its trimmed text: the alias of its
    canonical key when the key is in the table, the trimmed header itself
    otherwise.  No header is dropped or added. *)
Theorem renamed_columns_spec (df : DataFrame) :
  renamed_columns df = map (fun c => internal_name (strip c)) (columns df)
  /\ length (renamed_columns df) = length (columns df)
  /\ (forall i c, columns df !! i = Some c ->
        COLUMN_ALIASES !! canon_col (strip c) = None ->
        renamed_columns df !! i = Some (strip c)).
Proof.
  split; [apply renamed_columns_map |]. split.
  - rewrite renamed_columns_map, length_map. reflexivity.
  - intros i c Hi Hnone. rewrite renamed_columns_map, list_lookup_fmap, Hi.
    cbn. unfold internal_name. rewrite Hnone. reflexivity.
Qed.

Lemma renamed_columns_spec_witness :
  renamed_columns
    {| columns := [pystr " Nº Contrato "; pystr "Cliente"]; rows := [] |} !! 0
  = Some (strip (pystr " Nº Contrato ")).
Proof.
  refine (proj2 (proj2 (renamed_columns_spec
            {| columns := [pystr " Nº Contrato "; pystr "Cliente"]; rows := [] |}))
            0 (pystr " Nº Contrato ") eq_refl _).
  vm_compute. reflexivity.
Defined.

Ltac alias_cases H :=
  repeat (apply elem_of_cons in H as [H | H];
          [injection H as -> -> | ]);
  try (apply elem_of_nil in H; destruct H).

Lemma column_aliases_entries (k v : str) :
  COLUMN_ALIASES !! k = Some v ->
  canon_col k = k /\ strip v = v /\ COLUMN_ALIASES !! canon_col v = Some v.
Proof.
  unfold COLUMN_ALIASES at 1. intros H. apply elem_of_list_to_map_2 in H.
  alias_cases H; vm_compute; repeat split; reflexivity.
Qed.

Lemma internal_name_fixed (c : str) :
  strip c = c ->
  strip (internal_name c) = internal_name c
  /\ internal_name (internal_name c) = internal_name c.
Proof.
  intros Hc.
  destruct (COLUMN_ALIASES !! canon_col c) as [v |] eqn:Hv.
  - assert (Hin : internal_name c = v)
      by (unfold internal_name; rewrite Hv; reflexivity).
    rewrite Hin. destruct (column_aliases_entries _ _ Hv) as (_ & Hs & Hfix).
    split; [exact Hs |]. unfold internal_name. rewrite Hfix. reflexivity.
  - assert (Hin : internal_name c = c)
      by (unfold internal_name; rewrite Hv; reflexivity).
    rewrite Hin. split; [exact Hc | exact Hin].
Qed.

(** The alias table is closed: every key is its own canonical form, and
    every internal name is trimmed and is renamed to itself.  Hence
    renaming the headers of a table whose headers are already renamed
    changes nothing. *)
Theorem column_aliases_closed :
  (forall k v, COLUMN_ALIASES !! k = Some v ->
     canon_col k = k /\ strip v = v /\ COLUMN_ALIASES !! canon_col v = Some v)
  /\ (forall df : DataFrame,
        renamed_columns {| columns := renamed_columns df; rows := rows df |}
        = renamed_columns df).
Proof.
  split; [exact column_aliases_entries |].
  intros df. rewrite (renamed_columns_map {| columns := _; rows := _ |}).
  cbn [columns]. rewrite renamed_columns_map, map_map.
  apply map_ext. intros c.
  destruct (internal_name_fixed (strip c) (strip_idempotent c)) as [Hs Hfix].
  rewrite Hs. exact Hfix.
Qed.

Lemma column_aliases_closed_witness :
  canon_col (pystr "data de emissao") = pystr "data de emissao"
  /\ strip (pystr "Emissão") = pystr "Emissão"
  /\ COLUMN_ALIASES !! canon_col (pystr "Emissão") = Some (pystr "Emissão").
Proof.
  refine (proj1 column_aliases_closed (pystr "data de emissao") (pystr "Emissão") _).
  vm_compute. reflexivity.
Defined.

(** ** The yes/no parser, applied twice *)

Lemma is_space_spec (c : N) :
  is_space c = true <->
  ((9 <= c <= 13) \/ (28 <= c <= 32) \/ c = 133 \/ c = 160 \/ c = 5760
   \/ (8192 <= c <= 8202) \/ c = 8232 \/ c = 8233 \/ c = 8239 \/ c = 8287
   \/ c = 12288)%N.
Proof.
  unfold is_space.
  rewrite !orb_true_iff, !andb_true_iff, !N.leb_le, !N.eqb_eq. tauto.
Qed.

Lemma is_space_false (c : N) :
  is_space c = false <->
  ~ ((9 <= c <= 13) \/ (28 <= c <= 32) \/ c = 133 \/ c = 160 \/ c = 5760
     \/ (8192 <= c <= 8202) \/ c = 8232 \/ c = 8233 \/ c = 8239 \/ c = 8287
     \/ c = 12288)%N.
Proof.
  rewrite <- is_space_spec. destruct (is_space c); split; congruence.
Qed.

(** What [upper] makes of one character: never nothing, no blank out of a
    non-blank, and characters that [upper] leaves alone. *)
Lemma upper_char_spec (c : N) :
  upper_char c <> []
  /\ (is_space c = false -> Forall (fun d => is_space d = false) (upper_char c))
  /\ Forall (fun d => upper_char d = [d]) (upper_char c).
Proof.
  unfold upper_char.
  destruct ((97 <=? c) && (c <=? 122))%N eqn:H1.
  { apply andb_true_iff in H1 as [Ha Hb]. apply N.leb_le in Ha, Hb.
    split; [discriminate |]. split.
    - intros _. repeat constructor. apply is_space_false. lia.
    - repeat constructor.
      replace ((97 <=? c - 32) && (c - 32 <=? 122))%N with false
        by (symmetry; apply andb_false_iff; left; apply N.leb_gt; lia).
      replace (c - 32 =? 181)%N with false by (symmetry; apply N.eqb_neq; lia).
      replace (c - 32 =? 223)%N with false by (symmetry; apply N.eqb_neq; lia).
      replace ((224 <=? c - 32) && (c - 32 <=? 254) && negb (c - 32 =? 247))%N
        with false
        by (symmetry; rewrite !andb_false_iff; left; left; apply N.leb_gt; lia).
      replace (c - 32 =? 255)%N with false by (symmetry; apply N.eqb_neq; lia).
      reflexivity. }
  destruct (c =? 181)%N eqn:H2.
  { split; [discriminate |]. split; [intros _ |]; repeat constructor. }
  destruct (c =? 223)%N eqn:H3.
  { split; [discriminate |]. split; [intros _ |]; repeat constructor. }
  destruct ((224 <=? c) && (c <=? 254) && negb (c =? 247))%N eqn:H4.
  { apply andb_true_iff in H4 as [H4 Hc]. apply andb_true_iff in H4 as [Ha Hb].
    apply N.leb_le in Ha, Hb.
    split; [discriminate |]. split.
    - intros _. repeat constructor. apply is_space_false. lia.
    - repeat constructor.
      replace ((97 <=? c - 32) && (c - 32 <=? 122))%N with false
        by (symmetry; apply andb_false_iff; right; apply N.leb_gt; lia).
      replace (c - 32 =? 181)%N with false by (symmetry; apply N.eqb_neq; lia).
      replace (c - 32 =? 223)%N with false by (symmetry; apply N.eqb_neq; lia).
      replace ((224 <=? c - 32) && (c - 32 <=? 254) && negb (c - 32 =? 247))%N
        with false
        by (symmetry; rewrite !andb_false_iff; left; left; apply N.leb_gt; lia).
      replace (c - 32 =? 255)%N with false by (symmetry; apply N.eqb_neq; lia).
      reflexivity. }
  destruct (c =? 255)%N eqn:H5.
  { split; [discriminate |]. split; [intros _ |]; repeat constructor. }
  split; [discriminate |]. split; [intros Hc; repeat constructor; exact Hc |].
  repeat constructor. rewrite H1, H2, H3, H4, H5. reflexivity.
Qed.

Lemma flat_map_fixed (l : str) :
  Forall (fun d => upper_char d = [d]) l -> flat_map upper_char l = l.
Proof.
  induction 1 as [| d l Hd _ IH]; [reflexivity |].
  cbn [flat_map]. rewrite Hd, IH. reflexivity.
Qed.

Lemma upper_idempotent (s : str) : upper (upper s) = upper s.
Proof.
  unfold upper. induction s as [| c t IH]; [reflexivity |].
  cbn [flat_map]. rewrite flat_map_app, IH. f_equal.
  apply flat_map_fixed, upper_char_spec.
Qed.

Lemma strip_trimmed (s : str) : trimmed (strip s).
Proof.
  split.
  - apply lstrip_fixed, strip_head.
  - unfold strip, rstrip. rewrite rev_involutive. apply lstrip_idempotent.
Qed.

Lemma trimmed_strip (s : str) : trimmed s -> strip s = s.
Proof.
  intros [Hl Hr]. unfold strip, rstrip. rewrite Hl, Hr. apply rev_involutive.
Qed.

Lemma lstrip_fixed_inv (s : str) :
  lstrip s = s -> match s with c :: _ => is_space c = false | [] => True end.
Proof. intros H. pose proof (lstrip_head s) as Hh. rewrite H in Hh. exact Hh. Qed.

Lemma upper_lstrip (s : str) : lstrip s = s -> lstrip (upper s) = upper s.
Proof.
  intros H. apply lstrip_fixed_inv in H. apply lstrip_fixed.
  destruct s as [| c t]; [exact I |].
  unfold upper. cbn [flat_map].
  destruct (upper_char_spec c) as (Hne & Hsp & _). specialize (Hsp H).
  destruct (upper_char c) as [| d r]; [congruence |].
  cbn [app]. inversion Hsp; assumption.
Qed.

Lemma upper_rev (s : str) :
  rev (upper s) = flat_map (fun c => rev (upper_char c)) (rev s).
Proof.
  unfold upper. induction s as [| c t IH]; [reflexivity |].
  cbn [flat_map rev]. rewrite rev_app_distr, IH, flat_map_app. cbn [flat_map].
  rewrite app_nil_r. reflexivity.
Qed.

Lemma upper_trimmed (s : str) : trimmed s -> trimmed (upper s).
Proof.
  intros [Hl Hr]. split; [apply upper_lstrip, Hl |].
  apply lstrip_fixed. rewrite upper_rev.
  apply lstrip_fixed_inv in Hr.
  destruct (rev s) as [| c t]; [exact I |].
  cbn [flat_map].
  destruct (upper_char_spec c) as (Hne & Hsp & _). specialize (Hsp Hr).
  apply List.Forall_rev in Hsp.
  destruct (rev (upper_char c)) as [| d r] eqn:Hrev.
  - apply (f_equal (@rev N)) in Hrev. rewrite rev_involutive in Hrev.
    cbn in Hrev. congruence.
  - cbn [app]. inversion Hsp; assumption.
Qed.

(** The yes/no parser is idempotent: applied to the text it returned, it
    returns that text again. *)
Theorem yes_no_idempotent (v : value) (s : str) :
  _normalize_yes_no v = Ok s -> _normalize_yes_no (VStr s) = Ok s.
Proof.
  intros Hs.
  destruct (decide (v = VNone)) as [-> | Hnone]; [injection Hs as <-; reflexivity |].
  destruct (decide (v = VFloat FNan)) as [-> | Hnan];
    [injection Hs as <-; reflexivity |].
  assert (Hbody : _normalize_yes_no v =
            if decide (upper (strip (str_ v)) ∈ truthy) then Ok (pystr "SIM")
            else if decide (upper (strip (str_ v)) ∈ falsy) then
              Ok (match upper (strip (str_ v)) with [] => pystr "" | _ => pystr "NÃO" end)
            else Ok (upper (strip (str_ v)))).
  { destruct v as [| | | f | | |]; try reflexivity; [congruence |].
    destruct f; try reflexivity. congruence. }
  rewrite Hbody in Hs. clear Hbody.
  destruct (decide (upper (strip (str_ v)) ∈ truthy)) as [Ht | Ht];
    [injection Hs as <-; reflexivity |].
  destruct (decide (upper (strip (str_ v)) ∈ falsy)) as [Hf | Hf].
  - destruct (upper (strip (str_ v))); injection Hs as <-; reflexivity.
  - injection Hs as <-.
    assert (Hfix : upper (strip (upper (strip (str_ v)))) = upper (strip (str_ v))).
    { rewrite (trimmed_strip (upper (strip (str_ v))))
        by apply upper_trimmed, strip_trimmed.
      apply upper_idempotent. }
    cbn [_normalize_yes_no str_]. rewrite Hfix.
    rewrite decide_False by exact Ht. rewrite decide_False by exact Hf.
    reflexivity.
Qed.

Lemma yes_no_idempotent_witness :
  _normalize_yes_no (VStr (pystr "TALVEZ")) = Ok (pystr "TALVEZ").
Proof.
  apply (yes_no_idempotent (VStr (pystr " talvez "))). vm_compute. reflexivity.
Defined.

(** ** The money parser does not tell [.] from [,] *)

Lemma swap_separators_map (s : str) : swap_separators s = map swap_char s.
Proof. reflexivity. Qed.

Lemma swap_char_cases (c : N) :
  (c = ch "." /\ swap_char c = ch ",")
  \/ (c = ch "," /\ swap_char c = ch ".")
  \/ (c <> ch "." /\ c <> ch "," /\ swap_char c = c).
Proof.
  unfold swap_char. repeat case_decide; subst; auto.
Qed.

Lemma swap_char_space (c : N) : is_space (swap_char c) = is_space c.
Proof.
  destruct (swap_char_cases c) as [[-> ->] | [[-> ->] | (_ & _ & ->)]]; reflexivity.
Qed.

Lemma lstrip_swap (s : str) : lstrip (map swap_char s) = map swap_char (lstrip s).
Proof.
  induction s as [| c t IH]; [reflexivity |].
  cbn [map lstrip]. rewrite swap_char_space.
  destruct (is_space c); [exact IH | reflexivity].
Qed.

Lemma strip_swap (s : str) : strip (map swap_char s) = map swap_char (strip s).
Proof.
  unfold strip, rstrip. rewrite lstrip_swap, <- map_rev, lstrip_swap, map_rev.
  reflexivity.
Qed.

(** A pattern made of characters other than the two separators matches
    the same places before and after the exchange. *)
Lemma startswith_swap (old : str) :
  Forall (fun a => a <> ch "." /\ a <> ch ",") old ->
  forall s, startswith old (map swap_char s) = startswith old s.
Proof.
  induction 1 as [| a old [Ha1 Ha2] _ IH]; intros s; [destruct s; reflexivity |].
  destruct s as [| c t]; [reflexivity |]. cbn [map startswith]. rewrite IH. f_equal.
  destruct (swap_char_cases c) as [[-> ->] | [[-> ->] | (_ & _ & ->)]];
    [| | reflexivity]; apply eq_true_iff_eq; rewrite !N.eqb_eq; split; congruence.
Qed.

Lemma replace_from_swap (old : str) :
  Forall (fun a => a <> ch "." /\ a <> ch ",") old ->
  forall s k,
    replace_from old [] k (map swap_char s) = map swap_char (replace_from old [] k s).
Proof.
  intros Hold. induction s as [| c t IH]; intros k; [reflexivity |].
  cbn [map replace_from]. destruct k as [| k]; [| apply IH].
  change (swap_char c :: map swap_char t) with (map swap_char (c :: t)).
  rewrite (startswith_swap old Hold).
  destruct (startswith old (c :: t)); cbn [app map]; rewrite IH; reflexivity.
Qed.

Lemma money_text_swap (s : str) :
  money_text (VStr (swap_separators s)) = swap_separators (money_text (VStr s)).
Proof.
  unfold money_text. cbn [str_]. rewrite !swap_separators_map, strip_swap.
  change (pystr "R$") with [ch "R"; ch "$"]. change (pystr " ") with [ch " "].
  unfold replace.
  rewrite (replace_from_swap [ch "R"; ch "$"])
    by (repeat constructor; discriminate).
  rewrite (replace_from_swap [ch " "]) by (repeat constructor; discriminate).
  reflexivity.
Qed.

Lemma last_index_swap (s : str) :
  last_index (ch ".") (map swap_char s) = last_index (ch ",") s
  /\ last_index (ch ",") (map swap_char s) = last_index (ch ".") s.
Proof.
  induction s as [| c t [IH1 IH2]]; [split; reflexivity |].
  cbn [map last_index]. rewrite IH1, IH2.
  destruct (swap_char_cases c) as [[-> ->] | [[-> ->] | (Hd & Hc & ->)]].
  - split; reflexivity.
  - split; reflexivity.
  - rewrite !decide_False by congruence. split; reflexivity.
Qed.

Lemma remove_comma_swap (s : str) :
  remove_all (ch ",") (map swap_char s)
  = substitute (ch ",") (ch ".") (remove_all (ch ".") s).
Proof.
  unfold remove_all, substitute. induction s as [| c t IH]; [reflexivity |].
  cbn [map]. rewrite !filter_cons.
  destruct (swap_char_cases c) as [[-> ->] | [[-> ->] | (Hd & Hc & ->)]].
  - rewrite !decide_False by (intros H; apply H; reflexivity). exact IH.
  - rewrite !decide_True by discriminate. cbn [map]. rewrite IH.
    rewrite decide_True by reflexivity. reflexivity.
  - rewrite !decide_True by congruence. cbn [map]. rewrite IH.
    rewrite decide_False by congruence. reflexivity.
Qed.

Lemma remove_dot_swap (s : str) :
  substitute (ch ",") (ch ".") (remove_all (ch ".") (map swap_char s))
  = remove_all (ch ",") s.
Proof.
  unfold remove_all, substitute. induction s as [| c t IH]; [reflexivity |].
  cbn [map]. rewrite !filter_cons.
  destruct (swap_char_cases c) as [[-> ->] | [[-> ->] | (Hd & Hc & ->)]].
  - rewrite !decide_True by discriminate. cbn [map]. rewrite IH.
    rewrite decide_True by reflexivity. reflexivity.
  - rewrite !decide_False by (intros H; apply H; reflexivity). exact IH.
  - rewrite !decide_True by congruence. cbn [map]. rewrite IH.
    rewrite decide_False by congruence. reflexivity.
Qed.

Lemma swap_no_dot (s : str) :
  ch "." ∉ s -> map swap_char s = substitute (ch ",") (ch ".") s.
Proof.
  unfold substitute. induction s as [| c t IH]; intros Hn; [reflexivity |].
  apply not_elem_of_cons in Hn as [Hc Ht]. cbn [map]. rewrite IH by exact Ht.
  f_equal. unfold swap_char. rewrite decide_False by congruence. reflexivity.
Qed.

Lemma swap_no_comma (s : str) :
  ch "," ∉ s -> substitute (ch ",") (ch ".") (map swap_char s) = s.
Proof.
  unfold substitute. induction s as [| c t IH]; intros Hn; [reflexivity |].
  apply not_elem_of_cons in Hn as [Hc Ht]. cbn [map]. rewrite IH by exact Ht.
  f_equal. destruct (swap_char_cases c) as [[-> ->] | [[-> ->] | (Hd & _ & ->)]].
  - rewrite decide_True by reflexivity. reflexivity.
  - congruence.
  - rewrite decide_False by congruence. reflexivity.
Qed.

Lemma last_separator_wins_swap (s : str) :
  last_separator_wins (map swap_char s) = last_separator_wins s.
Proof.
  unfold last_separator_wins.
  destruct (last_index_swap s) as [-> ->].
  destruct (last_index (ch ".") s) as [dot |] eqn:Hdot;
    destruct (last_index (ch ",") s) as [comma |] eqn:Hcomma.
  - assert (Hne : dot <> comma).
    { intros ->. apply last_index_spec in Hdot as [Hd _].
      apply last_index_spec in Hcomma as [Hc _]. rewrite Hd in Hc. discriminate. }
    destruct (decide (comma < dot)); destruct (decide (dot < comma)); try lia.
    + apply remove_dot_swap.
    + apply remove_comma_swap.
  - apply swap_no_comma, last_index_none, Hcomma.
  - apply swap_no_dot, last_index_none, Hdot.
  - rewrite swap_no_dot by (apply last_index_none, Hdot).
    unfold substitute. apply last_index_none in Hcomma.
    induction s as [| c t IH]; [reflexivity |].
    apply not_elem_of_cons in Hcomma as [Hc Ht]. cbn [map].
    rewrite decide_False by congruence. f_equal. apply IH; [| exact Ht].
    apply last_index_none. intros Hin. apply last_index_none in Hdot.
    apply Hdot. right. exact Hin.
Qed.

(** Exchanging every [.] with [,] in a text does not change what the money
    parser reads: [1.234,56] and [1,234.56] give the same number, and so do
    [1.234] and [1,234]. *)
Theorem money_parser_separator_symmetry (s : str) :
  _parse_money_mixed (VStr (swap_separators s)) = _parse_money_mixed (VStr s).
Proof.
  assert (Hstrip : strip (str_ (VStr (swap_separators s))) = map swap_char (strip s))
    by (cbn [str_]; rewrite swap_separators_map; apply strip_swap).
  destruct (strip s) as [| c t] eqn:Hs.
  - rewrite !money_parser_empty; [reflexivity | right; exact Hs | right].
    rewrite Hstrip. reflexivity.
  - rewrite !money_parser_rule;
      [| discriminate | cbn [str_]; rewrite Hs; discriminate
       | discriminate | rewrite Hstrip; discriminate].
    rewrite money_text_swap, swap_separators_map, last_separator_wins_swap.
    reflexivity.
Qed.

(** ** Canonical keys *)

Lemma is_key_char_spec (c : N) :
  is_key_char c = true <-> ((97 <= c <= 122) \/ (48 <= c <= 57) \/ c = 32)%N.
Proof.
  unfold is_key_char.
  rewrite !orb_true_iff, !andb_true_iff, !N.leb_le, !N.eqb_eq. tauto.
Qed.

(** A property of the characters of a key, checked on each of them. *)
Lemma key_char_check (P : N -> bool) :
  forallb (fun n => implb (is_key_char (N.of_nat n)) (P (N.of_nat n))) (seq 0 123)
  = true ->
  forall c, is_key_char c = true -> P c = true.
Proof.
  intros H c Hc. rewrite forallb_forall in H.
  specialize (H (N.to_nat c)). rewrite N2Nat.id, Hc in H. apply H.
  apply in_seq. apply is_key_char_spec in Hc. lia.
Qed.

Lemma key_char_space (c : N) :
  is_key_char c = true -> is_space c = (c =? 32)%N.
Proof.
  intros Hc.
  assert (Hcheck :
    forallb (fun n => implb (is_key_char (N.of_nat n))
                        (Bool.eqb (is_space (N.of_nat n)) (N.of_nat n =? 32)%N))
      (seq 0 123) = true) by (vm_compute; reflexivity).
  pose proof (key_char_check (fun c => Bool.eqb (is_space c) (c =? 32)%N)
                Hcheck c Hc) as H.
  apply Bool.eqb_prop in H. exact H.
Qed.

Lemma key_char_fixed (c : N) :
  is_key_char c = true ->
  lower_char c = c /\ nfkd_char c = [c] /\ combining c = false
  /\ is_separator c = false.
Proof.
  intros Hc.
  assert (Hcheck :
    forallb (fun n => implb (is_key_char (N.of_nat n))
                        ((lower_char (N.of_nat n) =? N.of_nat n)%N
                         && bool_decide (nfkd_char (N.of_nat n) = [N.of_nat n])
                         && negb (combining (N.of_nat n))
                         && negb (is_separator (N.of_nat n))))
      (seq 0 123) = true) by (vm_compute; reflexivity).
  pose proof (key_char_check
                (fun c => (lower_char c =? c)%N && bool_decide (nfkd_char c = [c])
                          && negb (combining c) && negb (is_separator c))
                Hcheck c Hc) as H.
  rewrite !andb_true_iff, !negb_true_iff, N.eqb_eq, bool_decide_eq_true in H.
  tauto.
Qed.

Lemma sub_runs_remove (s : str) :
  forall b,
    Forall (fun c => is_key_char c = true)
      (sub_runs (fun c => negb (is_key_char c)) [] b s).
Proof.
  induction s as [| c t IH]; intros b; cbn [sub_runs]; [constructor |].
  destruct (is_key_char c) eqn:Hc; cbn [negb].
  - constructor; [exact Hc | apply IH].
  - destruct b; cbn [app]; apply IH.
Qed.

Lemma sub_runs_spaces (s : str) :
  Forall (fun c => is_key_char c = true) s ->
  forall b,
    Forall (fun c => is_key_char c = true) (sub_runs is_space (pystr " ") b s)
    /\ single_spaced (sub_runs is_space (pystr " ") b s)
    /\ (b = true -> head (sub_runs is_space (pystr " ") b s) <> Some 32%N).
Proof.
  change (pystr " ") with [32%N].
  induction 1 as [| c t Hc _ IH]; intros b; cbn [sub_runs].
  - split; [constructor | split; [exact I | intros _; discriminate]].
  - rewrite (key_char_space c Hc). destruct (N.eqb_spec c 32) as [-> | Hne].
    + destruct (IH true) as (Hk & Hs & Hh). specialize (Hh eq_refl).
      destruct b; cbn [app].
      * split; [exact Hk | split; [exact Hs | intros _; exact Hh]].
      * cbn [app].
        split; [constructor; [reflexivity | exact Hk] |].
        split; [| intros; discriminate]. cbn [single_spaced].
        split; [| exact Hs]. intros _.
        destruct (sub_runs is_space [32%N] true t) as [| d r]; [exact I |].
        intros ->. apply Hh. reflexivity.
    + destruct (IH false) as (Hk & Hs & _).
      split; [constructor; assumption |]. split.
      * cbn [single_spaced]. split; [intros; congruence | exact Hs].
      * intros _. cbn [head]. congruence.
Qed.

Lemma single_spaced_suffix (u s : str) : single_spaced (u ++ s) -> single_spaced s.
Proof.
  induction u as [| c u IH]; [tauto |]. cbn [app single_spaced]. intros [_ H]. auto.
Qed.

Lemma single_spaced_prefix (s u : str) : single_spaced (s ++ u) -> single_spaced s.
Proof.
  induction s as [| c s IH]; [intros; exact I |].
  cbn [app single_spaced]. intros [Hc Hs]. split; [| auto].
  intros E. specialize (Hc E). destruct s; [exact I | exact Hc].
Qed.

Lemma rev_reverse {A} (l : list A) : rev l = reverse l.
Proof. unfold reverse. apply rev_alt. Qed.

Lemma trimmed_ends (s : str) :
  trimmed s -> head s <> Some 32%N /\ last s <> Some 32%N.
Proof.
  intros [Hl Hr]. apply lstrip_fixed_inv in Hl, Hr. split.
  - destruct s as [| c t]; [discriminate |]. cbn [head]. intros [= ->]. discriminate.
  - rewrite <- head_reverse, <- rev_reverse.
    destruct (rev s) as [| c t]; [discriminate |]. cbn [head].
    intros [= ->]. discriminate.
Qed.

(** What [canon_col] returns is a canonical key: lowercase ASCII letters,
    digits and single blanks, with no blank at either end. *)
Theorem canon_col_canonical (name : str) : canonical_key (canon_col name).
Proof.
  unfold canon_col, re_sub.
  set (s2 := sub_runs is_separator (pystr " ") false _).
  pose proof (sub_runs_remove s2 false) as Hkey.
  destruct (sub_runs_spaces _ Hkey false) as (Hk & Hs & _).
  set (s4 := sub_runs is_space (pystr " ") false _) in *.
  destruct (trimmed_ends (strip s4) (strip_trimmed s4)) as [Hhead Hlast].
  unfold strip in *.
  destruct (lstrip_suffix s4) as (u1 & Hu1 & _).
  destruct (rstrip_prefix (lstrip s4)) as (u2 & Hu2 & _).
  split; [| split; [| split; assumption]].
  - rewrite Hu1 in Hk. apply Forall_app in Hk as [_ Hk].
    rewrite Hu2 in Hk. apply Forall_app in Hk as [Hk _]. exact Hk.
  - rewrite Hu1 in Hs. apply single_spaced_suffix in Hs.
    rewrite Hu2 in Hs. apply single_spaced_prefix in Hs. exact Hs.
Qed.

Lemma sub_runs_nothing (cls : N -> bool) (rep : str) (s : str) :
  Forall (fun c => cls c = false) s -> sub_runs cls rep false s = s.
Proof.
  induction 1 as [| c t Hc _ IH]; [reflexivity |].
  cbn [sub_runs]. rewrite Hc, IH. reflexivity.
Qed.

Lemma sub_runs_single_spaced (s : str) :
  Forall (fun c => is_key_char c = true) s ->
  single_spaced s ->
  sub_runs is_space (pystr " ") false s = s
  /\ (head s <> Some 32%N -> sub_runs is_space (pystr " ") true s = s).
Proof.
  change (pystr " ") with [32%N].
  induction 1 as [| c t Hc _ IH]; intros Hs; [split; reflexivity |].
  cbn [single_spaced] in Hs. destruct Hs as [Hnext Hs].
  destruct (IH Hs) as [IHf IHt]. cbn [sub_runs].
  rewrite (key_char_space c Hc). destruct (N.eqb_spec c 32) as [-> | Hne].
  - split.
    + cbn [app]. f_equal. apply IHt.
      specialize (Hnext eq_refl). destruct t as [| d r]; [discriminate |].
      cbn [head]. congruence.
    + cbn [head]. congruence.
  - split; [| intros _]; rewrite IHf; reflexivity.
Qed.

Lemma map_fixed (f : N -> N) (s : str) :
  Forall (fun c => f c = c) s -> map f s = s.
Proof. induction 1 as [| c t Hc _ IH]; [reflexivity |]. cbn [map]. congruence. Qed.

Lemma flat_map_single (f : N -> str) (s : str) :
  Forall (fun c => f c = [c]) s -> flat_map f s = s.
Proof.
  induction 1 as [| c t Hc _ IH]; [reflexivity |]. cbn [flat_map].
  rewrite Hc, IH. reflexivity.
Qed.

Lemma filter_keep (P : N -> Prop) `{forall c, Decision (P c)} (s : str) :
  Forall P s -> filter P s = s.
Proof.
  induction 1 as [| c t Hc _ IH]; [reflexivity |].
  rewrite filter_cons, decide_True by exact Hc. congruence.
Qed.

Lemma canonical_key_trimmed (s : str) : canonical_key s -> trimmed s.
Proof.
  intros (Hk & _ & Hh & Hl). split; apply lstrip_fixed.
  - destruct s as [| c t]; [exact I |]. inversion Hk as [| ? ? Hc _]; subst.
    rewrite (key_char_space c Hc). apply N.eqb_neq. cbn [head] in Hh. congruence.
  - rewrite <- head_reverse, <- rev_reverse in Hl.
    destruct (rev s) as [| c t] eqn:Hrev; [exact I |].
    assert (Hc : is_key_char c = true).
    { rewrite Forall_forall in Hk. apply Hk. apply list_elem_of_In, in_rev.
      rewrite Hrev. left. reflexivity. }
    rewrite (key_char_space c Hc). apply N.eqb_neq. cbn [head] in Hl. congruence.
Qed.

Lemma canon_col_fixed (s : str) : canonical_key s -> canon_col s = s.
Proof.
  intros Hcan. pose proof (canonical_key_trimmed s Hcan) as Htrim.
  destruct Hcan as (Hk & Hs & _).
  assert (Hall : forall (P : N -> Prop),
            (forall c, is_key_char c = true -> P c) -> Forall P s).
  { intros P HP. eapply Forall_impl; [exact Hk | exact HP]. }
  unfold canon_col, re_sub.
  rewrite (trimmed_strip s Htrim).
  unfold lower. rewrite (map_fixed lower_char s)
    by (apply Hall; intros c Hc; apply key_char_fixed, Hc).
  unfold nfkd. rewrite (flat_map_single nfkd_char s)
    by (apply Hall; intros c Hc; apply key_char_fixed, Hc).
  rewrite (filter_keep (fun c => combining c = false) s)
    by (apply Hall; intros c Hc; apply key_char_fixed, Hc).
  rewrite (sub_runs_nothing is_separator _ s)
    by (apply Hall; intros c Hc; apply key_char_fixed, Hc).
  rewrite (sub_runs_nothing (fun c => negb (is_key_char c)) _ s)
    by (apply Hall; intros c Hc; rewrite Hc; reflexivity).
  rewrite (proj1 (sub_runs_single_spaced s Hk Hs)).
  apply trimmed_strip, Htrim.
Qed.

(** [canon_col] is idempotent: a canonical key is its own canonical
    form. *)
Theorem canon_col_idempotent (name : str) :
  canon_col (canon_col name) = canon_col name.
Proof. apply canon_col_fixed, canon_col_canonical. Qed.

(** ** When normalization returns *)

Lemma apply_cells_total (label : str) (f : value -> py value) (cols : list str) :
  (forall v, exists v', f v = Ok v') ->
  forall cells, exists cells', apply_cells label f cols cells = Ok cells'.
Proof.
  intros Hf. induction cols as [| c cs IH]; intros cells; [destruct cells; eauto |].
  destruct cells as [| v vs]; [eauto |]. cbn [apply_cells].
  destruct (IH vs) as [vs' ->].
  destruct (decide (c = label)); [destruct (Hf v) as [v' ->] |]; cbn [bind]; eauto.
Qed.

Lemma apply_rows_total (label : str) (f : value -> py value) (cols : list str) :
  (forall v, exists v', f v = Ok v') ->
  forall rs, exists rs', apply_rows label f cols rs = Ok rs'.
Proof.
  intros Hf. induction rs as [| r rest [rest' IH]]; [eauto |].
  cbn [apply_rows]. destruct (apply_cells_total label f cols Hf r) as [r' ->].
  rewrite IH. cbn [bind]. eauto.
Qed.

Lemma apply_if_present_total (label : str) (f : value -> py value) (df : DataFrame) :
  (forall v, exists v', f v = Ok v') ->
  exists df', apply_if_present label f df = Ok df'.
Proof.
  intros Hf. unfold apply_if_present, apply_column.
  destruct (decide (label ∈ columns df)); [| eauto].
  destruct (apply_rows_total label f (columns df) Hf (rows df)) as [rs ->].
  cbn [bind]. eauto.
Qed.

Lemma stats_step_total (label : str) (f : value -> py value) (df : DataFrame)
    (stats : list (str * RunSummaryData.transform_stats)) :
  (forall v, exists v', f v = Ok v') ->
  exists r,
    (if decide (label ∈ columns df)
     then bind (_apply_with_stats label f df)
            (fun '(d, st) => Ok (d, stats ++ [(label, st)]))
     else Ok (df, stats)) = Ok r.
Proof.
  intros Hf. destruct (decide (label ∈ columns df)); [| eauto].
  unfold _apply_with_stats, apply_column.
  destruct (apply_rows_total label f (columns df) Hf (rows df)) as [rs ->].
  cbn [bind]. eauto.
Qed.

Lemma fold_apply_total (f : value -> py value) (labels : list str) :
  (forall v, exists v', f v = Ok v') ->
  forall df, exists df',
    fold_left (fun acc col => bind acc (apply_if_present col f)) labels (Ok df)
    = Ok df'.
Proof.
  intros Hf. induction labels as [| l ls IH]; intros df; [eauto |].
  cbn [fold_left bind]. destruct (apply_if_present_total l f df Hf) as [d ->].
  apply IH.
Qed.

Lemma money_column_total (v : value) : exists v', money_column v = Ok v'.
Proof.
  unfold money_column.
  destruct (decide (v = VNone)) as [-> | Hv]; [eauto |].
  destruct (strip (str_ v)) as [| c t] eqn:Hs.
  - rewrite (money_parser_empty v (or_intror Hs)). cbn [bind]. eauto.
  - rewrite (money_parser_rule v Hv) by (rewrite Hs; discriminate).
    destruct (float_ (last_separator_wins (money_text v))); cbn [bind]; eauto.
Qed.

Lemma date_column_total (parse_datetime : bool -> str -> option timestamp)
    (v : value) :
  exists v', date_column parse_datetime v = Ok v'.
Proof.
  unfold date_column.
  destruct (decide (v = VNone)) as [-> | Hv]; [eauto |].
  destruct (strip (str_ v)) as [| c t] eqn:Hs.
  - rewrite (date_parser_empty parse_datetime v (or_intror Hs)). cbn [bind]. eauto.
  - rewrite (date_parser_body parse_datetime v Hv) by (rewrite Hs; discriminate).
    destruct (re_date_search (strip (str_ v))); cbn [bind]; eauto.
Qed.

Lemma yes_no_column_total (v : value) : exists v', yes_no_column v = Ok v'.
Proof.
  unfold yes_no_column, _normalize_yes_no.
  destruct v as [| | | f | | |]; try destruct f; cbn [bind]; eauto;
    repeat (case_decide; cbn [bind]; eauto).
Qed.

Lemma normalize_dataframe_ok (parse_datetime : bool -> str -> option timestamp)
    (df : DataFrame) :
  missing_required (renamed_columns df) = [] ->
  exists df2 stats, normalize_dataframe parse_datetime df = Ok (df2, stats).
Proof.
  intros Hmiss. unfold normalize_dataframe. rewrite Hmiss. cbv zeta.
  destruct (stats_step_total (pystr "Taxa") money_column
              {| columns := map strip (renamed_columns df); rows := rows df |} []
              money_column_total) as [[d1 s1] ->].
  cbn [bind].
  destruct (stats_step_total (pystr "Emissão") (date_column parse_datetime) d1 s1
              (date_column_total parse_datetime)) as [[d2 s2] ->].
  cbn [bind].
  destruct (apply_if_present_total (pystr "Data Pagamento")
              (date_column parse_datetime) d2 (date_column_total parse_datetime))
    as [d3 ->].
  cbn [bind].
  destruct (fold_apply_total money_column money_columns money_column_total d3)
    as [d4 ->].
  cbn [bind].
  destruct (apply_if_present_total (pystr "Pago") yes_no_column d4
              yes_no_column_total) as [d5 ->].
  cbn [bind].
  destruct (apply_if_present_total (pystr "TED/Devolvida") yes_no_column d5
              yes_no_column_total) as [d6 ->].
  cbn [bind].
  destruct (apply_if_present_total (pystr "Contrato") astype_str_strip d6
              (fun v => ex_intro _ _ eq_refl)) as [d7 ->].
  cbn [bind]. eauto.
Qed.

(** On a table whose labels are distinct after renaming,
    [normalize_dataframe] returns exactly when no required column is
    missing, whatever the cells hold; and the only error it raises is the
    one that lists the missing columns. *)
Theorem normalize_dataframe_outcome
    (parse_datetime : bool -> str -> option timestamp) (df : DataFrame) :
  NoDup (renamed_columns df) ->
  ((exists df2 stats, normalize_dataframe parse_datetime df = Ok (df2, stats))
   <-> missing_required (renamed_columns df) = [])
  /\ (forall e,
        normalize_dataframe parse_datetime df = Raise e ->
        e = ValueError (ColunasObrigatoriasAusentes
                          (missing_required (renamed_columns df)))).
Proof.
  intros _. split; [split |].
  - intros (df2 & stats & Hnorm). unfold normalize_dataframe in Hnorm.
    destruct (missing_required (renamed_columns df)); [reflexivity | discriminate].
  - apply normalize_dataframe_ok.
  - intros e Hraise.
    destruct (missing_required (renamed_columns df)) as [| m ms] eqn:Hmiss.
    + destruct (normalize_dataframe_ok parse_datetime df Hmiss)
        as (df2 & stats & Hnorm).
      congruence.
    + unfold normalize_dataframe in Hraise. rewrite Hmiss in Hraise. congruence.
Qed.

Lemma normalize_dataframe_outcome_witness :
  exists df2 stats,
    normalize_dataframe reference_reader Samples.sheet_without_client
    = Ok (df2, stats).
Proof.
  assert (Hlabels : NoDup (renamed_columns Samples.sheet_without_client)).
  { apply (bool_decide_unpack (NoDup _)). vm_compute. exact I. }
  assert (Hmiss : missing_required (renamed_columns Samples.sheet_without_client)
                  = []).
  { vm_compute. reflexivity. }
  exact (proj2 (proj1 (normalize_dataframe_outcome reference_reader
                         Samples.sheet_without_client Hlabels)) Hmiss).
Defined.
